(** * ReVo: backend routing, fallback execution and engine coordination

    A shallow embedding of the Python code that selects an inference
    backend, walks the fallback chain after a failure, keeps the latency
    statistics and coordinates the three engines, with the properties the
    specification states about it.

    Part I holds the embedding, one module per source file; Part II holds
    the theorems about the specification; Part III holds further
    properties of the code: registration and statistics of the fallback
    manager, sessions of the optimized manager, accounting and health of
    the API manager, the adaptive plan of the coordinator, the catalogue of
    the enhanced manager and the bridge to the providers.

    Conventions.
    - Python [float] is IEEE binary64: Rocq's primitive [float].
    - Python [int] is [Z].
    - A [dict] whose iteration order the code relies on is an association
      list (or the list of its keys when the values are never read).
    - [d.get(k, default)] on a configuration dictionary is an [option]
      field together with its default.
    - A call that may raise returns [PyExc + A]: [inl e] is [raise e].
    - External collaborators (the bridge to the providers, the engines,
      psutil, the clock, the regular-expression engine) are the methods of
      a class over an abstract world [W] that the calls thread through. *)

From Stdlib Require Import Bool List String Ascii ZArith QArith Floats Lia.
From Stdlib Require Import Sorted.
Import ListNotations.

Local Open Scope list_scope.
Local Open Scope string_scope.

(* ===================================================================== *)
(** * Part I: the embedding *)
(* ===================================================================== *)

(** ** Python values shared by the modules *)

Module Py.

(** An exception object; [exc_str] is what [str(e)] returns. *)
Record PyExc : Type := mkExc { exc_type : string; exc_str : string }.

(** [str.lower()] on ASCII text. *)
Definition lower_ascii (c : ascii) : ascii :=
  let n := nat_of_ascii c in
  if (65 <=? n)%nat && (n <=? 90)%nat then ascii_of_nat (n + 32) else c.

Fixpoint lower (s : string) : string :=
  match s with
  | EmptyString => EmptyString
  | String c t => String (lower_ascii c) (lower t)
  end.

(** [needle in hay] on strings. *)
Fixpoint contains (needle hay : string) : bool :=
  if String.prefix needle hay then true
  else match hay with
       | EmptyString => false
       | String _ t => contains needle t
       end.

(** [x in l] on a list (or on the keys of a dict) of strings. *)
Fixpoint mem (x : string) (l : list string) : bool :=
  match l with
  | [] => false
  | y :: t => if String.eqb x y then true else mem x t
  end.

(** [any(word in text for word in words)]. *)
Definition any_in (words : list string) (text : string) : bool :=
  existsb (fun w => contains w text) words.

(** [s[:n]]. *)
Definition take (n : nat) (s : string) : string := substring 0 n s.

(** [sep.join(l)]. *)
Fixpoint join (sep : string) (l : list string) : string :=
  match l with
  | [] => ""
  | [x] => x
  | x :: t => x ++ sep ++ join sep t
  end.

(** [sorted(l, key=key)] and [l.sort(key=key)]: any stable sort gives the
    same list; an element goes in front of the first element of the sorted
    tail whose key is not smaller. *)
Fixpoint insert_by {A : Type} (key : A -> Z) (x : A) (l : list A) : list A :=
  match l with
  | [] => [x]
  | y :: t => if (key x <=? key y)%Z then x :: y :: t
              else y :: insert_by key x t
  end.

Fixpoint sorted_by {A : Type} (key : A -> Z) (l : list A) : list A :=
  match l with
  | [] => []
  | x :: t => insert_by key x (sorted_by key t)
  end.

(** [float(n)] for an [int]: the nearest binary64 value. *)
Definition float_of_Z (n : Z) : float :=
  SF2Prim (binary_normalize 53 1024 n 0 false).

(** [len(s.split())] on text whose blanks are ASCII: the number of maximal
    runs of non-blank characters. *)
Definition is_space (c : ascii) : bool :=
  let n := nat_of_ascii c in
  ((9 <=? n)%nat && (n <=? 13)%nat) || ((28 <=? n)%nat && (n <=? 32)%nat).

Fixpoint count_words_from (in_word : bool) (s : string) : Z :=
  match s with
  | EmptyString => 0%Z
  | String c t =>
      if is_space c then count_words_from false t
      else if in_word then count_words_from true t
           else (1 + count_words_from true t)%Z
  end.

Definition count_words (s : string) : Z := count_words_from false s.

(** [d[k] = d.get(k, 0) + 1] on a dict kept in insertion order. *)
Fixpoint tally {K : Type} (eqb : K -> K -> bool) (k : K) (d : list (K * Z))
    : list (K * Z) :=
  match d with
  | [] => [(k, 1%Z)]
  | (k', n) :: t => if eqb k' k then (k', (n + 1)%Z) :: t
                    else (k', n) :: tally eqb k t
  end.

(** [d.get(k, 0)]. *)
Fixpoint count_for {K : Type} (eqb : K -> K -> bool) (k : K) (d : list (K * Z))
    : Z :=
  match d with
  | [] => 0%Z
  | (k', n) :: t => if eqb k' k then n else count_for eqb k t
  end.

(** [==] on values that are a string or [None]. *)
Definition option_eqb (a b : option string) : bool :=
  match a, b with
  | Some x, Some y => String.eqb x y
  | None, None => true
  | _, _ => false
  end.

End Py.

(** What an awaited call to an external collaborator can do. *)
Inductive CallResult (A : Type) : Type :=
| Completed (a : A)        (* the call returned [a] *)
| TimedOut                 (* [asyncio.wait_for] gave up *)
| Failed (e : Py.PyExc).   (* the call raised [e] *)
Arguments Completed {A} a.
Arguments TimedOut {A}.
Arguments Failed {A} e.

(* ===================================================================== *)
(** ** src/revoagent/ai/llm_fallback_manager.py *)
(* ===================================================================== *)

Module FallbackManager.
Import Py.

Inductive FallbackReason : Type :=
| API_ERROR | TIMEOUT | RATE_LIMIT | CONTENT_POLICY | LOW_RESOURCES
| MANUAL_OVERRIDE | COST_LIMIT | CONTENT_BASED | SYSTEM_ERROR.

Definition reason_value (r : FallbackReason) : string :=
  match r with
  | API_ERROR => "api_error"
  | TIMEOUT => "timeout"
  | RATE_LIMIT => "rate_limit"
  | CONTENT_POLICY => "content_policy"
  | LOW_RESOURCES => "low_resources"
  | MANUAL_OVERRIDE => "manual_override"
  | COST_LIMIT => "cost_limit"
  | CONTENT_BASED => "content_based"
  | SYSTEM_ERROR => "system_error"
  end.

Record FallbackEvent : Type := mkEvent {
  timestamp : float;
  original_model : option string;
  fallback_model : string;
  reason : FallbackReason;
  message_hash : string;
  success : bool;
  latency : option float;
  error_message : option string
}.

(** An entry of [api_fallbacks] in the configuration file. *)
Record Provider : Type := mkProvider {
  model_name : option string;
  provider_enabled : option bool;
  priority : option Z
}.

(** [provider.get("model_name", "")]. *)
Definition get_model_name (p : Provider) : string :=
  match model_name p with Some n => n | None => "" end.

(** [provider.get("enabled", False)]. *)
Definition get_enabled (p : Provider) : bool :=
  match provider_enabled p with Some b => b | None => false end.

(** [p.get("priority", 999)]. *)
Definition get_priority (p : Provider) : Z :=
  match priority p with Some z => z | None => 999%Z end.

(** An entry of [local_models] in the configuration file. *)
Record LocalModelConfig : Type := mkLocal {
  local_enabled : option bool;
  min_ram_gb : option float
}.

Record RoutingRule : Type := mkRule {
  pattern : option string;
  preferred_models : option (list string)
}.

(** [routing_rules]: [content_based] is [None] when the key is absent;
    [resource_based] is [None] when the key is absent and otherwise holds
    [low_memory.preferred_models] (empty when missing). *)
Record RoutingRules : Type := mkRules {
  content_based : option (list RoutingRule);
  resource_based : option (list string)
}.

Record Config : Type := mkConfig {
  cfg_enabled : option bool;                   (* fallback_system.enabled *)
  cfg_timeout : option string;                 (* fallback_system.timeout, as printed *)
  cfg_local_models : list (string * LocalModelConfig);
  cfg_api_primary : option Provider;           (* api_fallbacks.primary *)
  cfg_api_secondary : option (list Provider);  (* api_fallbacks.secondary *)
  cfg_routing_rules : option RoutingRules;
  cfg_persistent_failure_strategy : option string
}.

(** The [api_fallbacks] cache of the manager: each key may be absent. *)
Record ApiFallbacks : Type := mkApi {
  primary : option Provider;
  secondary : option (list Provider)
}.

Record Manager : Type := mkManager {
  config : Config;
  local_models : list string;     (* keys of the dict, in insertion order *)
  api_fallbacks : ApiFallbacks;
  fallback_events : list FallbackEvent;
  enabled : bool;
  routing_rules : RoutingRules;
  cpu_optimized : bool            (* [self.cpu_optimized] is not [None] *)
}.

(** The metadata dictionary returned next to the response text; a key
    that the code does not set is [None]. *)
Record Metadata : Type := mkMeta {
  md_model : option string;
  md_original_model : option (option string);
  md_fallback_used : bool;
  md_fallback_reason : option string;
  md_fallback_success : option bool;
  md_latency : option float;
  md_error : option string
}.

(** The collaborators of the fallback manager. *)
Class Services (W : Type) : Type := {
  (** [time.time()] *)
  clock : W -> float;
  (** [llm_bridge.generate_response(message, model)] under [wait_for] *)
  bridge_generate_response : string -> option string -> W -> CallResult string * W;
  (** the same call awaited without a time limit *)
  bridge_generate_unbounded : string -> option string -> W -> (PyExc + string) * W;
  (** [llm_bridge.get_available_models()]; [None] when it raises *)
  bridge_get_available_models : W -> option (list string);
  (** [model_manager.get_model_info(id).status.name]; [None] when there
      is no information or the lookup raises *)
  manager_status_name : W -> string -> option string;
  (** loading the CPU model if needed, then [generate_code] under
      [wait_for], then [.get("generated_code", "")] *)
  cpu_generate_code : string -> W -> CallResult string * W;
  (** [psutil.virtual_memory().percent]; [None] when psutil raises *)
  memory_percent : W -> option float;
  (** [psutil.virtual_memory().available / (1024**3)] *)
  memory_available_gb : W -> option float;
  (** [re.search(pattern, message, re.IGNORECASE)] is a match; [None]
      when the pattern does not compile *)
  re_search : string -> string -> option bool;
  (** [str(hash(message))[:10]] *)
  hash10 : string -> string
}.

Section WithServices.
Context {W : Type} `{Services W}.

(** [_check_system_resources] *)
Definition _check_system_resources (mc : LocalModelConfig) (w : W) : bool :=
  let min_ram := match min_ram_gb mc with Some r => r | None => 0%float end in
  if PrimFloat.ltb 0%float min_ram then
    match memory_available_gb w with
    | Some available => if PrimFloat.ltb available min_ram then false else true
    | None => true                      (* except: return True *)
    end
  else true.

(** [self.local_models[model_id] = ...]: a new key goes last, a known key
    keeps its place. *)
Definition register_key (model_id : string) (keys : list string) : list string :=
  if mem model_id keys then keys else (keys ++ [model_id])%list.

(** [_initialize_local_model]: the new [local_models] and the returned flag. *)
Definition _initialize_local_model (keys : list string) (model_id : string)
    (mc : LocalModelConfig) (w : W) : list string * bool :=
  if _check_system_resources mc w then (register_key model_id keys, true)
  else (keys, false).

(** The loop of [initialize] over [config["local_models"]]. *)
Fixpoint initialize_local_models (keys : list string)
    (l : list (string * LocalModelConfig)) (w : W) : list string :=
  match l with
  | [] => keys
  | (model_id, mc) :: t =>
      let keys' :=
        if match local_enabled mc with Some b => b | None => false end
        then fst (_initialize_local_model keys model_id mc w)
        else keys in
      initialize_local_models keys' t w
  end.

(** The caching of the API fallbacks in [initialize]. *)
Definition cache_api_fallbacks (c : Config) : ApiFallbacks :=
  {| primary :=
       match cfg_api_primary c with
       | Some p => if get_enabled p then Some p else None
       | None => None
       end;
     secondary :=
       match cfg_api_secondary c with
       | Some l => Some (sorted_by get_priority (filter get_enabled l))
       | None => None
       end |}.

(** [initialize], once the configuration is loaded. *)
Definition initialize (c : Config) (w : W) : Manager :=
  {| config := c;
     local_models := initialize_local_models [] (cfg_local_models c) w;
     api_fallbacks := cache_api_fallbacks c;
     fallback_events := [];
     enabled := match cfg_enabled c with Some b => b | None => true end;
     routing_rules :=
       match cfg_routing_rules c with
       | Some r => r
       | None => {| content_based := None; resource_based := None |}
       end;
     cpu_optimized := true |}.

(** [_is_model_available]; [None] when the bridge raises. *)
Definition _is_model_available (m : Manager) (model_id : string) (w : W)
    : option bool :=
  if mem model_id (local_models m) then Some true
  else match bridge_get_available_models w with
       | None => None
       | Some api_models =>
           if mem model_id api_models then Some true
           else match manager_status_name w model_id with
                | Some name => if String.eqb name "ERROR" then Some false
                               else Some true
                | None => Some false
                end
       end.

(** [_check_low_memory_mode] *)
Definition _check_low_memory_mode (w : W) : bool :=
  match memory_percent w with
  | Some p => PrimFloat.ltb 75%float p
  | None => false
  end.

(** The loop [for model in preferred_models: if available: return model].
    [None]: an exception escaped; [Some None]: no model returned. *)
Fixpoint first_available (m : Manager) (preferred : list string) (w : W)
    : option (option string) :=
  match preferred with
  | [] => Some None
  | model :: t =>
      match _is_model_available m model w with
      | None => None
      | Some true => Some (Some model)
      | Some false => first_available m t w
      end
  end.

(** The loop over the content-based rules. *)
Fixpoint route_by_content (m : Manager) (rules : list RoutingRule)
    (message : string) (w : W) : option (option string) :=
  match rules with
  | [] => Some None
  | rule :: t =>
      let pat := match pattern rule with Some p => p | None => "" end in
      let matched :=
        if String.eqb pat "" then Some false else re_search pat message in
      match matched with
      | None => None
      | Some false => route_by_content m t message w
      | Some true =>
          match first_available m
                  (match preferred_models rule with Some l => l | None => [] end) w with
          | None => None
          | Some (Some model) => Some (Some model)
          | Some None => route_by_content m t message w
          end
      end
  end.

(** The body of the [try] of [select_optimal_model]. *)
Definition select_routed (m : Manager) (message : string) (w : W)
    : option (option string) :=
  let low_memory_mode := _check_low_memory_mode w in
  match
    match content_based (routing_rules m) with
    | Some rules => route_by_content m rules message w
    | None => Some None
    end
  with
  | None => None
  | Some (Some model) => Some (Some model)
  | Some None =>
      match resource_based (routing_rules m) with
      | Some preferred =>
          if low_memory_mode then first_available m preferred w
          else Some None
      | None => Some None
      end
  end.

(** [select_optimal_model(message, context)], where [model] is
    [context["model"]]. *)
Definition select_optimal_model (m : Manager) (message : string)
    (model : option string) (w : W) : option string :=
  if negb (enabled m) then model
  else match select_routed m message w with
       | Some (Some routed) => Some routed
       | Some None => model          (* return original_model *)
       | None => model               (* except: return context.get("model", "") *)
       end.

(** The comprehension that removes duplicates and keeps first occurrences. *)
Fixpoint unique_from (seen : list string) (l : list string) : list string :=
  match l with
  | [] => []
  | x :: t => if mem x seen then unique_from seen t
              else x :: unique_from (x :: seen) t
  end.

Definition is_original (original_model : option string) (name : string) : bool :=
  match original_model with
  | Some o => String.eqb name o
  | None => false
  end.

Definition is_local (m : Manager) (model : option string) : bool :=
  match model with
  | Some id => mem id (local_models m)
  | None => false
  end.

Definition secondaries (m : Manager) : list Provider :=
  match secondary (api_fallbacks m) with Some l => l | None => [] end.

(** The list [fallback_chain] before the duplicates are removed. *)
Definition raw_fallback_chain (m : Manager) (original_model : option string)
    : list string :=
  ((if is_local m original_model then
      match primary (api_fallbacks m) with
      | Some p => [get_model_name p]
      | None => []
      end
      ++ map get_model_name (secondaries m)
      ++ filter (fun id => negb (is_original original_model id)) (local_models m)
    else
      match primary (api_fallbacks m) with
      | Some p => if is_original original_model (get_model_name p) then []
                  else [get_model_name p]
      | None => []
      end
      ++ filter (fun n => negb (is_original original_model n))
                (map get_model_name (secondaries m))
      ++ local_models m)
   ++ ["deepseek-r1"])%list.

(** [get_fallback_chain(original_model)] *)
Definition get_fallback_chain (m : Manager) (original_model : option string)
    : list string :=
  unique_from [] (raw_fallback_chain m original_model).

(** [_determine_fallback_reason(error_message)] *)
Definition _determine_fallback_reason (error_message : string) : FallbackReason :=
  let error_lower := lower error_message in
  if contains "time" error_lower
     && (contains "out" error_lower || contains "exceed" error_lower)
  then TIMEOUT
  else if contains "rate" error_lower && contains "limit" error_lower
  then RATE_LIMIT
  else if any_in ["content"; "policy"; "moderation"] error_lower
  then CONTENT_POLICY
  else if any_in ["resource"; "memory"; "capacity"] error_lower
  then LOW_RESOURCES
  else if any_in ["cost"; "billing"; "quota"] error_lower
  then COST_LIMIT
  else API_ERROR.

Definition timeout_text (m : Manager) : string :=
  match cfg_timeout (config m) with Some t => t | None => "30" end.

Definition after_wait_for (m : Manager) (who : string) (r : CallResult string)
    : PyExc + string :=
  match r with
  | Completed text => inr text
  | TimedOut =>
      inl {| exc_type := "TimeoutError";
             exc_str := who ++ " timed out after " ++ timeout_text m ++ "s" |}
  | Failed e => inl e
  end.

(** [_try_generate_with_model(message, model)] *)
Definition _try_generate_with_model (m : Manager) (message : string)
    (model : option string) (w : W) : (PyExc + string) * W :=
  if is_local m model then
    (inr ("Generated from local model "
          ++ match model with Some id => id | None => "None" end
          ++ ": " ++ take 20 message ++ "..."), w)
  else if is_original model "deepseek-r1" && cpu_optimized m then
    let (r, w') := cpu_generate_code message w in
    (after_wait_for m "CPU-optimized model" r, w')
  else
    let (r, w') := bridge_generate_response message model w in
    (after_wait_for m "API model" r, w').

(** How the loop over the fallback chain ends. *)
Inductive LoopExit : Type :=
| FallbackSucceeded (response : string) (fallback_model : string) (latency : float)
| ChainExhausted.

(** The [for] loop of [generate_with_fallback]: the exit, the event as
    mutated so far, the world, and the models handed to
    [_try_generate_with_model], in order. *)
Fixpoint try_fallbacks (m : Manager) (message : string) (chain : list string)
    (event : FallbackEvent) (w : W)
    : LoopExit * FallbackEvent * W * list string :=
  match chain with
  | [] => (ChainExhausted, event, w, [])
  | fallback_model :: rest =>
      let event1 := {| timestamp := timestamp event;
                       original_model := original_model event;
                       fallback_model := fallback_model;
                       reason := reason event;
                       message_hash := message_hash event;
                       success := success event;
                       latency := latency event;
                       error_message := error_message event |} in
      match _try_generate_with_model m message (Some fallback_model) w with
      | (inr response, w') =>
          let fallback_latency := PrimFloat.sub (clock w') (clock w) in
          (FallbackSucceeded response fallback_model fallback_latency,
           {| timestamp := timestamp event1;
              original_model := original_model event1;
              fallback_model := fallback_model;
              reason := reason event1;
              message_hash := message_hash event1;
              success := true;
              latency := Some fallback_latency;
              error_message := error_message event1 |},
           w', [fallback_model])
      | (inl _, w') =>
          let '(exit, event', w'', tried) :=
            try_fallbacks m message rest event1 w' in
          (exit, event', w'', fallback_model :: tried)
      end
  end.

Definition degraded_notice : string :=
  "I'm currently experiencing technical difficulties. "
  ++ "Please try again later or rephrase your request.".

(** What one call of [generate_with_fallback] leaves behind. *)
Record Run : Type := mkRun {
  outcome : PyExc + (string * Metadata);   (* raised, or returned *)
  manager_after : Manager;
  world_after : W;
  primary_model : option string;     (* the model tried first *)
  fallback_attempts : list string          (* the chain entries tried *)
}.

Definition append_event (m : Manager) (e : FallbackEvent) : Manager :=
  {| config := config m;
     local_models := local_models m;
     api_fallbacks := api_fallbacks m;
     fallback_events := (fallback_events m ++ [e])%list;
     enabled := enabled m;
     routing_rules := routing_rules m;
     cpu_optimized := cpu_optimized m |}.

Definition persistent_failure_strategy (m : Manager) : string :=
  match cfg_persistent_failure_strategy (config m) with
  | Some s => s
  | None => "degrade"
  end.

(** [generate_with_fallback(message, model)] *)
Definition generate_with_fallback (m : Manager) (message : string)
    (model : option string) (w : W) : Run :=
  if negb (enabled m) then
    (* the fallback system is off: straight to the bridge, no handler *)
    let (r, w') := bridge_generate_unbounded message model w in
    {| outcome :=
         match r with
         | inr response =>
             inr (response,
                  {| md_model := model; md_original_model := None;
                     md_fallback_used := false; md_fallback_reason := None;
                     md_fallback_success := None; md_latency := None;
                     md_error := None |})
         | inl e => inl e
         end;
       manager_after := m; world_after := w';
       primary_model := model; fallback_attempts := [] |}
  else
    let model := select_optimal_model m message model w in
    let fallback_chain := get_fallback_chain m model in
    match _try_generate_with_model m message model w with
    | (inr response, w1) =>
        {| outcome :=
             inr (response,
                  {| md_model := model; md_original_model := None;
                     md_fallback_used := false; md_fallback_reason := None;
                     md_fallback_success := None;
                     md_latency := Some (PrimFloat.sub (clock w1) (clock w));
                     md_error := None |});
           manager_after := m; world_after := w1;
           primary_model := model; fallback_attempts := [] |}
    | (inl primary_error, w1) =>
        let event :=
          {| timestamp := clock w1;
             original_model := model;
             fallback_model := "";
             reason := _determine_fallback_reason (exc_str primary_error);
             message_hash := hash10 message;
             success := false;
             latency := None;
             error_message := Some (exc_str primary_error) |} in
        match try_fallbacks m message fallback_chain event w1 with
        | (FallbackSucceeded response fallback_model fallback_latency,
           event', w2, tried) =>
            {| outcome :=
                 inr (response,
                      {| md_model := Some fallback_model;
                         md_original_model := Some model;
                         md_fallback_used := true;
                         md_fallback_reason := Some (reason_value (reason event'));
                         md_fallback_success := None;
                         md_latency := Some fallback_latency;
                         md_error := None |});
               manager_after := append_event m event'; world_after := w2;
               primary_model := model; fallback_attempts := tried |}
        | (ChainExhausted, event', w2, tried) =>
            let event'' :=
              {| timestamp := timestamp event';
                 original_model := original_model event';
                 fallback_model := fallback_model event';
                 reason := reason event';
                 message_hash := message_hash event';
                 success := false;
                 latency := latency event';
                 error_message := error_message event' |} in
            {| outcome :=
                 if String.eqb (persistent_failure_strategy m) "degrade" then
                   inr (degraded_notice,
                        {| md_model := Some "degraded";
                           md_original_model := Some model;
                           md_fallback_used := true;
                           md_fallback_reason := None;
                           md_fallback_success := Some false;
                           md_latency := None;
                           md_error := Some (exc_str primary_error) |})
                 else inl primary_error;
               manager_after := append_event m event''; world_after := w2;
               primary_model := model; fallback_attempts := tried |}
        end
    end.

End WithServices.

(** The dictionary [get_fallback_stats] returns when the log is not empty. *)
Record StatsDetails : Type := mkDetails {
  success_rate : float;
  successes : Z;
  failures : Z;
  reason_counts : list (string * Z);
  avg_latency : option float;
  original_models : list (option string * Z);
  fallback_models : list (string * Z);
  last_event_time : float
}.

(** What [get_fallback_stats] returns: with an empty log only
    [total_events]. *)
Record FallbackStats : Type := mkStats {
  total_events : Z;
  details : option StatsDetails
}.

(** [get_fallback_stats()] *)
Definition get_fallback_stats (m : Manager) : FallbackStats :=
  match fallback_events m with
  | [] => {| total_events := 0; details := None |}
  | first :: rest =>
      let events := first :: rest in
      let n := Z.of_nat (List.length events) in
      let succeeded :=
        fold_left (fun k e => if success e then (k + 1)%Z else k) events 0%Z in
      let latencies :=
        flat_map (fun e => match latency e with Some l => [l] | None => [] end)
                 events in
      {| total_events := n;
         details :=
           Some {| success_rate :=
                     PrimFloat.div (float_of_Z succeeded) (float_of_Z n);
                   successes := succeeded;
                   failures := n - succeeded;
                   reason_counts :=
                     fold_left (fun d e => tally String.eqb (reason_value (reason e)) d)
                               events [];
                   avg_latency :=
                     match latencies with
                     | [] => None
                     | _ :: _ =>
                         Some (PrimFloat.div
                                 (fold_left PrimFloat.add latencies 0%float)
                                 (float_of_Z (Z.of_nat (List.length latencies))))
                     end;
                   original_models :=
                     fold_left (fun d e => tally option_eqb (original_model e) d)
                               events [];
                   fallback_models :=
                     fold_left (fun d e => tally String.eqb (fallback_model e) d)
                               events [];
                   last_event_time := timestamp (last rest first) |} |}
  end.

End FallbackManager.

(* ===================================================================== *)
(** ** packages/ai/optimized_llm_manager.py *)
(* ===================================================================== *)

Module OptimizedManager.
Import Py.

#[local] Set Warnings "-inexact-float".

Inductive LLMProvider : Type :=
| DEEPSEEK_LOCAL | DEEPSEEK_API | OPENAI_API | ANTHROPIC_API | GEMINI_API
| FALLBACK.

Definition provider_eqb (a b : LLMProvider) : bool :=
  match a, b with
  | DEEPSEEK_LOCAL, DEEPSEEK_LOCAL | DEEPSEEK_API, DEEPSEEK_API
  | OPENAI_API, OPENAI_API | ANTHROPIC_API, ANTHROPIC_API
  | GEMINI_API, GEMINI_API | FALLBACK, FALLBACK => true
  | _, _ => false
  end.

Record HardwareProfile : Type := mkProfile {
  cpu_cores : Z;
  cpu_freq : float;                 (* GHz *)
  ram_gb : float;
  has_gpu : bool;
  gpu_memory_gb : float;
  can_run_local_llm : bool;
  recommended_model_size : string   (* "tiny", "small", "medium", "large" *)
}.

Record LLMConfig : Type := mkLLMConfig {
  provider : LLMProvider;
  model_name : string;
  api_key : option string;
  base_url : option string;
  max_tokens : Z;
  temperature : float;
  cost_per_request : float;
  requires_gpu : bool;
  min_ram_gb : float;
  priority : Z                      (* lower is higher priority *)
}.

(** The dataclass defaults of [LLMConfig]. *)
Definition default_config (p : LLMProvider) (name : string) : LLMConfig :=
  {| provider := p; model_name := name; api_key := None; base_url := None;
     max_tokens := 2048; temperature := 0.7%float;
     cost_per_request := 0%float; requires_gpu := false;
     min_ram_gb := 4%float; priority := 1 |}.

(** [_can_run_local_llm] *)
Definition _can_run_local_llm (cores : Z) (freq ram : float) (gpu : bool) : bool :=
  if PrimFloat.leb 1%float freq && PrimFloat.leb 6%float ram && (4 <=? cores)%Z
  then true
  else PrimFloat.leb 1.5%float freq && PrimFloat.leb 8%float ram && (4 <=? cores)%Z.

(** [_get_recommended_model_size] *)
Definition _get_recommended_model_size (freq ram : float) (gpu : bool)
    (gpu_mem : float) : string :=
  if gpu && PrimFloat.leb 16%float gpu_mem then "large"
  else if gpu && PrimFloat.leb 8%float gpu_mem then "medium"
  else if PrimFloat.leb 16%float ram && PrimFloat.leb 2.5%float freq then "medium"
  else if PrimFloat.leb 8%float ram && PrimFloat.leb 1.5%float freq then "small"
  else "tiny".

(** The profile [_analyze_hardware] builds from what the probes report. *)
Definition _analyze_hardware (cores : Z) (freq ram : float) (gpu : bool)
    (gpu_mem : float) : HardwareProfile :=
  {| cpu_cores := cores; cpu_freq := freq; ram_gb := ram; has_gpu := gpu;
     gpu_memory_gb := gpu_mem;
     can_run_local_llm := _can_run_local_llm cores freq ram gpu;
     recommended_model_size := _get_recommended_model_size freq ram gpu gpu_mem |}.

(** The profile [_analyze_hardware] falls back to when a probe raises. *)
Definition fallback_profile : HardwareProfile :=
  {| cpu_cores := 2; cpu_freq := 1.1%float; ram_gb := 8%float;
     has_gpu := false; gpu_memory_gb := 0%float;
     can_run_local_llm := false; recommended_model_size := "tiny" |}.

(** The API keys read from the environment by [_initialize_providers]. *)
Record Environment : Type := mkEnv {
  DEEPSEEK_API_KEY : option string;
  OPENAI_API_KEY : option string;
  ANTHROPIC_API_KEY : option string;
  GEMINI_API_KEY : option string
}.

Definition with_api (c : LLMConfig) (key : option string) (url : string)
    (cost : float) (prio : Z) : LLMConfig :=
  {| provider := provider c; model_name := model_name c; api_key := key;
     base_url := Some url; max_tokens := max_tokens c;
     temperature := temperature c; cost_per_request := cost;
     requires_gpu := requires_gpu c; min_ram_gb := min_ram_gb c;
     priority := prio |}.

(** [_initialize_providers]: the dict [available_providers], in insertion
    order. *)
Definition _initialize_providers (hw : HardwareProfile) (env : Environment)
    : list (LLMProvider * LLMConfig) :=
  let tiny := String.eqb (recommended_model_size hw) "tiny" in
  ((if can_run_local_llm hw then
      [(DEEPSEEK_LOCAL,
        {| provider := DEEPSEEK_LOCAL;
           model_name := if tiny then "deepseek-r1-distill-qwen-1.5b-gguf"
                         else "deepseek-r1-0528-qwen3-8b-gguf";
           api_key := None; base_url := None; max_tokens := 2048;
           temperature := 0.7%float; cost_per_request := 0%float;
           requires_gpu := false;
           min_ram_gb := if tiny then 4%float else 8%float;
           priority := 1 |})]
    else [])
   ++ [(DEEPSEEK_API,
        with_api (default_config DEEPSEEK_API "deepseek-r1")
          (DEEPSEEK_API_KEY env) "https://api.deepseek.com/v1" 0.001%float 2);
       (OPENAI_API,
        with_api (default_config OPENAI_API "gpt-4o-mini")
          (OPENAI_API_KEY env) "https://api.openai.com/v1" 0.01%float 3);
       (ANTHROPIC_API,
        with_api (default_config ANTHROPIC_API "claude-3-haiku-20240307")
          (ANTHROPIC_API_KEY env) "https://api.anthropic.com" 0.015%float 4);
       (GEMINI_API,
        with_api (default_config GEMINI_API "gemini-1.5-flash")
          (GEMINI_API_KEY env)
          "https://generativelanguage.googleapis.com/v1beta" 0.005%float 5);
       (FALLBACK,
        {| provider := FALLBACK; model_name := "enhanced-template";
           api_key := None; base_url := None; max_tokens := 2048;
           temperature := 0.7%float; cost_per_request := 0%float;
           requires_gpu := false; min_ram_gb := 4%float;
           priority := 10 |})])%list.

Record Manager : Type := mkManager {
  hardware_profile : HardwareProfile;
  available_providers : list (LLMProvider * LLMConfig);
  current_provider : option LLMProvider;
  user_preference : option LLMProvider
}.

(** [available_providers[p]], and [p in available_providers] as [Some]. *)
Fixpoint lookup (p : LLMProvider) (d : list (LLMProvider * LLMConfig))
    : option LLMConfig :=
  match d with
  | [] => None
  | (q, c) :: t => if provider_eqb p q then Some c else lookup p t
  end.

(** [not config.api_key]: [None] and the empty string are false. *)
Definition no_key (key : option string) : bool :=
  match key with
  | None => true
  | Some k => String.eqb k ""
  end.

Definition is_api_provider (p : LLMProvider) : bool :=
  match p with
  | DEEPSEEK_API | OPENAI_API | ANTHROPIC_API | GEMINI_API => true
  | _ => false
  end.

(** [_can_use_provider(config)] *)
Definition _can_use_provider (hw : HardwareProfile) (c : LLMConfig) : bool :=
  if requires_gpu c && negb (has_gpu hw) then false
  else if PrimFloat.ltb (ram_gb hw) (min_ram_gb c) then false
  else if is_api_provider (provider c) && no_key (api_key c) then false
  else true.

(** The second half of [_select_best_provider]: the first usable provider
    in ascending priority, else [FALLBACK]. *)
Definition select_by_priority (m : Manager) : LLMProvider :=
  match find (fun pc => _can_use_provider (hardware_profile m) (snd pc))
             (sorted_by (fun pc => priority (snd pc)) (available_providers m)) with
  | Some (p, _) => p
  | None => FALLBACK
  end.

(** The first half of [_select_best_provider]: the preference of the
    user, when it is set, known and usable. *)
Definition usable_preference (m : Manager) : option LLMProvider :=
  match user_preference m with
  | Some preferred =>
      match lookup preferred (available_providers m) with
      | Some c =>
          if _can_use_provider (hardware_profile m) c then Some preferred
          else None
      | None => None
      end
  | None => None
  end.

(** [_select_best_provider]: the new [current_provider]. *)
Definition _select_best_provider (m : Manager) : LLMProvider :=
  match usable_preference m with
  | Some preferred => preferred
  | None => select_by_priority m
  end.

(** [set_user_preference(provider)] *)
Definition set_user_preference (m : Manager) (p : LLMProvider) : Manager :=
  match lookup p (available_providers m) with
  | Some _ =>
      {| hardware_profile := hardware_profile m;
         available_providers := available_providers m;
         current_provider := current_provider m;
         user_preference := Some p |}
  | None => m
  end.

(** [OptimizedLLMManager()] on a host with profile [hw]. *)
Definition new_manager (hw : HardwareProfile) (env : Environment) : Manager :=
  {| hardware_profile := hw;
     available_providers := _initialize_providers hw env;
     current_provider := None;
     user_preference := None |}.

(** The hardware part of [_can_use_provider] fails for [c]. *)
Definition hardware_excludes (hw : HardwareProfile) (c : LLMConfig) : bool :=
  (requires_gpu c && negb (has_gpu hw)) || PrimFloat.ltb (ram_gb hw) (min_ram_gb c).

(** *** Generation and switching *)

(** [LLMProvider.value] and [repr] of a member. *)
Definition provider_value (p : LLMProvider) : string :=
  match p with
  | DEEPSEEK_LOCAL => "deepseek_local"
  | DEEPSEEK_API => "deepseek_api"
  | OPENAI_API => "openai_api"
  | ANTHROPIC_API => "anthropic_api"
  | GEMINI_API => "gemini_api"
  | FALLBACK => "fallback"
  end.

Definition provider_name (p : LLMProvider) : string :=
  match p with
  | DEEPSEEK_LOCAL => "DEEPSEEK_LOCAL"
  | DEEPSEEK_API => "DEEPSEEK_API"
  | OPENAI_API => "OPENAI_API"
  | ANTHROPIC_API => "ANTHROPIC_API"
  | GEMINI_API => "GEMINI_API"
  | FALLBACK => "FALLBACK"
  end.

(** [KeyError(p)] as [d[p]] raises it; its text is [repr(p)]. *)
Definition provider_key_error (p : LLMProvider) : PyExc :=
  mkExc "KeyError"
        ("<LLMProvider." ++ provider_name p ++ ": '" ++ provider_value p ++ "'>").

(** The manager together with the keys of [provider_instances], in
    insertion order. *)
Record Session : Type := mkSession {
  manager : Manager;
  provider_instances : list LLMProvider
}.

Definition has_instance (p : LLMProvider) (s : Session) : bool :=
  existsb (provider_eqb p) (provider_instances s).

(** [self.provider_instances[p] = ...] *)
Definition add_instance (p : LLMProvider) (s : Session) : Session :=
  {| manager := manager s;
     provider_instances := if has_instance p s then provider_instances s
                           else (provider_instances s ++ [p])%list |}.

(** [self.current_provider = p] *)
Definition set_current (s : Session) (p : LLMProvider) : Session :=
  {| manager := {| hardware_profile := hardware_profile (manager s);
                   available_providers := available_providers (manager s);
                   current_provider := Some p;
                   user_preference := user_preference (manager s) |};
     provider_instances := provider_instances s |}.

(** [_generate_fallback(prompt)] on ASCII text. *)
Definition fallback_greeting : string :=
  "Hello! I'm reVoAgent, your AI assistant. I'm running in optimized mode for your hardware. How can I help you today?".

Definition _generate_fallback (prompt : string) : string :=
  if any_in ["hello"; "hi"; "hey"] (lower prompt) then fallback_greeting
  else if any_in ["code"; "function"; "programming"] (lower prompt) then
    "I'd be happy to help you with coding! Based on your request: '"
    ++ take 100 prompt
    ++ "...', I can assist with writing functions, debugging, and providing programming guidance. What specific coding task are you working on?"
  else
    "Thank you for your message! I'm processing your request: '"
    ++ take 100 prompt
    ++ "...' and I'm ready to provide assistance. How can I help you further?".

(** What [generate_response] returns: the dict of a served request, or the
    bare template text of its exception handler. *)
Record Served : Type := mkServed {
  content : string;
  served_provider : string;
  served_model : string;
  cost : float;
  processing_time : float;
  hardware_optimized : bool
}.

Inductive Answer : Type :=
| Structured (d : Served)
| Plain (text : string).

(** [timedelta.total_seconds()] of a difference in microseconds. *)
Definition total_seconds (microseconds : Z) : float :=
  PrimFloat.div (float_of_Z microseconds) 1000000%float.

(** The client libraries and the wall clock. [build_client] is the import
    of the library of a provider and the construction of its client (for
    the local model, the load of the model); [client_generate] is the call
    of [_generate_deepseek_local], [_generate_openai_api] and their siblings
    on the client, keyword arguments included; [now] reads
    [datetime.now()] in microseconds. *)
Class Runtime (W : Type) : Type := {
  build_client : LLMProvider -> LLMConfig -> W -> (PyExc + unit) * W;
  client_generate : LLMProvider -> LLMConfig -> string -> list (string * string)
                    -> W -> (PyExc + string) * W;
  now : W -> Z * W
}.

Section WithRuntime.
Context {W : Type} `{Runtime W}.

(** [_initialize_provider(provider)] *)
Definition _initialize_provider (s : Session) (p : LLMProvider) (w : W)
    : (PyExc + Session) * W :=
  match lookup p (available_providers (manager s)) with
  | None => (inl (provider_key_error p), w)
  | Some config =>
      match p with
      | FALLBACK => (inr (add_instance FALLBACK s), w)
      | _ =>
          match build_client p config w with
          | (inl e, w') => (inl e, w')
          | (inr tt, w') => (inr (add_instance p s), w')
          end
      end
  end.

(** [initialize()]: an enum member is truthy, so the selected provider is
    always initialized. *)
Definition initialize (s : Session) (w : W) : bool * Session * W :=
  let p := _select_best_provider (manager s) in
  match _initialize_provider (set_current s p) p w with
  | (inr s', w') => (true, s', w')
  | (inl _, w') => (false, set_current s FALLBACK, w')
  end.

(** The [try] block of [generate_response]. *)
Definition generate_response_body (s : Session) (prompt : string)
    (kwargs : list (string * string)) (w : W)
    : (PyExc + Served) * Session * W :=
  let '(s1, w1) :=
    match current_provider (manager s) with
    | Some _ => (s, w)
    | None => let '(_, s', w') := initialize s w in (s', w')
    end in
  match current_provider (manager s1) with
  | None => (inl (mkExc "KeyError" "None"), s1, w1)
  | Some p =>
      match lookup p (available_providers (manager s1)) with
      | None => (inl (provider_key_error p), s1, w1)
      | Some config =>
          let '(start_time, w2) := now w1 in
          let '(result, w3) :=
            match p with
            | FALLBACK => (inr (_generate_fallback prompt), w2)
            | _ => if has_instance p s1
                   then client_generate p config prompt kwargs w2
                   else (inl (provider_key_error p), w2)
            end in
          match result with
          | inl e => (inl e, s1, w3)
          | inr text =>
              let '(end_time, w4) := now w3 in
              (inr {| content := text;
                      served_provider := provider_value p;
                      served_model := model_name config;
                      cost := cost_per_request config;
                      processing_time := total_seconds (end_time - start_time);
                      hardware_optimized := true |}, s1, w4)
          end
      end
  end.

(** [generate_response(prompt, **kwargs)] *)
Definition generate_response (s : Session) (prompt : string)
    (kwargs : list (string * string)) (w : W) : Answer * Session * W :=
  match generate_response_body s prompt kwargs w with
  | (inr d, s', w') => (Structured d, s', w')
  | (inl _, s', w') => (Plain (_generate_fallback prompt), s', w')
  end.

(** [switch_provider(provider)] *)
Definition switch_provider (s : Session) (p : LLMProvider) (w : W)
    : bool * Session * W :=
  match lookup p (available_providers (manager s)) with
  | None => (false, s, w)
  | Some config =>
      if negb (_can_use_provider (hardware_profile (manager s)) config)
      then (false, s, w)
      else
        match (if has_instance p s then (inr s, w)
               else _initialize_provider s p w) with
        | (inl _, w') => (false, s, w')
        | (inr s', w') =>
            (true,
             {| manager := {| hardware_profile := hardware_profile (manager s');
                              available_providers := available_providers (manager s');
                              current_provider := Some p;
                              user_preference := Some p |};
                provider_instances := provider_instances s' |},
             w')
        end
  end.

End WithRuntime.

(** [OptimizedLLMManager()] with no client built yet. *)
Definition new_session (hw : HardwareProfile) (env : Environment) : Session :=
  {| manager := new_manager hw env; provider_instances := [] |}.

(** [set_user_preference(provider)] on the manager of a session. *)
Definition prefer (s : Session) (p : LLMProvider) : Session :=
  {| manager := set_user_preference (manager s) p;
     provider_instances := provider_instances s |}.

End OptimizedManager.

(* ===================================================================== *)
(** ** packages/ai/api_llm_manager.py *)
(* ===================================================================== *)

Module ApiManager.
Import Py.

#[local] Set Warnings "-inexact-float".

Inductive ModelType : Type :=
| API_DEEPSEEK | API_CLAUDE | API_GEMINI | API_OPENAI.

Definition type_eqb (a b : ModelType) : bool :=
  match a, b with
  | API_DEEPSEEK, API_DEEPSEEK | API_CLAUDE, API_CLAUDE
  | API_GEMINI, API_GEMINI | API_OPENAI, API_OPENAI => true
  | _, _ => false
  end.

Definition type_value (t : ModelType) : string :=
  match t with
  | API_DEEPSEEK => "api_deepseek"
  | API_CLAUDE => "api_claude"
  | API_GEMINI => "api_gemini"
  | API_OPENAI => "api_openai"
  end.

Record ModelConfig : Type := mkModelConfig {
  model_type : ModelType;
  enabled : bool;
  priority : Z;
  cost_per_1k_tokens : float;
  max_tokens : Z;
  temperature : float;
  top_p : float;
  api_key : option string
}.

(** The dictionary a provider returns, with the keys the manager reads. *)
Record ProviderResult : Type := mkResult {
  res_content : string;
  res_model : string;
  res_tokens_used : Z;
  res_cost : float;
  res_provider : string
}.

Inductive ResponseMetadata : Type :=
| FromProvider (result : ProviderResult)
| FromError (error : string) (prompt : string).

Record LLMResponse : Type := mkResponse {
  content : string;
  model : string;
  response_model_type : ModelType;
  tokens_used : Z;
  cost : float;
  response_time : float;
  confidence : float;
  provider : string;
  timestamp : float;
  metadata : ResponseMetadata
}.

Record Metrics : Type := mkMetrics {
  total_requests : Z;
  successful_requests : Z;
  failed_requests : Z;
  total_cost : float;
  total_tokens : Z;
  model_usage : list (string * Z)
}.

(** The keyword arguments [generate_response] looks at. *)
Record Kwargs : Type := mkKwargs {
  kw_max_tokens : option Z;
  kw_temperature : option float;
  kw_top_p : option float
}.

Record Manager : Type := mkManager {
  models : list ModelType;                       (* keys of the dict, in order *)
  current_model : option ModelType;
  fallback_enabled : bool;
  metrics : Metrics;
  model_configs : list (ModelType * ModelConfig);
  model_priority : list ModelType
}.

(** [_get_default_configs] *)
Definition _get_default_configs (gemini_key claude_key : option string)
    : list (ModelType * ModelConfig) :=
  [ (API_DEEPSEEK,
     {| model_type := API_DEEPSEEK; enabled := true; priority := 1;
        cost_per_1k_tokens := 0.0014%float; max_tokens := 2048;
        temperature := 0.7%float; top_p := 0.9%float; api_key := None |});
    (API_GEMINI,
     {| model_type := API_GEMINI; enabled := true; priority := 2;
        cost_per_1k_tokens := 0.0075%float; max_tokens := 2048;
        temperature := 0.7%float; top_p := 0.9%float; api_key := gemini_key |});
    (API_CLAUDE,
     {| model_type := API_CLAUDE; enabled := true; priority := 3;
        cost_per_1k_tokens := 0.0125%float; max_tokens := 2048;
        temperature := 0.7%float; top_p := 0.9%float; api_key := claude_key |});
    (API_OPENAI,
     {| model_type := API_OPENAI; enabled := false; priority := 4;
        cost_per_1k_tokens := 0.015%float; max_tokens := 2048;
        temperature := 0.7%float; top_p := 0.9%float; api_key := None |}) ].

(** The priority list set in [__init__] (cost-optimized). *)
Definition default_model_priority : list ModelType :=
  [API_DEEPSEEK; API_GEMINI; API_CLAUDE; API_OPENAI].

(** [model_configs.get(t)] *)
Fixpoint get_config (t : ModelType) (d : list (ModelType * ModelConfig))
    : option ModelConfig :=
  match d with
  | [] => None
  | (u, c) :: rest => if type_eqb t u then Some c else get_config t rest
  end.

(** [t in self.models] *)
Definition has_model (t : ModelType) (l : list ModelType) : bool :=
  existsb (type_eqb t) l.

Definition config_enabled (t : ModelType) (d : list (ModelType * ModelConfig)) : bool :=
  match get_config t d with
  | Some c => enabled c
  | None => false
  end.

Definition set_current (m : Manager) (c : option ModelType) : Manager :=
  {| models := models m; current_model := c;
     fallback_enabled := fallback_enabled m; metrics := metrics m;
     model_configs := model_configs m; model_priority := model_priority m |}.

Definition set_metrics (m : Manager) (x : Metrics) : Manager :=
  {| models := models m; current_model := current_model m;
     fallback_enabled := fallback_enabled m; metrics := x;
     model_configs := model_configs m; model_priority := model_priority m |}.

(** [_select_optimal_model]: the new [current_model]. *)
Definition _select_optimal_model (m : Manager) : option ModelType :=
  match find (fun t => config_enabled t (model_configs m) && has_model t (models m))
             (model_priority m) with
  | Some t => Some t
  | None =>
      match models m with
      | first :: _ => Some first        (* list(self.models.keys())[0] *)
      | [] => current_model m
      end
  end.

(** [_update_model_usage] *)
Fixpoint bump (name : string) (usage : list (string * Z)) : list (string * Z) :=
  match usage with
  | [] => [(name, 1%Z)]
  | (k, n) :: t => if String.eqb k name then (k, (n + 1)%Z) :: t
                   else (k, n) :: bump name t
  end.

(** The metric updates after a successful generation. *)
Definition record_success (x : Metrics) (t : ModelType) (r : LLMResponse) : Metrics :=
  {| total_requests := total_requests x;
     successful_requests := successful_requests x + 1;
     failed_requests := failed_requests x;
     total_cost := PrimFloat.add (total_cost x) (cost r);
     total_tokens := total_tokens x + tokens_used r;
     model_usage := bump (type_value t) (model_usage x) |}.

(** The providers behind [self.models], and the clock. *)
Class Services (W : Type) : Type := {
  (** [time.time()] *)
  clock : W -> float;
  (** [self.models[t].generate_response(prompt, max_tokens=..,
      temperature=.., top_p=..)], read into a [ProviderResult] *)
  provider_generate :
    ModelType -> string -> Z -> float -> float -> W -> (PyExc + ProviderResult) * W
}.

Section WithServices.
Context {W : Type} `{Services W}.

Definition key_error (t : ModelType) : PyExc :=
  {| exc_type := "KeyError"; exc_str := type_value t |}.

(** [_generate_with_model(model_type, prompt, **kwargs)] *)
Definition _generate_with_model (m : Manager) (t : ModelType) (prompt : string)
    (kw : Kwargs) (w : W) : (PyExc + LLMResponse) * W :=
  let start_time := clock w in
  match get_config t (model_configs m) with
  | None => (inl (key_error t), w)            (* self.model_configs[model_type] *)
  | Some config =>
      if negb (has_model t (models m)) then (inl (key_error t), w)
      else
        let mt := match kw_max_tokens kw with Some v => v | None => max_tokens config end in
        let te := match kw_temperature kw with Some v => v | None => temperature config end in
        let tp := match kw_top_p kw with Some v => v | None => top_p config end in
        match provider_generate t prompt mt te tp w with
        | (inl e, w') => (inl e, w')
        | (inr result, w') =>
            (inr {| content := res_content result;
                    model := res_model result;
                    response_model_type := t;
                    tokens_used := res_tokens_used result;
                    cost := res_cost result;
                    response_time := PrimFloat.sub (clock w') start_time;
                    confidence := 90%float;
                    provider := res_provider result;
                    timestamp := clock w';
                    metadata := FromProvider result |}, w')
        end
  end.

Definition is_current (m : Manager) (t : ModelType) : bool :=
  match current_model m with
  | Some c => type_eqb t c
  | None => false
  end.

(** The loop of [_try_fallback_models] over the rest of the priority list. *)
Fixpoint try_fallback_from (m : Manager) (order : list ModelType)
    (prompt : string) (kw : Kwargs) (w : W)
    : (PyExc + LLMResponse) * Manager * W :=
  match order with
  | [] => (inl {| exc_type := "Exception"; exc_str := "All models failed" |}, m, w)
  | t :: rest =>
      if is_current m t then try_fallback_from m rest prompt kw w
      else if negb (has_model t (models m)) then try_fallback_from m rest prompt kw w
      else if negb (config_enabled t (model_configs m))
      then try_fallback_from m rest prompt kw w
      else
        match _generate_with_model m t prompt kw w with
        | (inr response, w') =>
            let m1 := set_current m (Some t) in
            (inr response, set_metrics m1 (record_success (metrics m1) t response), w')
        | (inl _, w') => try_fallback_from m rest prompt kw w'
        end
  end.

(** [_try_fallback_models(prompt, **kwargs)] *)
Definition _try_fallback_models (m : Manager) (prompt : string) (kw : Kwargs)
    (w : W) : (PyExc + LLMResponse) * Manager * W :=
  try_fallback_from m (model_priority m) prompt kw w.

Definition dquote : string := String "034"%char EmptyString.
Definition newline : string := String "010"%char EmptyString.

(** The four characters in front of the heading of the error text (U+00F0,
    U+0178, U+00A4, U+2013), as their UTF-8 bytes. *)
Definition heading_mark : string :=
  String "195" (String "176" (String "197" (String "184" (String "194"
    (String "164" (String "226" (String "128" (String "147" EmptyString)))))))).

(** [_create_error_response(prompt, error, response_time)] *)
Definition _create_error_response (m : Manager) (prompt error : string)
    (elapsed now : float) : LLMResponse :=
  let error_content :=
    heading_mark ++ " reVoAgent AI Assistant (Error Recovery Mode)"
    ++ newline ++ newline
    ++ "I apologize, but I'm currently experiencing technical difficulties with all AI models."
    ++ newline ++ newline
    ++ "Error: " ++ error ++ newline ++ newline
    ++ "Your prompt: " ++ dquote ++ take 100 prompt ++ "..." ++ dquote
    ++ newline ++ newline
    ++ "I'm working to restore full functionality. Please try again in a moment, or contact support if the issue persists."
    ++ newline ++ newline
    ++ "Available models: " ++ join ", " (map type_value (models m)) ++ newline
    ++ "Current model: "
    ++ match current_model m with Some c => type_value c | None => "None" end in
  {| content := error_content;
     model := "error-recovery";
     response_model_type := API_GEMINI;
     tokens_used := count_words error_content;
     cost := 0%float;
     response_time := elapsed;
     confidence := 0%float;
     provider := "error_recovery";
     timestamp := now;
     metadata := FromError error prompt |}.

Definition count_request (x : Metrics) : Metrics :=
  {| total_requests := total_requests x + 1;
     successful_requests := successful_requests x;
     failed_requests := failed_requests x;
     total_cost := total_cost x;
     total_tokens := total_tokens x;
     model_usage := model_usage x |}.

Definition count_failure (x : Metrics) : Metrics :=
  {| total_requests := total_requests x;
     successful_requests := successful_requests x;
     failed_requests := failed_requests x + 1;
     total_cost := total_cost x;
     total_tokens := total_tokens x;
     model_usage := model_usage x |}.

(** The body of the outer [try] of [generate_response]. *)
Definition generate_response_body (m : Manager) (prompt : string) (kw : Kwargs)
    (w : W) : (PyExc + LLMResponse) * Manager * W :=
  let m0 := set_metrics m (count_request (metrics m)) in
  match current_model m0 with
  | Some current =>
      if has_model current (models m0) then
        match _generate_with_model m0 current prompt kw w with
        | (inr response, w') =>
            (inr response,
             set_metrics m0 (record_success (metrics m0) current response), w')
        | (inl e, w') =>
            if fallback_enabled m0 then _try_fallback_models m0 prompt kw w'
            else (inl e, m0, w')                         (* raise *)
        end
      else _try_fallback_models m0 prompt kw w
  | None => _try_fallback_models m0 prompt kw w
  end.

(** [generate_response(prompt, **kwargs)]: the outer [try] with its
    [except Exception] handler. *)
Definition generate_response (m : Manager) (prompt : string) (kw : Kwargs)
    (w : W) : (PyExc + LLMResponse) * Manager * W :=
  let start_time := clock w in
  match generate_response_body m prompt kw w with
  | (inr response, m', w') => (inr response, m', w')
  | (inl e, m', w') =>
      let m'' := set_metrics m' (count_failure (metrics m')) in
      (inr (_create_error_response m'' prompt (exc_str e)
              (PrimFloat.sub (clock w') start_time) (clock w')),
       m'', w')
  end.

End WithServices.

(** *** Choosing and checking models *)

(** [ModelType(value)]; [None] is the [ValueError]. *)
Definition model_type_of_string (v : string) : option ModelType :=
  if String.eqb v "api_deepseek" then Some API_DEEPSEEK
  else if String.eqb v "api_claude" then Some API_CLAUDE
  else if String.eqb v "api_gemini" then Some API_GEMINI
  else if String.eqb v "api_openai" then Some API_OPENAI
  else None.

(** [set_current_model(model_type)], called with a [str] ([inl]) or with
    a [ModelType] ([inr]). *)
Definition set_current_model (m : Manager) (arg : string + ModelType)
    : bool * Manager :=
  match (match arg with
         | inl v => model_type_of_string v
         | inr t => Some t
         end) with
  | None => (false, m)
  | Some t => if has_model t (models m) then (true, set_current m (Some t))
              else (false, m)
  end.

(** [_estimate_cost_per_request(config)] *)
Definition _estimate_cost_per_request (config : ModelConfig) : float :=
  PrimFloat.mul (PrimFloat.div 500%float 1000%float) (cost_per_1k_tokens config).

(** An entry of [health_status["models"]]: the response time of a healthy
    model, the error text of an unhealthy one. *)
Record ModelHealth : Type := mkHealth {
  test_successful : bool;
  health_response_time : option float;
  health_error : option string
}.

Record HealthStatus : Type := mkStatus {
  overall_status : string;
  health_timestamp : float;
  health_models : list (string * ModelHealth)
}.

(** [d[k] = v] on a dict kept in insertion order. *)
Fixpoint set_health (k : string) (v : ModelHealth)
    (d : list (string * ModelHealth)) : list (string * ModelHealth) :=
  match d with
  | [] => [(k, v)]
  | (k', v') :: t => if String.eqb k' k then (k', v) :: t
                     else (k', v') :: set_health k v t
  end.

Section Health.
Context {W : Type} `{Services W}.

(** The keyword arguments of the test generation: [max_tokens=10]. *)
Definition test_kwargs : Kwargs :=
  {| kw_max_tokens := Some 10%Z; kw_temperature := None; kw_top_p := None |}.

(** The loop of [health_check] over [self.models]. *)
Fixpoint check_models (m : Manager) (todo : list ModelType) (st : HealthStatus)
    (w : W) : HealthStatus * W :=
  match todo with
  | [] => (st, w)
  | t :: rest =>
      let start_time := clock w in
      match _generate_with_model m t "Hello" test_kwargs w with
      | (inr _, w') =>
          check_models m rest
            {| overall_status := overall_status st;
               health_timestamp := health_timestamp st;
               health_models :=
                 set_health (type_value t)
                   {| test_successful := true;
                      health_response_time :=
                        Some (PrimFloat.sub (clock w') start_time);
                      health_error := None |}
                   (health_models st) |} w'
      | (inl e, w') =>
          check_models m rest
            {| overall_status := "degraded";
               health_timestamp := health_timestamp st;
               health_models :=
                 set_health (type_value t)
                   {| test_successful := false;
                      health_response_time := None;
                      health_error := Some (exc_str e) |}
                   (health_models st) |} w'
      end
  end.

(** [health_check()]; the timestamp is the reading of the clock that
    [datetime.now().isoformat()] renders. *)
Definition health_check (m : Manager) (w : W) : HealthStatus * W :=
  check_models m (models m)
    {| overall_status := "healthy"; health_timestamp := clock w;
       health_models := [] |} w.

End Health.

End ApiManager.

(* ===================================================================== *)
(** ** packages/engines/engine_coordinator.py *)
(* ===================================================================== *)

Module Coordinator.
Import Py.

#[local] Set Warnings "-inexact-float".

Inductive EngineType : Type := PERFECT_RECALL | PARALLEL_MIND | CREATIVE.

Definition engine_eqb (a b : EngineType) : bool :=
  match a, b with
  | PERFECT_RECALL, PERFECT_RECALL | PARALLEL_MIND, PARALLEL_MIND
  | CREATIVE, CREATIVE => true
  | _, _ => false
  end.

Definition engine_value (e : EngineType) : string :=
  match e with
  | PERFECT_RECALL => "perfect_recall"
  | PARALLEL_MIND => "parallel_mind"
  | CREATIVE => "creative"
  end.

Inductive TaskComplexity : Type := SIMPLE | MODERATE | COMPLEX | ENTERPRISE.

Definition complexity_value (c : TaskComplexity) : string :=
  match c with
  | SIMPLE => "simple"
  | MODERATE => "moderate"
  | COMPLEX => "complex"
  | ENTERPRISE => "enterprise"
  end.

(** The keys the code puts in the [metadata] of an [EngineResponse]. *)
Record ResponseMetadata : Type := mkMetadata {
  execution_order : option Z;
  error : option string;
  md_task_type : option string
}.

Record CoordinationMetrics : Type := mkMetrics {
  total_coordinated_tasks : Z;
  avg_coordination_time : float;
  utilization_recall : float;
  utilization_parallel : float;
  utilization_creative : float;
  coordination_success_rate : float
}.

Record Coordinator : Type := mkCoordinator {
  engines : list EngineType;            (* keys of [self.engines] *)
  coordination_metrics : CoordinationMetrics
}.

Definition registered (c : Coordinator) (e : EngineType) : bool :=
  existsb (engine_eqb e) (engines c).

Record CoordinationSummary : Type := mkSummary {
  strategy_used : string;
  engines_utilized : list string;
  total_engines : Z;
  success_rate : float;
  avg_engine_time : float;
  complexity_handled : string
}.

(** The task characteristics computed by the adaptive strategy. *)
Record TaskAnalysis : Type := mkAnalysis {
  requires_memory : bool;
  requires_parallel : bool;
  requires_creativity : bool;
  complexity_score : float;
  innovation_level : float;
  processing_intensity : float;
  engine_priorities : list (EngineType * float)
}.

Record Step : Type := mkStep {
  step_engine : EngineType;
  step_mode : string;
  enhance_next : bool
}.

Section WithEngines.

(** [input_data] and the engines' results are arbitrary Python objects;
    [Synth] is what a task-specific synthesis returns. *)
Context {W Data Result Synth : Type}.

Record CoordinatedRequest : Type := mkRequest {
  task_id : string;
  task_type : string;
  description : string;
  input_data : Data;
  complexity : TaskComplexity;
  required_engines : list EngineType;
  coordination_strategy : string;
  timeout_seconds : Z
}.

Record EngineResponse : Type := mkEngineResponse {
  engine_type : EngineType;
  success : bool;
  result : option Result;               (* [None] is Python's [None] *)
  execution_time_ms : float;
  metadata : ResponseMetadata
}.

Inductive PrimaryResult : Type :=
| AllEnginesFailed (task : string)
| Specialized (payload : Synth)
| DefaultMerge (individual_results : list (string * option Result))
               (primary_source : string).

Record CoordinatedResponse : Type := mkResponse {
  resp_task_id : string;
  resp_success : bool;
  primary_result : PrimaryResult;
  engine_responses : list EngineResponse;
  coordination_summary : CoordinationSummary;
  total_execution_time_ms : float
}.

(** The engines and the other collaborators of the coordinator. *)
Class Engines : Type := {
  (** [asyncio.get_event_loop().time()] *)
  loop_time : W -> float;
  (** [engine.retrieve_fast(RecallRequest(query=data.get('query', '')))] *)
  retrieve_fast : Data -> W -> (PyExc + Result) * W;
  (** [engine.store_context(data.get('content', ''), ...)] *)
  store_context : Data -> W -> (PyExc + Result) * W;
  (** [engine.submit_task(...)] then [engine.get_task_result(id, timeout=30)] *)
  parallel_task : Data -> W -> (PyExc + Result) * W;
  (** [engine.generate_solutions(criteria, context)] *)
  generate_solutions : Data -> W -> (PyExc + Result) * W;
  (** [result.output_data] when [hasattr(result, 'output_data')] *)
  output_data : Result -> option Data;
  (** the copy of a [dict] input with the keys of the engine added; any
      other input unchanged *)
  with_enhancement : Data -> EngineType -> option Result -> Data;
  (** [_end_request_tracking(request_id, True, primary_result)] of the base
      class: the elapsed milliseconds *)
  tracked_time : string -> W -> float;
  (** [_synthesize_creative_debugging], [_synthesize_comprehensive_analysis]
      and [_synthesize_intelligent_generation], by task type *)
  synthesize_special : string -> list EngineResponse -> PyExc + Synth
}.

Context `{Engines}.

(** [_execute_single_engine(engine_type, task_type, data)] *)
Definition _execute_single_engine (c : Coordinator) (e : EngineType)
    (task : string) (data : Data) (w : W) : (PyExc + option Result) * W :=
  if negb (registered c e) then
    (inl {| exc_type := "KeyError"; exc_str := engine_value e |}, w)
  else
    let some r := match r with
                  | (inr x, w') => (inr (Some x), w')
                  | (inl x, w') => (inl x, w')
                  end in
    match e with
    | PERFECT_RECALL =>
        if String.eqb task "recall" then some (retrieve_fast data w)
        else if String.eqb task "store" then some (store_context data w)
        else (inr None, w)              (* falls off the end: returns None *)
    | PARALLEL_MIND => some (parallel_task data w)
    | CREATIVE => some (generate_solutions data w)
    end.

Definition elapsed_ms (w_start w_end : W) : float :=
  PrimFloat.mul (PrimFloat.sub (loop_time w_end) (loop_time w_start)) 1000%float.

(** The response built in the [except] branch of [_execute_sequential]. *)
Definition failed_in_sequence (e : EngineType) (x : PyExc) (t : float)
    : EngineResponse :=
  {| engine_type := e; success := false; result := None;
     execution_time_ms := t;
     metadata := {| execution_order := None; error := Some (exc_str x);
                    md_task_type := None |} |}.

(** The loop of [_execute_sequential]. *)
Fixpoint sequential_from (c : Coordinator) (task : string)
    (todo : list EngineType) (current_data : Data)
    (responses : list EngineResponse) (w : W) : list EngineResponse * W :=
  match todo with
  | [] => (responses, w)
  | e :: rest =>
      if negb (registered c e) then
        sequential_from c task rest current_data responses w
      else
        match _execute_single_engine c e task current_data w with
        | (inr res, w') =>
            let response :=
              {| engine_type := e; success := true; result := res;
                 execution_time_ms := elapsed_ms w w';
                 metadata :=
                   {| execution_order := Some (Z.of_nat (List.length responses) + 1)%Z;
                      error := None; md_task_type := None |} |} in
            let next_data :=
              match res with
              | Some r => match output_data r with
                          | Some d => d
                          | None => current_data
                          end
              | None => current_data
              end in
            sequential_from c task rest next_data (responses ++ [response])%list w'
        | (inl x, w') =>
            sequential_from c task rest current_data
              (responses ++ [failed_in_sequence e x (elapsed_ms w w')])%list w'
        end
  end.

(** [_execute_sequential(request)] *)
Definition _execute_sequential (c : Coordinator) (request : CoordinatedRequest)
    (w : W) : list EngineResponse * W :=
  sequential_from c (task_type request) (required_engines request)
    (input_data request) [] w.

(** [_execute_engine_with_timing(engine_type, task_type, data)] *)
Definition _execute_engine_with_timing (c : Coordinator) (e : EngineType)
    (task : string) (data : Data) (w : W) : EngineResponse * W :=
  match _execute_single_engine c e task data w with
  | (inr res, w') =>
      ({| engine_type := e; success := true; result := res;
          execution_time_ms := elapsed_ms w w';
          metadata := {| execution_order := None; error := None;
                         md_task_type := Some task |} |}, w')
  | (inl x, w') =>
      ({| engine_type := e; success := false; result := None;
          execution_time_ms := elapsed_ms w w';
          metadata := {| execution_order := None; error := Some (exc_str x);
                         md_task_type := Some task |} |}, w')
  end.

(** The tasks of [_execute_parallel] and what [asyncio.gather(...,
    return_exceptions=True)] collects from them: a task either returns its
    [EngineResponse] or ends with an exception. The tasks are taken to run
    to completion one after the other, in the order of their creation. *)
Fixpoint gather_tasks (c : Coordinator) (task : string) (todo : list EngineType)
    (data : Data) (w : W) : list (EngineType * (PyExc + EngineResponse)) * W :=
  match todo with
  | [] => ([], w)
  | e :: rest =>
      if negb (registered c e) then gather_tasks c task rest data w
      else
        let (response, w') := _execute_engine_with_timing c e task data w in
        let (others, w'') := gather_tasks c task rest data w' in
        ((e, inr response) :: others, w'')
  end.

(** The loop of [_execute_parallel] over [zip(tasks, results)]. *)
Definition collect (gathered : EngineType * (PyExc + EngineResponse))
    : EngineResponse :=
  match gathered with
  | (e, inl x) =>
      {| engine_type := e; success := false; result := None;
         execution_time_ms := 0%float;
         metadata := {| execution_order := None; error := Some (exc_str x);
                        md_task_type := None |} |}
  | (_, inr response) => response
  end.

(** [_execute_parallel(request)] *)
Definition _execute_parallel (c : Coordinator) (request : CoordinatedRequest)
    (w : W) : list EngineResponse * W :=
  let (results, w') :=
    gather_tasks c (task_type request) (required_engines request)
      (input_data request) w in
  (map collect results, w').

(** [_analyze_task_for_optimal_engines(request)]. The priorities are
    appended with the weights 0.9, 0.8, 0.7 in this order, so the final
    [sorted(..., reverse=True)] leaves the list as it is. *)
Definition _analyze_task_for_optimal_engines (request : CoordinatedRequest)
    : TaskAnalysis :=
  let d := lower (description request) in
  let t := lower (task_type request) in
  let mentions := existsb (fun k => contains k d || contains k t) in
  let memory := mentions ["remember"; "recall"; "history"; "context";
                          "previous"; "stored"; "knowledge"] in
  let parallel := mentions ["parallel"; "concurrent"; "multiple"; "batch";
                            "bulk"; "simultaneous"] in
  let creative := mentions ["creative"; "innovative"; "generate"; "design";
                            "brainstorm"; "novel"; "unique"] in
  {| requires_memory := memory;
     requires_parallel := parallel;
     requires_creativity := creative;
     complexity_score :=
       match complexity request with
       | ENTERPRISE => 0.9%float
       | COMPLEX => 0.7%float
       | MODERATE => 0.5%float
       | SIMPLE => 0.3%float
       end;
     innovation_level :=
       if creative then PrimFloat.add 0.3%float 0.4%float else 0.3%float;
     processing_intensity :=
       if parallel then PrimFloat.add 0.4%float 0.3%float else 0.4%float;
     engine_priorities :=
       ((if memory then [(PERFECT_RECALL, 0.9%float)] else [])
        ++ (if parallel then [(PARALLEL_MIND, 0.8%float)] else [])
        ++ (if creative then [(CREATIVE, 0.7%float)] else []))%list |}.

Definition has_priority (a : TaskAnalysis) (e : EngineType) : bool :=
  existsb (fun p => engine_eqb (fst p) e) (engine_priorities a).

(** [_create_optimal_execution_plan(analysis, request)]: the steps. *)
Definition _create_optimal_execution_plan (a : TaskAnalysis) : list Step :=
  if PrimFloat.ltb 0.7%float (complexity_score a) then
    ((if has_priority a PERFECT_RECALL
      then [{| step_engine := PERFECT_RECALL; step_mode := "sequential";
               enhance_next := true |}] else [])
     ++ (if has_priority a PARALLEL_MIND
         then [{| step_engine := PARALLEL_MIND; step_mode := "sequential";
                  enhance_next := true |}] else [])
     ++ (if has_priority a CREATIVE
         then [{| step_engine := CREATIVE; step_mode := "sequential";
                  enhance_next := false |}] else []))%list
  else if requires_parallel a && requires_creativity a then
    ((if has_priority a PARALLEL_MIND
      then [{| step_engine := PARALLEL_MIND; step_mode := "parallel";
               enhance_next := false |}] else [])
     ++ (if has_priority a CREATIVE
         then [{| step_engine := CREATIVE; step_mode := "parallel";
                  enhance_next := false |}] else []))%list
  else
    map (fun p => {| step_engine := fst p; step_mode := "sequential";
                     enhance_next := true |}) (engine_priorities a).

(** The loop of [_execute_adaptive] over the steps of the plan (no step
    of a plan is "conditional"). *)
Fixpoint adaptive_from (c : Coordinator) (request : CoordinatedRequest)
    (steps : list Step) (enhanced_data : Data)
    (responses : list EngineResponse) (w : W) : list EngineResponse * W :=
  match steps with
  | [] => (responses, w)
  | step :: rest =>
      if existsb (engine_eqb (step_engine step)) (required_engines request) then
        let (response, w') :=
          _execute_engine_with_timing c (step_engine step) (task_type request)
            enhanced_data w in
        let next_data :=
          if success response && enhance_next step
          then with_enhancement enhanced_data (engine_type response) (result response)
          else enhanced_data in
        adaptive_from c request rest next_data (responses ++ [response])%list w'
      else adaptive_from c request rest enhanced_data responses w
  end.

(** [_execute_adaptive(request)] *)
Definition _execute_adaptive (c : Coordinator) (request : CoordinatedRequest)
    (w : W) : list EngineResponse * W :=
  adaptive_from c request
    (_create_optimal_execution_plan (_analyze_task_for_optimal_engines request))
    (input_data request) [] w.

(** [d[k] = v] on a dict kept in insertion order. *)
Fixpoint dict_set {V : Type} (k : string) (v : V) (d : list (string * V))
    : list (string * V) :=
  match d with
  | [] => [(k, v)]
  | (k', v') :: t => if String.eqb k' k then (k', v) :: t
                     else (k', v') :: dict_set k v t
  end.

(** [_synthesize_results(request, responses)] *)
Definition _synthesize_results (request : CoordinatedRequest)
    (responses : list EngineResponse) : PyExc + PrimaryResult :=
  let successful_responses := filter success responses in
  match successful_responses with
  | [] => inr (AllEnginesFailed (task_id request))
  | first :: _ =>
      if String.eqb (task_type request) "creative_debugging"
         || String.eqb (task_type request) "comprehensive_analysis"
         || String.eqb (task_type request) "intelligent_generation"
      then match synthesize_special (task_type request) successful_responses with
           | inl x => inl x
           | inr payload => inr (Specialized payload)
           end
      else inr (DefaultMerge
                  (fold_left (fun d r => dict_set (engine_value (engine_type r))
                                                  (result r) d)
                             successful_responses [])
                  (engine_value (engine_type first)))
  end.

Definition ema (metric sample : float) : float :=
  PrimFloat.add (PrimFloat.mul metric 0.9%float) (PrimFloat.mul sample 0.1%float).

Definition indicator (b : bool) : float := if b then 1%float else 0%float.

Definition update_utilization (x : CoordinationMetrics) (r : EngineResponse)
    : CoordinationMetrics :=
  let s := indicator (success r) in
  {| total_coordinated_tasks := total_coordinated_tasks x;
     avg_coordination_time := avg_coordination_time x;
     utilization_recall :=
       match engine_type r with
       | PERFECT_RECALL => ema (utilization_recall x) s
       | _ => utilization_recall x
       end;
     utilization_parallel :=
       match engine_type r with
       | PARALLEL_MIND => ema (utilization_parallel x) s
       | _ => utilization_parallel x
       end;
     utilization_creative :=
       match engine_type r with
       | CREATIVE => ema (utilization_creative x) s
       | _ => utilization_creative x
       end;
     coordination_success_rate := coordination_success_rate x |}.

(** [_update_coordination_metrics(request, responses, total_time, success)] *)
Definition _update_coordination_metrics (x : CoordinationMetrics)
    (responses : list EngineResponse) (total_time : float) (ok : bool)
    : CoordinationMetrics :=
  let x1 :=
    {| total_coordinated_tasks := total_coordinated_tasks x + 1;
       avg_coordination_time := ema (avg_coordination_time x) total_time;
       utilization_recall := utilization_recall x;
       utilization_parallel := utilization_parallel x;
       utilization_creative := utilization_creative x;
       coordination_success_rate := coordination_success_rate x |} in
  let x2 := fold_left update_utilization responses x1 in
  {| total_coordinated_tasks := total_coordinated_tasks x2;
     avg_coordination_time := avg_coordination_time x2;
     utilization_recall := utilization_recall x2;
     utilization_parallel := utilization_parallel x2;
     utilization_creative := utilization_creative x2;
     coordination_success_rate :=
       ema (coordination_success_rate x2) (indicator ok) |}.

(** [any(response.success for response in engine_responses)] *)
Definition any_success (responses : list EngineResponse) : bool :=
  existsb success responses.

(** [sum(r.success for r in engine_responses)] *)
Definition count_success (responses : list EngineResponse) : Z :=
  fold_left (fun n r => if success r then (n + 1)%Z else n) responses 0%Z.

(** [sum(r.execution_time_ms for r in engine_responses)], from the
    integer 0. *)
Definition sum_times (responses : list EngineResponse) : float :=
  fold_left (fun t r => PrimFloat.add t (execution_time_ms r)) responses 0%float.

(** [coordination_strategies.get(name, self._execute_adaptive)] *)
Definition strategy (c : Coordinator) (request : CoordinatedRequest) (w : W)
    : list EngineResponse * W :=
  if String.eqb (coordination_strategy request) "sequential"
  then _execute_sequential c request w
  else if String.eqb (coordination_strategy request) "parallel"
  then _execute_parallel c request w
  else _execute_adaptive c request w.

(** [execute_coordinated_task(request)]: what it raises or returns, the
    coordinator and the world afterwards. Of the request tracking of the
    base class only the elapsed time is read. *)
Definition execute_coordinated_task (c : Coordinator)
    (request : CoordinatedRequest) (w : W)
    : (PyExc + CoordinatedResponse) * Coordinator * W :=
  let (responses, w') := strategy c request w in
  match _synthesize_results request responses with
  | inl x => (inl x, c, w')
  | inr primary =>
      let total_time := tracked_time (task_id request) w' in
      let ok := any_success responses in
      let c' :=
        {| engines := engines c;
           coordination_metrics :=
             _update_coordination_metrics (coordination_metrics c) responses
               total_time ok |} in
      match responses with
      | [] =>
          (inl {| exc_type := "ZeroDivisionError"; exc_str := "division by zero" |},
           c', w')
      | _ :: _ =>
          let n := float_of_Z (Z.of_nat (List.length responses)) in
          (inr {| resp_task_id := task_id request;
                  resp_success := ok;
                  primary_result := primary;
                  engine_responses := responses;
                  coordination_summary :=
                    {| strategy_used := coordination_strategy request;
                       engines_utilized :=
                         map (fun r => engine_value (engine_type r)) responses;
                       total_engines := Z.of_nat (List.length responses);
                       success_rate :=
                         PrimFloat.div (float_of_Z (count_success responses)) n;
                       avg_engine_time := PrimFloat.div (sum_times responses) n;
                       complexity_handled := complexity_value (complexity request) |};
                  total_execution_time_ms := total_time |},
           c', w')
      end
  end.

End WithEngines.

Arguments CoordinatedRequest : clear implicits.
Arguments EngineResponse : clear implicits.
Arguments PrimaryResult : clear implicits.
Arguments CoordinatedResponse : clear implicits.
Arguments Engines : clear implicits.

End Coordinator.

(* ===================================================================== *)
(** ** src/revoagent/ai/llm_manager_enhanced.py *)
(* ===================================================================== *)

Module EnhancedManager.
Import Py.

(** The arithmetic [_update_stats] runs on. Python runs it on binary64
    floats; the same code over the rationals is the exact arithmetic. *)
Class Arith (F : Type) : Type := {
  zero : F;
  add : F -> F -> F;
  mul : F -> F -> F;
  div : F -> F -> F;
  of_int : Z -> F          (* the conversion of an [int] operand *)
}.

#[export] Instance binary64 : Arith float := {|
  zero := 0%float;
  add := PrimFloat.add;
  mul := PrimFloat.mul;
  div := PrimFloat.div;
  of_int := float_of_Z
|}.

#[export] Instance exact : Arith Q := {|
  zero := 0%Q;
  add := Qplus;
  mul := Qmult;
  div := Qdiv;
  of_int := inject_Z
|}.

(** The counters of [self.stats] and the latency average. *)
Record Stats (F : Type) : Type := mkStats {
  total_requests : Z;
  successful_requests : Z;
  failed_requests : Z;
  local_requests : Z;
  api_requests : Z;
  cpu_optimized_requests : Z;
  fallback_requests : Z;
  average_latency : F;
  last_error : option string
}.
Arguments mkStats {F}.
Arguments total_requests {F}.
Arguments successful_requests {F}.
Arguments failed_requests {F}.
Arguments local_requests {F}.
Arguments api_requests {F}.
Arguments cpu_optimized_requests {F}.
Arguments fallback_requests {F}.
Arguments average_latency {F}.
Arguments last_error {F}.

(** [self.stats] as [__init__] leaves it. *)
Definition initial_stats {F : Type} `{Arith F} : Stats F :=
  {| total_requests := 0; successful_requests := 0; failed_requests := 0;
     local_requests := 0; api_requests := 0; cpu_optimized_requests := 0;
     fallback_requests := 0; average_latency := zero; last_error := None |}.

Definition set_average {F : Type} (s : Stats F) (a : F) : Stats F :=
  {| total_requests := total_requests s;
     successful_requests := successful_requests s;
     failed_requests := failed_requests s;
     local_requests := local_requests s;
     api_requests := api_requests s;
     cpu_optimized_requests := cpu_optimized_requests s;
     fallback_requests := fallback_requests s;
     average_latency := a;
     last_error := last_error s |}.

Definition count_outcome {F : Type} (s : Stats F) (success : bool) : Stats F :=
  {| total_requests := total_requests s;
     successful_requests :=
       if success then successful_requests s + 1 else successful_requests s;
     failed_requests :=
       if success then failed_requests s else failed_requests s + 1;
     local_requests := local_requests s;
     api_requests := api_requests s;
     cpu_optimized_requests := cpu_optimized_requests s;
     fallback_requests := fallback_requests s;
     average_latency := average_latency s;
     last_error := last_error s |}.

(** [_update_stats(success, latency)] *)
Definition _update_stats {F : Type} `{Arith F} (s : Stats F) (success : bool)
    (latency : F) : Stats F :=
  let s1 := count_outcome s success in
  let total := (successful_requests s1 + failed_requests s1)%Z in
  if (0 <? total)%Z then
    set_average s1
      (div (add (mul (average_latency s1) (of_int (total - 1))) latency)
           (of_int total))
  else s1.

(** [k] successful calls, with the latencies of [ls] in order. *)
Definition after_successes {F : Type} `{Arith F} (ls : list F) : Stats F :=
  fold_left (fun s l => _update_stats s true l) ls initial_stats.

(** The rational number a finite binary64 value stands for. *)
Definition value (x : float) : Q :=
  match Prim2SF x with
  | S754_finite s m e =>
      ((if s then -1 else 1) * inject_Z (Z.pos m) * Qpower 2 e)%Q
  | _ => 0%Q
  end.

(** [(l1 + ... + lk) / k] over the rationals. *)
Definition mean (ls : list Q) : Q :=
  (fold_left Qplus ls 0 / inject_Z (Z.of_nat (List.length ls)))%Q.

(** *** The catalogue of models *)

#[local] Set Warnings "-inexact-float".

(** An entry of [self.available_models]; a field is [None] when the key is
    missing. *)
Record ModelInfo : Type := mkInfo {
  source : option string;
  info_provider : option string;
  status : option string
}.

(** [self.available_models.get(model_id)] *)
Fixpoint get_info (model_id : string) (d : list (string * ModelInfo))
    : option ModelInfo :=
  match d with
  | [] => None
  | (k, info) :: t => if String.eqb k model_id then Some info
                      else get_info model_id t
  end.

(** [info.get("source", "")] *)
Definition source_of (info : ModelInfo) : string :=
  match source info with
  | Some s => s
  | None => ""
  end.

(** [_detect_provider(model_name)] *)
Definition _detect_provider (model_name : string) : string :=
  let model_name := lower model_name in
  if contains "deepseek" model_name then "deepseek"
  else if contains "llama" model_name then "llama"
  else if contains "gpt" model_name then "openai"
  else if contains "claude" model_name then "anthropic"
  else if contains "gemini" model_name then "gemini"
  else "unknown".

(** [_get_cost_per_token(model_id)] *)
Definition _get_cost_per_token (available_models : list (string * ModelInfo))
    (model_id : string) : float :=
  let model_id := lower model_id in
  let free :=
    match get_info model_id available_models with
    | Some info => contains "local" (source_of info) || contains "cpu" (source_of info)
    | None => false
    end in
  if free then 0%float
  else if contains "gpt-4" model_id then 0.01%float
  else if contains "gpt-3.5" model_id then 0.002%float
  else if contains "claude-3-opus" model_id then 0.015%float
  else if contains "claude-3-sonnet" model_id then 0.008%float
  else if contains "claude-3-haiku" model_id then 0.002%float
  else if contains "deepseek" model_id then 0.0005%float
  else if contains "gemini" model_id then 0.0035%float
  else 0.001%float.

(** The objects that reach the membership test of [_get_model_features]:
    a list of names, or the coroutine object that the call of an
    [async def] returns when it is not awaited. *)
Inductive PyObject : Type :=
| Names (l : list string)
| Coroutine.

(** A call of an [async def] without [await]: the body does not run. *)
Definition call_without_await {A : Type} (body : A) : PyObject := Coroutine.

(** [x in obj] *)
Definition py_in (x : string) (obj : PyObject) : PyExc + bool :=
  match obj with
  | Names l => inr (mem x l)
  | Coroutine =>
      inl (mkExc "TypeError" "argument of type 'coroutine' is not iterable")
  end.

(** [_get_model_features(model_id, info)]; [fm] is the fallback manager
    of the enhanced manager. *)
Definition _get_model_features (fm : FallbackManager.Manager)
    (model_id : string) (info : ModelInfo) : list string :=
  let source := source_of info in
  ((if contains "local" source || contains "cpu" source
    then ["local_inference"; "offline_capable"] else [])
   ++ (if contains "api" source then ["cloud_inference"] else [])
   ++ (if contains "deepseek" (lower model_id) then ["code_generation"] else [])
   ++ (if contains "llama" (lower model_id) && contains "70b" (lower model_id)
       then ["high_quality"] else [])
   ++ (if contains "gpt-4" (lower model_id) then ["high_quality"] else [])
   ++ (if FallbackManager.enabled fm then
         let fallback_chain :=
           call_without_await
             (FallbackManager.get_fallback_chain fm (Some "dummy-model")) in
         match py_in model_id fallback_chain with
         | inr true => ["fallback_capable"]
         | inr false => []
         | inl _ => []                       (* except: pass *)
         end
       else []))%list.

End EnhancedManager.

(* ===================================================================== *)
(** ** src/revoagent/ai/llm_bridge.py *)
(* ===================================================================== *)

Module Bridge.
Import Py.

(** The integrations the bridge can load. *)
Inductive Integration : Type :=
| DeepSeekR1Integration | OpenAIIntegration | LlamaLocalIntegration
| DeepSeekIntegration.

Record LLMBridge : Type := mkBridge {
  providers : list (string * Integration);   (* in insertion order *)
  initialized : bool
}.

(** [LLMBridge()] *)
Definition new_bridge : LLMBridge := {| providers := []; initialized := false |}.

(** [self.providers.get(model)] *)
Fixpoint get_provider (model : string) (d : list (string * Integration))
    : option Integration :=
  match d with
  | [] => None
  | (k, p) :: t => if String.eqb k model then Some p else get_provider model t
  end.

(** [self.providers[model] = p] *)
Fixpoint set_key (model : string) (p : Integration)
    (d : list (string * Integration)) : list (string * Integration) :=
  match d with
  | [] => [(model, p)]
  | (k, q) :: t => if String.eqb k model then (k, p) :: t
                   else (k, q) :: set_key model p t
  end.

Definition set_provider (b : LLMBridge) (model : string) (p : Integration)
    : LLMBridge :=
  {| providers := set_key model p (providers b); initialized := initialized b |}.

(** The environment, the integration modules and their objects. *)
Class Host (W : Type) : Type := {
  (** [os.getenv(name)] *)
  getenv : string -> W -> option string;
  (** the import of the module of an integration and its constructor *)
  construct : Integration -> W -> (PyExc + unit) * W;
  (** [provider.initialize()], or [provider.init()], when there is one *)
  provider_initialize : Integration -> W -> (PyExc + unit) * W;
  (** [llama.check_availability()], and [True] without such a method *)
  check_availability : W -> (PyExc + bool) * W;
  (** the import and the constructor of [ModelManager]; an exception is
      logged and dropped *)
  construct_model_manager : W -> W;
  (** the generation method the provider has ([generate_response], [chat],
      [process], [complete] or the provider itself), with the keyword
      arguments; a falsy answer is the empty text *)
  provider_generate :
    Integration -> string -> list (string * string) -> W -> (PyExc + string) * W
}.

Section WithHost.
Context {W : Type} `{Host W}.

(** [if os.getenv(name):] *)
Definition env_set (name : string) (w : W) : bool :=
  match getenv name w with
  | Some v => negb (String.eqb v "")
  | None => false
  end.

(** [_safe_initialize_provider(provider, name)]: an exception is logged
    and dropped. *)
Definition _safe_initialize_provider (p : Integration) (w : W) : W :=
  snd (provider_initialize p w).

(** [_check_llama_availability(llama)] *)
Definition _check_llama_availability (w : W) : bool * W :=
  match check_availability w with
  | (inr available, w') => (available, w')
  | (inl _, w') => (false, w')
  end.

(** One [try] block of [initialize]: build the integration, initialize it
    and register it under [names]; any exception leaves the providers as
    they were. *)
Definition register (p : Integration) (names : list string) (b : LLMBridge)
    (w : W) : LLMBridge * W :=
  match construct p w with
  | (inr _, w1) =>
      (fold_left (fun b name => set_provider b name p) names b,
       _safe_initialize_provider p w1)
  | (inl _, w1) => (b, w1)
  end.

(** [initialize()] *)
Definition initialize (b : LLMBridge) (w : W) : LLMBridge * W :=
  let '(b1, w1) :=
    if env_set "DEEPSEEK_API_KEY" w
    then register DeepSeekR1Integration ["deepseek-r1"] b w
    else (b, w) in
  let '(b2, w2) :=
    if env_set "OPENAI_API_KEY" w1
    then register OpenAIIntegration ["gpt-4o-mini"; "gpt-4o"] b1 w1
    else (b1, w1) in
  let '(b3, w3) :=
    match construct LlamaLocalIntegration w2 with
    | (inr _, w') =>
        let '(available, w'') := _check_llama_availability w' in
        if available
        then (set_provider b2 "llama-3.1-70b" LlamaLocalIntegration,
              _safe_initialize_provider LlamaLocalIntegration w'')
        else (b2, w'')
    | (inl _, w') => (b2, w')
    end in
  let '(b4, w4) :=
    if env_set "DEEPSEEK_API_KEY" w3
    then register DeepSeekIntegration ["deepseek-coder"] b3 w3
    else (b3, w3) in
  ({| providers := providers b4; initialized := true |},
   construct_model_manager w4).

(** [get_available_models()] *)
Definition get_available_models (b : LLMBridge) (w : W)
    : list string * LLMBridge * W :=
  let '(b1, w1) := if initialized b then (b, w) else initialize b w in
  (map fst (providers b1), b1, w1).

Definition no_providers_notice : string :=
  "No LLM providers available. Please configure API keys.".

(** The [try] block of [generate_response] with its handler. *)
Definition answer_of (model message : string) (r : PyExc + string) : string :=
  match r with
  | inr response =>
      if String.eqb response ""
      then "Generated response from " ++ model ++ ": " ++ message
      else response
  | inl e => "Error generating response with " ++ model ++ ": " ++ exc_str e
  end.

(** [generate_response(message, model, **kwargs)] *)
Definition generate_response (b : LLMBridge) (message model : string)
    (kwargs : list (string * string)) (w : W) : string * LLMBridge * W :=
  let '(b1, w1) := if initialized b then (b, w) else initialize b w in
  match get_provider model (providers b1) with
  | Some p =>
      let '(r, w2) := provider_generate p message kwargs w1 in
      (answer_of model message r, b1, w2)
  | None =>
      match providers b1 with
      | (first, p) :: _ =>
          let '(r, w2) := provider_generate p message kwargs w1 in
          (answer_of first message r, b1, w2)
      | [] => (no_providers_notice, b1, w1)
      end
  end.

End WithHost.

End Bridge.

(* ===================================================================== *)
(** ** Concrete configurations used by the examples of Part II *)
(* ===================================================================== *)

Module Scenarios.
Import Py.

(** *** A fallback manager whose collaborators are all down *)
Module Down.
Import FallbackManager.

Definition refused : PyExc :=
  {| exc_type := "ConnectionError"; exc_str := "connection refused" |}.

(** Every call to the bridge raises, the CPU model times out, the bridge
    lists no model and the model manager knows none. *)
#[export] Instance all_down : Services unit := {|
  clock := fun _ => 0%float;
  bridge_generate_response := fun _ _ w => (Failed refused, w);
  bridge_generate_unbounded := fun _ _ w => (inl refused, w);
  bridge_get_available_models := fun _ => Some [];
  manager_status_name := fun _ _ => None;
  cpu_generate_code := fun _ w => (TimedOut, w);
  memory_percent := fun _ => Some 50%float;
  memory_available_gb := fun _ => Some 16%float;
  re_search := fun _ _ => Some false;
  hash10 := fun _ => "0"
|}.

Definition api (name : string) (prio : Z) : Provider :=
  {| model_name := Some name; provider_enabled := Some true;
     priority := Some prio |}.

(** Two API fallbacks, no local model, no routing rule; [strategy] is
    [behavior.persistent_failure_strategy]. *)
Definition cloud_config (on : bool) (strategy : option string) : Config :=
  {| cfg_enabled := Some on;
     cfg_timeout := None;
     cfg_local_models := [];
     cfg_api_primary := Some (api "gpt-4" 1);
     cfg_api_secondary := Some [api "claude-3" 2];
     cfg_routing_rules := None;
     cfg_persistent_failure_strategy := strategy |}.

Definition manager_on : Manager := initialize (cloud_config true None) tt.
Definition manager_off : Manager :=
  initialize (cloud_config false (Some "degrade")) tt.
Definition manager_strict : Manager :=
  initialize (cloud_config true (Some "propagate")) tt.

(** Two local models next to one API fallback. *)
Definition mixed_config : Config :=
  {| cfg_enabled := Some true;
     cfg_timeout := None;
     cfg_local_models :=
       [("local-a", {| local_enabled := Some true; min_ram_gb := None |});
        ("local-b", {| local_enabled := Some true; min_ram_gb := Some 8%float |})];
     cfg_api_primary := Some (api "gpt-4" 1);
     cfg_api_secondary := None;
     cfg_routing_rules := None;
     cfg_persistent_failure_strategy := None |}.

Definition manager_mixed : Manager := initialize mixed_config tt.

End Down.

(** *** A fallback manager of which one cloud model answers *)
Module OneUp.
Import FallbackManager.

(** The bridge answers for "claude-3" only; the CPU model times out. *)
#[export] Instance claude_up : Services unit := {|
  clock := fun _ => 0%float;
  bridge_generate_response := fun message model w =>
    match model with
    | Some id => if String.eqb id "claude-3"
                 then (Completed ("claude says: " ++ message), w)
                 else (Failed Down.refused, w)
    | None => (Failed Down.refused, w)
    end;
  bridge_generate_unbounded := fun _ _ w => (inl Down.refused, w);
  bridge_get_available_models := fun _ => Some ["claude-3"];
  manager_status_name := fun _ _ => None;
  cpu_generate_code := fun _ w => (TimedOut, w);
  memory_percent := fun _ => Some 50%float;
  memory_available_gb := fun _ => Some 4%float;
  re_search := fun _ _ => Some false;
  hash10 := fun _ => "0"
|}.

Definition manager : Manager := initialize (Down.cloud_config true None) tt.

(** One local model that fits in 4 GB, one that does not, one disabled;
    one API fallback enabled and one disabled. *)
Definition crowded_config : Config :=
  {| cfg_enabled := Some true;
     cfg_timeout := Some "5";
     cfg_local_models :=
       [("tiny-local", {| local_enabled := Some true; min_ram_gb := Some 2%float |});
        ("big-local", {| local_enabled := Some true; min_ram_gb := Some 8%float |});
        ("off-local", {| local_enabled := Some false; min_ram_gb := None |})];
     cfg_api_primary := Some (Down.api "gpt-4" 1);
     cfg_api_secondary :=
       Some [Down.api "claude-3" 2;
             {| model_name := Some "gemini"; provider_enabled := Some false;
                priority := Some 1%Z |}];
     cfg_routing_rules := None;
     cfg_persistent_failure_strategy := None |}.

Definition crowded : Manager := initialize crowded_config tt.

End OneUp.

(** *** Hosts of the optimized manager *)
Module Hosts.
Import OptimizedManager.

#[local] Set Warnings "-inexact-float".

(** Keys for DeepSeek and OpenAI only. *)
Definition two_keys : Environment :=
  {| DEEPSEEK_API_KEY := Some "sk-deepseek"; OPENAI_API_KEY := Some "sk-openai";
     ANTHROPIC_API_KEY := None; GEMINI_API_KEY := None |}.

Definition no_keys : Environment :=
  {| DEEPSEEK_API_KEY := None; OPENAI_API_KEY := None;
     ANTHROPIC_API_KEY := None; GEMINI_API_KEY := None |}.

(** The low-end host with two keys, before and after the user asks for
    OpenAI. *)
Definition plain : Manager := new_manager fallback_profile two_keys.
Definition prefers_openai : Manager := set_user_preference plain OPENAI_API.

(** Two cores at 1.1 GHz, 2 GB of RAM, no GPU, no key. *)
Definition small_host : Manager :=
  new_manager (_analyze_hardware 2 1.1%float 2%float false 0%float) no_keys.

(** Four cores at 1.2 GHz, 6.5 GB of RAM and a GPU with 8 GB: the local
    model is registered with a need of 8 GB of RAM. *)
Definition gpu_host : Manager :=
  new_manager (_analyze_hardware 4 1.2%float 6.5%float true 8%float) two_keys.

(** Each provider with its verdict from [_can_use_provider] and its
    priority. *)
Definition view (m : Manager) : list (LLMProvider * bool * Z) :=
  map (fun pc => (fst pc, _can_use_provider (hardware_profile m) (snd pc),
                  priority (snd pc)))
      (available_providers m).

End Hosts.

(** *** Client libraries of the optimized manager *)
Module Clients.
Import OptimizedManager.

#[local] Set Warnings "-inexact-float".

(** No client library is installed: every import fails. The world is not
    consulted. *)
#[export] Instance missing : Runtime unit := {|
  build_client := fun _ _ w =>
    (inl (mkExc "ModuleNotFoundError" "No module named 'openai'"), w);
  client_generate := fun _ _ _ _ w =>
    (inl (mkExc "RuntimeError" "no client"), w);
  now := fun w => (0%Z, w)
|}.

(** Every client is built and answers; the world is the clock, in
    microseconds, and a reading of it takes a quarter of a second. *)
#[export] Instance online : Runtime Z := {|
  build_client := fun _ _ w => (inr tt, w);
  client_generate := fun p _ prompt _ w =>
    (inr (provider_value p ++ ": " ++ prompt), w);
  now := fun w => (w, (w + 250000)%Z)
|}.

(** A host with four cores at 1.1 GHz and 8 GB of RAM, without GPU. *)
Definition laptop : HardwareProfile :=
  _analyze_hardware 4 1.1%float 8%float false 0%float.

End Clients.

(** *** An API manager whose providers all fail *)
Module ApiDown.
Import ApiManager.

Definition overloaded : PyExc :=
  {| exc_type := "RuntimeError"; exc_str := "503 service unavailable" |}.

#[export] Instance providers_down : Services unit := {|
  clock := fun _ => 0%float;
  provider_generate := fun _ _ _ _ _ w => (inl overloaded, w)
|}.

Definition no_kwargs : Kwargs :=
  {| kw_max_tokens := None; kw_temperature := None; kw_top_p := None |}.

Definition fresh_metrics : Metrics :=
  {| total_requests := 0; successful_requests := 0; failed_requests := 0;
     total_cost := 0%float; total_tokens := 0; model_usage := [] |}.

(** Gemini and Claude are configured; Gemini is the current model. *)
Definition manager : Manager :=
  {| models := [API_CLAUDE; API_GEMINI];
     current_model := Some API_GEMINI;
     fallback_enabled := true;
     metrics := fresh_metrics;
     model_configs := _get_default_configs (Some "key-g") (Some "key-c");
     model_priority := default_model_priority |}.

End ApiDown.

(** *** An API manager of which one provider is down *)
Module ApiUp.
Import ApiManager.

(** The world counts the calls to the providers and is the clock, in
    seconds. Gemini is down; the others answer with twelve tokens. *)
#[export] Instance gemini_down : Services nat := {|
  clock := fun w => float_of_Z (Z.of_nat w);
  provider_generate := fun t prompt _ _ _ w =>
    match t with
    | API_GEMINI => (inl ApiDown.overloaded, S w)
    | _ => (inr {| res_content := "answer to " ++ prompt;
                   res_model := type_value t;
                   res_tokens_used := 12;
                   res_cost := 0.25%float;
                   res_provider := type_value t |}, S w)
    end
|}.

(** Gemini and Claude have a provider; Gemini is the current model. *)
Definition manager : Manager :=
  {| models := [API_CLAUDE; API_GEMINI];
     current_model := Some API_GEMINI;
     fallback_enabled := true;
     metrics := ApiDown.fresh_metrics;
     model_configs := _get_default_configs (Some "key-g") (Some "key-c");
     model_priority := default_model_priority |}.

(** Only OpenAI has a provider, and its configuration is disabled. *)
Definition openai_only : Manager :=
  {| models := [API_OPENAI];
     current_model := None;
     fallback_enabled := true;
     metrics := ApiDown.fresh_metrics;
     model_configs := _get_default_configs None None;
     model_priority := default_model_priority |}.

End ApiUp.

(** *** Engines of which the recall engine is broken *)
Module Engines.
Import Coordinator.

Definition lost : PyExc :=
  {| exc_type := "ConnectionError"; exc_str := "memory store unreachable" |}.

(** The world is a counter of engine calls, which is also the clock. The
    input and the results are strings; the recall engine raises, the other
    two answer with a text that quotes the input they were given, and the
    answer of the parallel engine carries that text as [output_data]. *)
#[export] Instance recall_broken : Engines nat string string string := {|
  loop_time := fun w => float_of_Z (Z.of_nat w);
  retrieve_fast := fun _ w => (inl lost, S w);
  store_context := fun _ w => (inl lost, S w);
  parallel_task := fun d w => (inr ("analysis of [" ++ d ++ "]"), S w);
  generate_solutions := fun d w => (inr ("solutions for [" ++ d ++ "]"), S w);
  output_data := fun r => if String.prefix "analysis" r then Some r else None;
  with_enhancement := fun d _ _ => d;
  tracked_time := fun _ w => float_of_Z (Z.of_nat w);
  synthesize_special := fun _ _ => inr "report"
|}.

Definition fresh : Coordinator :=
  {| engines := [PERFECT_RECALL; PARALLEL_MIND; CREATIVE];
     coordination_metrics :=
       {| total_coordinated_tasks := 0; avg_coordination_time := 0%float;
          utilization_recall := 0%float; utilization_parallel := 0%float;
          utilization_creative := 0%float;
          coordination_success_rate := 0%float |} |}.

Definition request (required : list EngineType) (mode : string)
    : CoordinatedRequest string :=
  {| task_id := "task-1"; task_type := "recall";
     description := "look up the incident"; input_data := "context";
     complexity := MODERATE; required_engines := required;
     coordination_strategy := mode; timeout_seconds := 60 |}.

End Engines.

(** *** A host of the bridge *)
Module BridgeHost.
Import Bridge.

(** Only the OpenAI key is set, the Llama module is not installed, and
    OpenAI answers every second call only. The world counts the calls. *)
#[export] Instance openai_only : Host nat := {|
  getenv := fun name _ =>
    if String.eqb name "OPENAI_API_KEY" then Some "sk-openai" else None;
  construct := fun p w =>
    match p with
    | LlamaLocalIntegration =>
        (inl (mkExc "ModuleNotFoundError" "No module named 'llama_cpp'"), w)
    | _ => (inr tt, w)
    end;
  provider_initialize := fun _ w => (inr tt, w);
  check_availability := fun w => (inr true, w);
  construct_model_manager := fun w => w;
  provider_generate := fun _ message _ w =>
    if Nat.even w then (inr ("echo: " ++ message), S w)
    else (inl (mkExc "RuntimeError" "429 too many requests"), S w)
|}.

End BridgeHost.

(** *** Three calls that each took a tenth of a second *)
Module Latency.

(** The binary64 value nearest to 0.1. *)
Definition tenth : float := 0x1.999999999999ap-4%float.

End Latency.

End Scenarios.

(* ===================================================================== *)
(** * Part II: the properties *)
(* ===================================================================== *)

Module PyFacts.
Import Py.

Lemma mem_In (x : string) (l : list string) : mem x l = true <-> In x l.
Proof.
  induction l as [|y t IH]; simpl.
  - split; [discriminate | contradiction].
  - destruct (String.eqb x y) eqn:E.
    + apply String.eqb_eq in E. subst. split; auto.
    + apply String.eqb_neq in E. rewrite IH. split; [auto | intros [Hy|Ht]; congruence].
Qed.

Lemma mem_false (x : string) (l : list string) : mem x l = false <-> ~ In x l.
Proof.
  rewrite <- mem_In. destruct (mem x l); split; congruence.
Qed.

(** *** The stable sort *)

Section SortedBy.
Context {A : Type} (key : A -> Z).

Definition key_le (a b : A) : Prop := (key a <= key b)%Z.

Lemma insert_by_In (x y : A) (l : list A) :
  In y (insert_by key x l) <-> y = x \/ In y l.
Proof.
  induction l as [|z t IH]; simpl.
  - intuition.
  - destruct (key x <=? key z)%Z; simpl; [intuition | rewrite IH; intuition].
Qed.

Lemma sorted_by_In (y : A) (l : list A) :
  In y (sorted_by key l) <-> In y l.
Proof.
  induction l as [|x t IH]; simpl; [tauto |].
  rewrite insert_by_In, IH. intuition.
Qed.

Lemma insert_by_HdRel (a x : A) (l : list A) :
  key_le a x -> HdRel key_le a l -> HdRel key_le a (insert_by key x l).
Proof.
  intros Hax Hl. destruct l as [|z t]; simpl.
  - constructor. exact Hax.
  - inversion Hl; subst. destruct (key x <=? key z)%Z; constructor; assumption.
Qed.

Lemma insert_by_Sorted (x : A) (l : list A) :
  Sorted key_le l -> Sorted key_le (insert_by key x l).
Proof.
  induction l as [|z t IH]; intros Hs; simpl.
  - repeat constructor.
  - inversion Hs as [|? ? Ht Hhd]; subst.
    destruct (key x <=? key z)%Z eqn:E.
    + constructor; [exact Hs |]. constructor. apply Z.leb_le. exact E.
    + constructor; [apply IH; exact Ht |].
      apply insert_by_HdRel; [| exact Hhd].
      apply Z.leb_gt in E. unfold key_le. lia.
Qed.

Lemma sorted_by_Sorted (l : list A) : Sorted key_le (sorted_by key l).
Proof.
  induction l as [|x t IH]; simpl; [constructor | apply insert_by_Sorted; exact IH].
Qed.

Lemma sorted_by_StronglySorted (l : list A) :
  StronglySorted key_le (sorted_by key l).
Proof.
  apply Sorted_StronglySorted; [| apply sorted_by_Sorted].
  intros a b c Hab Hbc. unfold key_le in *. lia.
Qed.

(** The first element of a sorted list that passes a test has the least
    key among those that pass. *)
Lemma find_least (P : A -> bool) (l : list A) (x : A) :
  StronglySorted key_le l -> find P l = Some x ->
  P x = true /\ In x l /\ forall y, In y l -> P y = true -> (key x <= key y)%Z.
Proof.
  induction l as [|z t IH]; intros Hs Hf; simpl in Hf; [discriminate |].
  inversion Hs as [|? ? Ht Hall]; subst.
  destruct (P z) eqn:E.
  - injection Hf as <-. repeat split; [exact E | simpl; auto |].
    intros y [<-|Hy] _; [lia |]. rewrite Forall_forall in Hall. exact (Hall y Hy).
  - destruct (IH Ht Hf) as [Hp [Hin Hmin]]. repeat split; [exact Hp | simpl; auto |].
    intros y [<-|Hy] Py; [congruence | exact (Hmin y Hy Py)].
Qed.

End SortedBy.

End PyFacts.

(* ===================================================================== *)
(** ** The fallback manager *)
(* ===================================================================== *)

Module FallbackProps.
Import Py PyFacts FallbackManager.

(** *** Removing duplicates *)

Lemma unique_from_In (l : list string) :
  forall seen x, In x (unique_from seen l) <-> In x l /\ ~ In x seen.
Proof.
  induction l as [|y t IH]; intros seen x; simpl.
  - tauto.
  - destruct (mem y seen) eqn:E.
    + apply mem_In in E. rewrite IH. split.
      * intros [Ht Hs]. auto.
      * intros [[Hy|Ht] Hs]; [subst; contradiction | auto].
    + apply mem_false in E. simpl. rewrite IH. simpl. split.
      * intros [Hy|[Ht Hs]]; [subst; auto | auto].
      * intros [[Hy|Ht] Hs]; [auto |].
        destruct (string_dec y x) as [->|Hne]; [auto | right; intuition].
Qed.

Lemma unique_from_NoDup (l : list string) :
  forall seen, NoDup (unique_from seen l).
Proof.
  induction l as [|y t IH]; intros seen; simpl.
  - constructor.
  - destruct (mem y seen); [apply IH |].
    constructor; [| apply IH].
    rewrite unique_from_In. simpl. tauto.
Qed.

Lemma unique_from_id (l : list string) :
  forall seen, NoDup l -> (forall x, In x l -> ~ In x seen) ->
               unique_from seen l = l.
Proof.
  induction l as [|y t IH]; intros seen Hnd Hseen; simpl; [reflexivity |].
  inversion Hnd as [|? ? Hy Ht]; subst.
  assert (E : mem y seen = false) by (apply mem_false, Hseen; simpl; auto).
  rewrite E. f_equal. apply IH; [assumption |].
  intros x Hx [Hxy|Hs]; [subst; contradiction |].
  exact (Hseen x (or_intror Hx) Hs).
Qed.

Lemma unique_from_length (l : list string) :
  forall seen, (List.length (unique_from seen l) <= List.length l)%nat.
Proof.
  induction l as [|y t IH]; intros seen; simpl; [lia |].
  destruct (mem y seen); simpl; [specialize (IH seen) | specialize (IH (y :: seen))]; lia.
Qed.

Lemma unique_from_app (l1 l2 : list string) :
  forall seen, exists seen',
    unique_from seen (l1 ++ l2) = (unique_from seen l1 ++ unique_from seen' l2)%list.
Proof.
  induction l1 as [|y t IH]; intros seen; simpl.
  - exists seen. reflexivity.
  - destruct (mem y seen).
    + apply IH.
    + destruct (IH (y :: seen)) as [seen' Hs]. exists seen'. simpl. congruence.
Qed.

Lemma unique_from_incl (l : list string) (seen : list string) :
  incl (unique_from seen l) l.
Proof. intros x Hx. apply unique_from_In in Hx. tauto. Qed.

(** *** The chain *)

Section Chain.
Context {W : Type} `{Services W}.

Lemma chain_NoDup (m : Manager) (original : option string) :
  NoDup (get_fallback_chain m original).
Proof. apply unique_from_NoDup. Qed.

Lemma chain_In (m : Manager) (original : option string) (x : string) :
  In x (get_fallback_chain m original) <-> In x (raw_fallback_chain m original).
Proof.
  unfold get_fallback_chain. rewrite unique_from_In. simpl. tauto.
Qed.

Lemma is_original_true (original : option string) (x : string) :
  is_original original x = true <-> original = Some x.
Proof.
  destruct original as [o|]; simpl.
  - rewrite String.eqb_eq. split; [intros ->; reflexivity | intros [= ->]; reflexivity].
  - split; discriminate.
Qed.

Lemma is_local_In (m : Manager) (x : string) :
  is_local m (Some x) = true <-> In x (local_models m).
Proof. simpl. apply mem_In. Qed.

(** A model that is not local and is not the last resort is not in its
    own chain. *)
Lemma original_not_in_chain (m : Manager) (original : option string) :
  is_local m original = false ->
  original <> Some "deepseek-r1" ->
  forall x, In x (get_fallback_chain m original) -> original <> Some x.
Proof.
  intros Hloc Hlast x Hx Heq. apply chain_In in Hx.
  unfold raw_fallback_chain in Hx. rewrite Hloc in Hx.
  repeat rewrite in_app_iff in Hx.
  destruct Hx as [[Hp | [Hs | Hl]] | Hd].
  - destruct (primary (api_fallbacks m)) as [p|]; [| contradiction].
    destruct (is_original original (get_model_name p)) eqn:E; [contradiction |].
    destruct Hp as [Hp|[]]. subst x.
    apply is_original_true in Heq. congruence.
  - apply filter_In in Hs. destruct Hs as [_ Hs].
    apply is_original_true in Heq. rewrite Heq in Hs. discriminate.
  - subst original. apply is_local_In in Hl. congruence.
  - destruct Hd as [Hd|[]]. subst x. contradiction.
Qed.

Lemma raw_chain_length (m : Manager) (original : option string) :
  (List.length (raw_fallback_chain m original)
   <= match primary (api_fallbacks m) with Some _ => 1 | None => 0 end
      + List.length (secondaries m) + List.length (local_models m) + 1)%nat.
Proof.
  unfold raw_fallback_chain.
  pose proof (filter_length_le (fun id => negb (is_original original id)) (local_models m)).
  pose proof (filter_length_le (fun n => negb (is_original original n))
                (map get_model_name (secondaries m))).
  rewrite length_map in *.
  destruct (is_local m original); destruct (primary (api_fallbacks m)) as [p|];
    repeat rewrite length_app; try rewrite length_map; simpl;
    try destruct (is_original original (get_model_name p)); simpl; lia.
Qed.

(** *** One attempt *)

Lemma local_model_answers (m : Manager) (message : string)
    (model : option string) (w : W) :
  is_local m model = true ->
  exists text, _try_generate_with_model m message model w = (inr text, w).
Proof.
  intros Hloc. unfold _try_generate_with_model. rewrite Hloc. eexists. reflexivity.
Qed.

Lemma failed_attempt_not_local (m : Manager) (message : string)
    (model : option string) (w w' : W) (e : PyExc) :
  _try_generate_with_model m message model w = (inl e, w') ->
  is_local m model = false.
Proof.
  intros Hfail. destruct (is_local m model) eqn:E; [| reflexivity].
  destruct (local_model_answers m message model w E) as [text Ht]. congruence.
Qed.

(** *** The loop over the chain *)

Lemma try_fallbacks_prefix (m : Manager) (message : string) (chain : list string) :
  forall event w exit event' w' tried,
    try_fallbacks m message chain event w = (exit, event', w', tried) ->
    exists rest, chain = (tried ++ rest)%list.
Proof.
  induction chain as [|fb rest IH]; intros event w exit event' w' tried Hrun; simpl in Hrun.
  - inversion Hrun; subst. exists []. reflexivity.
  - destruct (_try_generate_with_model m message (Some fb) w) as [[x|response] w1].
    + destruct (try_fallbacks m message rest _ w1) as [[[exit1 ev1] w2] tried1] eqn:E.
      inversion Hrun; subst. destruct (IH _ _ _ _ _ _ E) as [r Hr].
      exists r. simpl. congruence.
    + inversion Hrun; subst. exists rest. reflexivity.
Qed.

(** When every candidate fails the loop tries the whole chain, finds no
    answer, and leaves the reason and the error of the event untouched. *)
Lemma try_fallbacks_exhausted (m : Manager) (message : string) (chain : list string) :
  (forall fb w0, In fb chain ->
     exists e w0', _try_generate_with_model m message (Some fb) w0 = (inl e, w0')) ->
  forall event w, exists event' w',
    try_fallbacks m message chain event w = (ChainExhausted, event', w', chain)
    /\ reason event' = reason event
    /\ original_model event' = original_model event
    /\ error_message event' = error_message event.
Proof.
  induction chain as [|fb rest IH]; intros Hfail event w; simpl.
  - exists event, w. auto.
  - destruct (Hfail fb w (or_introl eq_refl)) as [e [w1 Hfb]]. rewrite Hfb.
    match goal with
    | |- context [try_fallbacks m message rest ?ev w1] =>
        destruct (IH (fun fb0 w0 Hin => Hfail fb0 w0 (or_intror Hin)) ev w1)
          as [ev' [w2 [Hrun [Hr [Ho He]]]]]
    end.
    rewrite Hrun. exists ev', w2. simpl in *. auto.
Qed.

(** *** One call *)

(** Either no fallback was tried, or the fallback system is on, the
    selected model failed and the loop ran over its chain. *)
Lemma fallback_attempts_cases (m : Manager) (message : string)
    (model : option string) (w : W) :
  let r := generate_with_fallback m message model w in
  fallback_attempts r = []
  \/ (enabled m = true
      /\ primary_model r = select_optimal_model m message model w
      /\ (exists e w1 event exit event' w2,
            _try_generate_with_model m message (primary_model r) w = (inl e, w1)
            /\ try_fallbacks m message (get_fallback_chain m (primary_model r))
                 event w1 = (exit, event', w2, fallback_attempts r))).
Proof.
  unfold generate_with_fallback.
  destruct (enabled m) eqn:En; simpl.
  - destruct (_try_generate_with_model m message
                (select_optimal_model m message model w) w) as [[e|response] w1] eqn:Ep.
    + match goal with
      | |- context [try_fallbacks m message ?c ?ev w1] =>
          destruct (try_fallbacks m message c ev w1) as [[[exit ev'] w2] tried] eqn:Et;
          set (event := ev) in *
      end.
      destruct exit; simpl; right; (split; [reflexivity |]);
        (split; [reflexivity |]);
        exists e, w1, event; eexists; exists ev', w2; split; [exact Ep | exact Et | exact Ep | exact Et].
    + simpl. left. reflexivity.
  - destruct (bridge_generate_unbounded message model w). simpl. left. reflexivity.
Qed.

End Chain.

Section Claims.
Context {W : Type} `{Services W}.


(** C2 (amended). In one call the fallback models tried are pairwise
    distinct and are the first entries of the chain of the selected model,
    so there are at most as many as configured fallbacks (the cached API
    primary and secondaries, the local models) plus the last resort; the
    status of a backend plays no part. Unless the selected model is the
    last resort "deepseek-r1" itself, it is not tried again. *)
Theorem fallback_attempts_distinct_and_bounded (m : Manager) (message : string)
    (model : option string) (w : W) :
  let r := generate_with_fallback m message model w in
  NoDup (fallback_attempts r)
  /\ (exists rest,
        fallback_attempts r = []
        \/ get_fallback_chain m (primary_model r) = (fallback_attempts r ++ rest)%list)
  /\ (List.length (fallback_attempts r)
      <= match primary (api_fallbacks m) with Some _ => 1 | None => 0 end
         + List.length (secondaries m) + List.length (local_models m) + 1)%nat
  /\ (primary_model r <> Some "deepseek-r1" ->
      forall fb, In fb (fallback_attempts r) -> primary_model r <> Some fb).
Proof.
  intros r. destruct (fallback_attempts_cases m message model w) as [Hnil | Hrun];
    fold r in Hnil || fold r in Hrun.
  - rewrite Hnil. repeat split.
    + constructor.
    + exists []. left. reflexivity.
    + simpl. lia.
    + intros _ fb [].
  - destruct Hrun as [En [Hp [e [w1 [event [exit [event' [w2 [Hfail Hloop]]]]]]]]].
    destruct (try_fallbacks_prefix _ _ _ _ _ _ _ _ _ Hloop) as [rest Hrest].
    assert (Hnd : NoDup (fallback_attempts r)).
    { pose proof (chain_NoDup m (primary_model r)) as Hc. rewrite Hrest in Hc.
      apply NoDup_app_remove_r in Hc. exact Hc. }
    repeat split.
    + exact Hnd.
    + exists rest. right. exact Hrest.
    + pose proof (unique_from_length (raw_fallback_chain m (primary_model r)) []) as H1.
      pose proof (raw_chain_length m (primary_model r)) as H2.
      fold (get_fallback_chain m (primary_model r)) in H1.
      rewrite Hrest in H1. rewrite length_app in H1. lia.
    + intros Hlast fb Hfb.
      apply (original_not_in_chain m (primary_model r)).
      * exact (failed_attempt_not_local _ _ _ _ _ _ Hfail).
      * exact Hlast.
      * rewrite Hrest. apply in_or_app. left. exact Hfb.
Qed.

Lemma first_available_sound (m : Manager) (preferred : list string) (w : W)
    (routed : string) :
  first_available m preferred w = Some (Some routed) ->
  In routed preferred /\ _is_model_available m routed w = Some true.
Proof.
  induction preferred as [|x t IH]; simpl; [discriminate |].
  destruct (_is_model_available m x w) as [[|]|] eqn:E; try discriminate.
  - intros [= <-]. auto.
  - intros Ht. destruct (IH Ht). auto.
Qed.

Lemma route_by_content_sound (m : Manager) (rules : list RoutingRule)
    (message : string) (w : W) (routed : string) :
  route_by_content m rules message w = Some (Some routed) ->
  _is_model_available m routed w = Some true.
Proof.
  induction rules as [|rule t IH]; simpl; [discriminate |].
  destruct (if String.eqb _ "" then Some false else re_search _ message)
    as [[|]|]; try discriminate; [| exact IH].
  destruct (first_available m _ w) as [[x|]|] eqn:E; try discriminate; [| exact IH].
  intros [= <-]. exact (proj2 (first_available_sound _ _ _ _ E)).
Qed.


(** The entries of the chain before the duplicates go: the API names,
    then the local models, then the last resort. *)
Lemma raw_chain_blocks (m : Manager) (original : option string) :
  exists apis locals,
    raw_fallback_chain m original = (apis ++ locals ++ ["deepseek-r1"])%list
    /\ incl apis (match primary (api_fallbacks m) with
                  | Some p => [get_model_name p]
                  | None => []
                  end ++ map get_model_name (secondaries m))%list
    /\ incl locals (local_models m).
Proof.
  unfold raw_fallback_chain. destruct (is_local m original).
  - exists (match primary (api_fallbacks m) with
            | Some p => [get_model_name p]
            | None => []
            end ++ map get_model_name (secondaries m))%list,
           (filter (fun id => negb (is_original original id)) (local_models m)).
    split; [now rewrite <- !app_assoc |].
    split; [apply incl_refl |]. intros x Hx. apply filter_In in Hx. tauto.
  - exists (match primary (api_fallbacks m) with
            | Some p => if is_original original (get_model_name p) then []
                        else [get_model_name p]
            | None => []
            end ++ filter (fun n => negb (is_original original n))
                          (map get_model_name (secondaries m)))%list,
           (local_models m).
    split; [now rewrite <- !app_assoc |].
    split; [| apply incl_refl].
    apply incl_app.
    + destruct (primary (api_fallbacks m)) as [p|]; [| intros x []].
      destruct (is_original original (get_model_name p)); [intros x [] |].
      apply incl_appl, incl_refl.
    + apply incl_appr. intros x Hx. apply filter_In in Hx. tauto.
Qed.


End Claims.

(** *** Runs on concrete configurations *)

Import Scenarios.Down.


(** Every entry of a concrete chain fails when all collaborators are down. *)
Ltac chain_is_down :=
  let fb := fresh "fb" in
  let w0 := fresh "w" in
  let Hin := fresh "Hin" in
  intros fb w0 Hin; destruct w0; vm_compute in Hin;
  repeat (destruct Hin as [<- | Hin];
          [eexists; eexists; vm_compute; reflexivity |]);
  destruct Hin.


(** C2, as stated, fails: no other backend is available, yet three
    fallback backends are tried. *)
Lemma unavailable_backends_are_tried :
  fallback_attempts (generate_with_fallback manager_on "hello" (Some "my-model") tt)
  = ["gpt-4"; "claude-3"; "deepseek-r1"]
  /\ map (fun id => _is_model_available manager_on id tt)
         ["gpt-4"; "claude-3"; "deepseek-r1"]
     = [Some false; Some false; Some false].
Proof. split; reflexivity. Qed.

Lemma fallback_attempts_distinct_and_bounded_witness :
  Forall (fun fb => Some "my-model" <> Some fb)
         (fallback_attempts
            (generate_with_fallback manager_on "hello" (Some "my-model") tt)).
Proof.
  apply Forall_forall.
  refine (proj2 (proj2 (proj2
    (fallback_attempts_distinct_and_bounded manager_on "hello"
       (Some "my-model") tt))) _).
  vm_compute. discriminate.
Defined.

(** The default model "deepseek-r1" is also the last resort of its own
    chain: after it fails it is tried a second time. *)
Lemma last_resort_is_retried :
  let r := generate_with_fallback manager_strict "hello" (Some "deepseek-r1") tt in
  primary_model r = Some "deepseek-r1"
  /\ fallback_attempts r = ["gpt-4"; "claude-3"; "deepseek-r1"].
Proof. split; reflexivity. Qed.




End FallbackProps.

(* ===================================================================== *)
(** ** The optimized manager *)
(* ===================================================================== *)

Module OptimizedProps.
Import Py PyFacts OptimizedManager.

Lemma provider_eqb_eq (a b : LLMProvider) : provider_eqb a b = true <-> a = b.
Proof. destruct a, b; simpl; split; congruence. Qed.

Lemma lookup_In (p : LLMProvider) (d : list (LLMProvider * LLMConfig))
    (c : LLMConfig) :
  lookup p d = Some c -> In (p, c) d.
Proof.
  induction d as [|[q cq] t IH]; simpl; [discriminate |].
  destruct (provider_eqb p q) eqn:E.
  - apply provider_eqb_eq in E. subst. intros [= ->]. auto.
  - auto.
Qed.

(** In a dict the keys are distinct: a key has one value. *)
Lemma unique_value (d : list (LLMProvider * LLMConfig)) (p : LLMProvider)
    (c c' : LLMConfig) :
  NoDup (map fst d) -> In (p, c) d -> In (p, c') d -> c = c'.
Proof.
  induction d as [|[q cq] t IH]; simpl; [contradiction |].
  intros Hnd H1 H2. inversion Hnd as [|? ? Hq Ht]; subst.
  destruct H1 as [E1|H1], H2 as [E2|H2].
  - congruence.
  - inversion E1; subst. exfalso. apply Hq.
    apply (in_map fst) in H2. exact H2.
  - inversion E2; subst. exfalso. apply Hq.
    apply (in_map fst) in H1. exact H1.
  - exact (IH Ht H1 H2).
Qed.

Lemma excluded_not_usable (hw : HardwareProfile) (c : LLMConfig) :
  hardware_excludes hw c = true -> _can_use_provider hw c = false.
Proof.
  unfold hardware_excludes, _can_use_provider.
  destruct (requires_gpu c && negb (has_gpu hw)); simpl; [reflexivity |].
  intros ->. reflexivity.
Qed.

Lemma usable_not_excluded (hw : HardwareProfile) (c : LLMConfig) :
  _can_use_provider hw c = true ->
  (requires_gpu c = true -> has_gpu hw = true)
  /\ PrimFloat.ltb (ram_gb hw) (min_ram_gb c) = false.
Proof.
  unfold _can_use_provider.
  destruct (requires_gpu c), (has_gpu hw); simpl; try discriminate;
    destruct (PrimFloat.ltb (ram_gb hw) (min_ram_gb c)); try discriminate; auto.
Qed.

Lemma usable_preference_usable (m : Manager) (p : LLMProvider) :
  usable_preference m = Some p ->
  exists c, In (p, c) (available_providers m)
            /\ _can_use_provider (hardware_profile m) c = true.
Proof.
  unfold usable_preference.
  destruct (user_preference m) as [q|]; [| discriminate].
  destruct (lookup q (available_providers m)) as [c|] eqn:E; [| discriminate].
  destruct (_can_use_provider (hardware_profile m) c) eqn:U; [| discriminate].
  intros [= <-]. exists c. split; [apply lookup_In; exact E | exact U].
Qed.

(** What the walk in priority order returns. *)
Lemma select_by_priority_cases (m : Manager) :
  (exists c,
      In (select_by_priority m, c) (available_providers m)
      /\ _can_use_provider (hardware_profile m) c = true
      /\ forall b cb, In (b, cb) (available_providers m) ->
                      _can_use_provider (hardware_profile m) cb = true ->
                      (priority c <= priority cb)%Z)
  \/ (select_by_priority m = FALLBACK
      /\ forall b cb, In (b, cb) (available_providers m) ->
                      _can_use_provider (hardware_profile m) cb = false).
Proof.
  unfold select_by_priority.
  destruct (find _ (sorted_by _ (available_providers m))) as [[p c]|] eqn:E.
  - left. exists c.
    destruct (find_least (fun pc => priority (snd pc)) _ _ _
                (sorted_by_StronglySorted _ _) E) as [Hu [Hin Hmin]].
    simpl in Hu. apply sorted_by_In in Hin. repeat split; [exact Hin | exact Hu |].
    intros b cb Hb Ub.
    exact (Hmin (b, cb) (proj2 (sorted_by_In _ _ _) Hb) Ub).
  - right. split; [reflexivity |]. intros b cb Hb.
    exact (find_none _ _ E (b, cb) (proj2 (sorted_by_In _ _ _) Hb)).
Qed.

(** C4 (amended). A known and usable preference of the user is selected
    whatever its priority. Without one, the selected provider is usable and
    no usable provider has a smaller priority value; so a usable provider
    [a] that every other usable provider ranks strictly behind is the one
    selected. *)
Theorem select_best_provider_by_priority (m : Manager) :
  (forall p, usable_preference m = Some p -> _select_best_provider m = p)
  /\ (usable_preference m = None ->
      forall a ca,
        In (a, ca) (available_providers m) ->
        _can_use_provider (hardware_profile m) ca = true ->
        (exists c,
            In (_select_best_provider m, c) (available_providers m)
            /\ _can_use_provider (hardware_profile m) c = true
            /\ forall b cb, In (b, cb) (available_providers m) ->
                            _can_use_provider (hardware_profile m) cb = true ->
                            (priority c <= priority cb)%Z)
        /\ ((forall b cb, In (b, cb) (available_providers m) ->
                          _can_use_provider (hardware_profile m) cb = true ->
                          b <> a -> (priority ca < priority cb)%Z) ->
            _select_best_provider m = a)).
Proof.
  unfold _select_best_provider. split.
  - intros p ->. reflexivity.
  - intros -> a ca Ha Ua.
    destruct (select_by_priority_cases m) as [[c [Hin [Uc Hmin]]] | [_ Hnone]].
    + split; [exists c; auto |].
      intros Hbest.
      destruct (provider_eqb (select_by_priority m) a) eqn:E;
        [apply provider_eqb_eq; exact E |].
      assert (Hne : select_by_priority m <> a).
      { intros Heq. apply provider_eqb_eq in Heq. congruence. }
      specialize (Hbest _ _ Hin Uc Hne). specialize (Hmin _ _ Ha Ua). lia.
    + rewrite (Hnone _ _ Ha) in Ua. discriminate.
Qed.

(** C5 (amended). A provider that the hardware excludes (it needs a GPU
    the host lacks, or more RAM than the host has) is not selected, with
    one way out: when no provider at all is usable, FALLBACK is selected
    without any check. *)
Theorem hardware_excluded_provider_not_selected (m : Manager)
    (p : LLMProvider) (c : LLMConfig) :
  NoDup (map fst (available_providers m)) ->
  In (p, c) (available_providers m) ->
  hardware_excludes (hardware_profile m) c = true ->
  _select_best_provider m = p ->
  p = FALLBACK
  /\ usable_preference m = None
  /\ forall q cq, In (q, cq) (available_providers m) ->
                  _can_use_provider (hardware_profile m) cq = false.
Proof.
  intros Hnd Hin Hex Hsel. apply excluded_not_usable in Hex.
  unfold _select_best_provider in Hsel.
  destruct (usable_preference m) as [q|] eqn:Ep.
  - subst q. destruct (usable_preference_usable m p Ep) as [c' [Hin' U]].
    rewrite (unique_value _ _ _ _ Hnd Hin Hin') in Hex. congruence.
  - destruct (select_by_priority_cases m) as [[c' [Hin' [U _]]] | [Hf Hnone]].
    + rewrite Hsel in Hin'.
      rewrite (unique_value _ _ _ _ Hnd Hin Hin') in Hex. congruence.
    + split; [congruence | auto].
Qed.

(** *** Runs on concrete hosts *)

Import Scenarios.Hosts.

#[local] Set Warnings "-inexact-float".

(** C4, as stated, fails: DeepSeek (priority 2) and OpenAI (priority 3) are
    both usable and nothing excludes DeepSeek, yet OpenAI is selected,
    because the user asked for it. *)
Lemma preference_beats_priority :
  view prefers_openai
  = [(DEEPSEEK_API, true, 2%Z); (OPENAI_API, true, 3%Z);
     (ANTHROPIC_API, false, 4%Z); (GEMINI_API, false, 5%Z);
     (FALLBACK, true, 10%Z)]
  /\ _select_best_provider prefers_openai = OPENAI_API.
Proof. split; vm_compute; reflexivity. Qed.

Lemma select_best_provider_by_priority_witness :
  _select_best_provider plain = DEEPSEEK_API.
Proof.
  destruct (select_best_provider_by_priority plain) as [_ Hprio].
  assert (Hin : In (DEEPSEEK_API,
                    with_api (default_config DEEPSEEK_API "deepseek-r1")
                      (Some "sk-deepseek") "https://api.deepseek.com/v1"
                      0.001%float 2)
                   (available_providers plain)).
  { simpl. auto. }
  refine (proj2 (Hprio _ _ _ Hin _) _).
  - reflexivity.
  - reflexivity.
  - intros b cb Hb Ub Hne. simpl in Hb.
    destruct Hb as [Hb|[Hb|[Hb|[Hb|[Hb|[]]]]]]; inversion Hb; subst;
      try congruence; vm_compute in Ub |- *; congruence.
Defined.

(** C5, as stated, fails: on a host with 2 GB of RAM every provider asks
    for more RAM than there is, FALLBACK included, and FALLBACK is
    selected. *)
Lemma fallback_selected_without_enough_ram :
  map (fun pc => (fst pc, hardware_excludes (hardware_profile small_host) (snd pc)))
      (available_providers small_host)
  = [(DEEPSEEK_API, true); (OPENAI_API, true); (ANTHROPIC_API, true);
     (GEMINI_API, true); (FALLBACK, true)]
  /\ _select_best_provider small_host = FALLBACK.
Proof. split; vm_compute; reflexivity. Qed.

Lemma hardware_excluded_provider_not_selected_witness :
  usable_preference small_host = None
  /\ Forall (fun pc => _can_use_provider (hardware_profile small_host) (snd pc)
                       = false)
            (available_providers small_host).
Proof.
  assert (Hin : In (FALLBACK,
                    {| provider := FALLBACK; model_name := "enhanced-template";
                       api_key := None; base_url := None; max_tokens := 2048;
                       temperature := 0.7%float; cost_per_request := 0%float;
                       requires_gpu := false; min_ram_gb := 4%float;
                       priority := 10 |})
                   (available_providers small_host)).
  { vm_compute. do 4 right. left. reflexivity. }
  destruct (hardware_excluded_provider_not_selected small_host _ _
              ltac:(vm_compute; repeat constructor; simpl; intuition discriminate)
              Hin ltac:(vm_compute; reflexivity) ltac:(vm_compute; reflexivity))
    as [_ [Hpref Hnone]].
  split; [exact Hpref |].
  apply Forall_forall. intros [q cq] Hq. exact (Hnone q cq Hq).
Defined.

(** A host with 6.5 GB of RAM and a GPU registers the local model with a
    need of 8 GB of RAM; the selection passes over it although its priority
    value is the lowest. *)
Lemma local_model_short_of_ram_is_passed_over :
  view gpu_host
  = [(DEEPSEEK_LOCAL, false, 1%Z); (DEEPSEEK_API, true, 2%Z);
     (OPENAI_API, true, 3%Z); (ANTHROPIC_API, false, 4%Z);
     (GEMINI_API, false, 5%Z); (FALLBACK, true, 10%Z)]
  /\ _select_best_provider gpu_host = DEEPSEEK_API.
Proof. split; vm_compute; reflexivity. Qed.

(** With 4 GB of RAM, a need of 8 GB excludes a provider. *)
Lemma four_gb_excludes_eight_gb (hw : HardwareProfile) (c : LLMConfig) :
  ram_gb hw = 4%float -> min_ram_gb c = 8%float ->
  hardware_excludes hw c = true.
Proof.
  intros Hr Hc. unfold hardware_excludes. rewrite Hr, Hc.
  apply orb_true_r.
Qed.

End OptimizedProps.

(* ===================================================================== *)
(** ** The API manager *)
(* ===================================================================== *)

Module ApiProps.
Import Py ApiManager.

Lemma type_eqb_eq (a b : ModelType) : type_eqb a b = true <-> a = b.
Proof. destruct a, b; simpl; split; congruence. Qed.

(** [_select_optimal_model] takes the first model of the priority list
    that is enabled and has a provider; the [priority] field of the
    configurations is not read. *)
Lemma select_optimal_model_first (m : Manager) (t : ModelType) :
  find (fun t => config_enabled t (model_configs m) && has_model t (models m))
       (model_priority m) = Some t ->
  _select_optimal_model m = Some t.
Proof. unfold _select_optimal_model. intros ->. reflexivity. Qed.

Section Claims.
Context {W : Type} `{Services W}.

(** The answer of a provider is passed on with the confidence 90. *)
Lemma generated_confidence (m : Manager) (t : ModelType) (prompt : string)
    (kw : Kwargs) (w w' : W) (r : LLMResponse) :
  _generate_with_model m t prompt kw w = (inr r, w') ->
  confidence r = 90%float.
Proof.
  unfold _generate_with_model.
  destruct (get_config t (model_configs m)); [| discriminate].
  destruct (negb (has_model t (models m))); [discriminate |].
  destruct (provider_generate t prompt _ _ _ w) as [[e|result] w1]; [discriminate |].
  intros [= <- _]. reflexivity.
Qed.

Lemma generate_fails_when_provider_fails (m : Manager) (t : ModelType)
    (prompt : string) (kw : Kwargs) (w : W) :
  (forall t mt te tp w0, exists e w1,
      provider_generate t prompt mt te tp w0 = (inl e, w1)) ->
  exists e w', _generate_with_model m t prompt kw w = (inl e, w').
Proof.
  intros Hdown. unfold _generate_with_model.
  destruct (get_config t (model_configs m)) as [config|]; [| eauto].
  destruct (negb (has_model t (models m))); [eauto |].
  match goal with
  | |- context [provider_generate t prompt ?a ?b ?c w] =>
      destruct (Hdown t a b c w) as [e [w1 ->]]
  end. eauto.
Qed.

Lemma fallback_confidence (m : Manager) (order : list ModelType)
    (prompt : string) (kw : Kwargs) :
  forall (w w' : W) (m' : Manager) (r : LLMResponse),
    try_fallback_from m order prompt kw w = (inr r, m', w') ->
    confidence r = 90%float.
Proof.
  induction order as [|t rest IH]; intros w w' m' r; simpl; [discriminate |].
  destruct (is_current m t); [apply IH |].
  destruct (negb (has_model t (models m))); [apply IH |].
  destruct (negb (config_enabled t (model_configs m))); [apply IH |].
  destruct (_generate_with_model m t prompt kw w) as [[e|r1] w1] eqn:E; [apply IH |].
  intros [= <- _ _]. exact (generated_confidence _ _ _ _ _ _ _ E).
Qed.

Lemma fallback_fails_when_providers_fail (m : Manager) (order : list ModelType)
    (prompt : string) (kw : Kwargs) :
  (forall t mt te tp w0, exists e w1,
      provider_generate t prompt mt te tp w0 = (inl e, w1)) ->
  forall w : W, exists e w',
    try_fallback_from m order prompt kw w = (inl e, m, w').
Proof.
  intros Hdown. induction order as [|t rest IH]; intros w; simpl; [eauto |].
  destruct (is_current m t); [apply IH |].
  destruct (negb (has_model t (models m))); [apply IH |].
  destruct (negb (config_enabled t (model_configs m))); [apply IH |].
  destruct (generate_fails_when_provider_fails m t prompt kw w Hdown) as [e [w1 ->]].
  apply IH.
Qed.

Lemma body_confidence (m : Manager) (prompt : string) (kw : Kwargs)
    (w w' : W) (m' : Manager) (r : LLMResponse) :
  generate_response_body m prompt kw w = (inr r, m', w') ->
  confidence r = 90%float.
Proof.
  unfold generate_response_body, _try_fallback_models.
  set (m0 := set_metrics m (count_request (metrics m))).
  destruct (current_model m0) as [current|]; [| apply fallback_confidence].
  destruct (has_model current (models m0)); [| apply fallback_confidence].
  destruct (_generate_with_model m0 current prompt kw w) as [[e|r1] w1] eqn:E.
  - destruct (fallback_enabled m0); [apply fallback_confidence | discriminate].
  - intros [= <- _ _]. exact (generated_confidence _ _ _ _ _ _ _ E).
Qed.

Lemma body_fails_when_providers_fail (m : Manager) (prompt : string)
    (kw : Kwargs) (w : W) :
  (forall t mt te tp w0, exists e w1,
      provider_generate t prompt mt te tp w0 = (inl e, w1)) ->
  exists e w',
    generate_response_body m prompt kw w
    = (inl e, set_metrics m (count_request (metrics m)), w').
Proof.
  intros Hdown. unfold generate_response_body, _try_fallback_models.
  set (m0 := set_metrics m (count_request (metrics m))).
  destruct (current_model m0) as [current|];
    [| apply fallback_fails_when_providers_fail; exact Hdown].
  destruct (has_model current (models m0));
    [| apply fallback_fails_when_providers_fail; exact Hdown].
  destruct (generate_fails_when_provider_fails m0 current prompt kw w Hdown)
    as [e [w1 ->]].
  destruct (fallback_enabled m0);
    [apply fallback_fails_when_providers_fail; exact Hdown | eauto].
Qed.


End Claims.

Import Scenarios.ApiDown.


(** The confidence tells the two kinds of response apart. *)
Lemma error_confidence_differs :
  PrimFloat.eqb 0%float 90%float = false.
Proof. reflexivity. Qed.

End ApiProps.

(* ===================================================================== *)
(** ** The engine coordinator *)
(* ===================================================================== *)

Module CoordinatorProps.
Import Py Coordinator.

Section Claims.
Context {W Data Result Synth : Type} `{Engines W Data Result Synth}.

(** *** One engine *)

(** The timed call reports the outcome of its own engine: a raised
    exception becomes a failed response that carries its text. *)
Lemma timed_call_reports (c : Coordinator) (e : EngineType) (task : string)
    (data : Data) (w : W) :
  let r := fst (_execute_engine_with_timing c e task data w) in
  engine_type r = e
  /\ match fst (_execute_single_engine c e task data w) with
     | inl x => success r = false /\ result r = None
                /\ error (metadata r) = Some (exc_str x)
     | inr res => success r = true /\ result r = res
     end.
Proof.
  unfold _execute_engine_with_timing.
  destruct (_execute_single_engine c e task data w) as [[x|res] w']; simpl; auto.
Qed.

(** *** The sequential loop *)

Lemma sequential_from_types (c : Coordinator) (task : string)
    (todo : list EngineType) :
  forall (data : Data) (responses : list (EngineResponse Result)) (w : W),
    map engine_type (fst (sequential_from c task todo data responses w))
    = (map engine_type responses ++ filter (registered c) todo)%list.
Proof.
  induction todo as [|e rest IH]; intros data responses w; simpl.
  - rewrite app_nil_r. reflexivity.
  - destruct (registered c e) eqn:R; simpl; [| apply IH].
    destruct (_execute_single_engine c e task data w) as [[x|res] w'];
      rewrite IH, map_app, <- app_assoc; reflexivity.
Qed.

Lemma sequential_from_keeps (c : Coordinator) (task : string)
    (todo : list EngineType) :
  forall (data : Data) (responses : list (EngineResponse Result)) (w : W),
    exists more,
      fst (sequential_from c task todo data responses w) = (responses ++ more)%list.
Proof.
  induction todo as [|e rest IH]; intros data responses w; simpl.
  - exists []. rewrite app_nil_r. reflexivity.
  - destruct (registered c e); simpl; [| apply IH].
    destruct (_execute_single_engine c e task data w) as [[x|res] w'];
      match goal with
      | |- context [sequential_from c task rest ?d (responses ++ [?r])%list w'] =>
          destruct (IH d (responses ++ [r])%list w') as [more Hm];
          exists (r :: more); rewrite Hm, <- app_assoc; reflexivity
      end.
Qed.

(** *** The parallel tasks *)

Lemma gather_tasks_never_raise (c : Coordinator) (task : string)
    (todo : list EngineType) (data : Data) :
  forall w : W,
    Forall (fun g => exists w0,
                snd g = inr (fst (_execute_engine_with_timing c (fst g) task data w0)))
           (fst (gather_tasks c task todo data w)).
Proof.
  induction todo as [|e rest IH]; intros w; simpl; [constructor |].
  destruct (registered c e); simpl; [| apply IH].
  destruct (_execute_engine_with_timing c e task data w) as [response w'] eqn:E.
  specialize (IH w').
  destruct (gather_tasks c task rest data w') as [others w'']. simpl in *.
  constructor; [| exact IH].
  exists w. simpl. rewrite E. reflexivity.
Qed.

Lemma gather_tasks_types (c : Coordinator) (task : string)
    (todo : list EngineType) (data : Data) :
  forall w : W,
    map fst (fst (gather_tasks c task todo data w)) = filter (registered c) todo.
Proof.
  induction todo as [|e rest IH]; intros w; simpl; [reflexivity |].
  destruct (registered c e); simpl; [| apply IH].
  destruct (_execute_engine_with_timing c e task data w) as [response w'].
  specialize (IH w').
  destruct (gather_tasks c task rest data w') as [others w'']. simpl in *.
  congruence.
Qed.


(** *** The coordinated task *)

Lemma any_success_iff (responses : list (EngineResponse Result)) :
  any_success responses = true
  <-> exists r, In r responses /\ success r = true.
Proof. unfold any_success. apply existsb_exists. Qed.

(** C6. Whenever [execute_coordinated_task] returns a response, its
    [success] is true exactly when one of its engine responses succeeded;
    and it does return one, holding the responses of the strategy, as soon
    as at least one engine ran and the synthesis did not raise. *)
Theorem coordinated_success_iff_engine_success (c : Coordinator)
    (request : CoordinatedRequest Data) (w : W) :
  (forall response c' w',
      execute_coordinated_task c request w = (inr response, c', w') ->
      (resp_success response = true
       <-> exists r, In r (engine_responses response) /\ success r = true))
  /\ (forall responses w' primary,
        strategy c request w = (responses, w') ->
        responses <> [] ->
        _synthesize_results request responses = inr primary ->
        exists response c',
          execute_coordinated_task c request w = (inr response, c', w')
          /\ engine_responses response = responses
          /\ resp_success response = any_success responses).
Proof.
  unfold execute_coordinated_task. split.
  - intros response c' w'.
    destruct (strategy c request w) as [responses w1].
    destruct (_synthesize_results request responses) as [x|primary]; [discriminate |].
    destruct responses as [|r0 rest]; [discriminate |].
    intros [= <- _ _]. simpl. apply (any_success_iff (r0 :: rest)).
  - intros responses w' primary -> Hne ->.
    destruct responses as [|r0 rest]; [contradiction |].
    eexists _, _. split; [reflexivity |]. split; reflexivity.
Qed.

(** Without one of the three special task types the synthesis cannot
    raise. *)
Lemma default_synthesis_returns (request : CoordinatedRequest Data)
    (responses : list (EngineResponse Result)) :
  String.eqb (task_type request) "creative_debugging"
  || String.eqb (task_type request) "comprehensive_analysis"
  || String.eqb (task_type request) "intelligent_generation" = false ->
  exists primary, _synthesize_results request responses = inr primary.
Proof.
  intros Ht. unfold _synthesize_results. rewrite Ht.
  destruct (filter success responses); eauto.
Qed.

End Claims.

(** *** Runs with a broken recall engine *)

Import Scenarios.Engines.

(** Recall fails, Creative still runs on the original input, and the
    coordinated response succeeds with exactly one failed response. *)
Lemma coordinated_success_iff_engine_success_witness :
  exists response c',
    execute_coordinated_task fresh
      (request [PERFECT_RECALL; CREATIVE] "sequential") 0%nat
    = (inr response, c', 2%nat)
    /\ map success (engine_responses response) = [false; true]
    /\ map result (engine_responses response)
       = [None; Some "solutions for [context]"]
    /\ resp_success response = true.
Proof.
  destruct (proj2 (coordinated_success_iff_engine_success fresh
                     (request [PERFECT_RECALL; CREATIVE] "sequential") 0%nat)
              (fst (strategy fresh (request [PERFECT_RECALL; CREATIVE] "sequential") 0%nat))
              2%nat
              (DefaultMerge [("creative", Some "solutions for [context]")] "creative"))
    as [response [c' [Hret [Hresp Hok]]]].
  - vm_compute. reflexivity.
  - vm_compute. discriminate.
  - vm_compute. reflexivity.
  - exists response, c'. split; [exact Hret |].
    rewrite Hok, Hresp. vm_compute. repeat split.
Defined.


(** After a success the next step gets the output of the step before;
    after a failure it gets the data the failed step was given. *)
Lemma sequential_context_examples :
  map result (fst (_execute_sequential fresh
                     (request [PARALLEL_MIND; CREATIVE] "sequential") 0%nat))
  = [Some "analysis of [context]"; Some "solutions for [analysis of [context]]"]
  /\ map result (fst (_execute_sequential fresh
                        (request [PERFECT_RECALL; CREATIVE] "sequential") 0%nat))
     = [None; Some "solutions for [context]"]
  /\ map result (fst (_execute_parallel fresh
                        (request [PERFECT_RECALL; PARALLEL_MIND; CREATIVE] "parallel")
                        0%nat))
     = [None; Some "analysis of [context]"; Some "solutions for [context]"].
Proof. repeat split. Qed.

(** When no engine runs the summary divides by zero and the call raises. *)
Lemma no_engine_raises :
  fst (fst (execute_coordinated_task fresh (request [] "sequential") 0%nat))
  = inl {| exc_type := "ZeroDivisionError"; exc_str := "division by zero" |}.
Proof. reflexivity. Qed.

End CoordinatorProps.

(* ===================================================================== *)
(** ** The latency statistics *)
(* ===================================================================== *)

Module EnhancedProps.
Import Py EnhancedManager.

(** The update formula, in whatever arithmetic the code runs on. *)
Lemma update_formula {F : Type} `{Arith F} (s : Stats F) (ok : bool)
    (latency : F) :
  let s' := _update_stats s ok latency in
  let n := (successful_requests s' + failed_requests s')%Z in
  (0 <= successful_requests s + failed_requests s)%Z ->
  n = (successful_requests s + failed_requests s + 1)%Z
  /\ average_latency s'
     = div (add (mul (average_latency s) (of_int (n - 1))) latency) (of_int n).
Proof.
  intros s' n Hpos. subst s' n. unfold _update_stats.
  assert (Ht : (successful_requests (count_outcome s ok)
                + failed_requests (count_outcome s ok)
                = successful_requests s + failed_requests s + 1)%Z).
  { destruct ok; simpl; lia. }
  destruct (0 <? _)%Z eqn:E; [| apply Z.ltb_ge in E; lia].
  simpl. split; [destruct ok; simpl; lia |].
  destruct ok; reflexivity.
Qed.

(** Over the rationals: after [n] successes and no failure the average
    times [n] is the sum of the latencies; one more success keeps it so. *)
Lemma running_sum_step (s : Stats Q) (n : Z) (total latency : Q) :
  (0 <= n)%Z ->
  successful_requests s = n -> failed_requests s = 0%Z ->
  (average_latency s * inject_Z n == total)%Q ->
  let s' := _update_stats s true latency in
  successful_requests s' = (n + 1)%Z /\ failed_requests s' = 0%Z
  /\ (average_latency s' * inject_Z (n + 1) == total + latency)%Q.
Proof.
  intros Hn Hs Hf Havg. unfold _update_stats. simpl.
  rewrite Hs, Hf.
  replace (n + 1 + 0)%Z with (n + 1)%Z by lia.
  destruct (0 <? n + 1)%Z eqn:E; [| apply Z.ltb_ge in E; lia].
  simpl. rewrite Hs, Hf. repeat split.
  replace (n + 1 - 1)%Z with n by lia.
  rewrite <- Havg.
  assert (Hnz : ~ (inject_Z (n + 1) == 0)%Q).
  { unfold Qeq. simpl. lia. }
  field. exact Hnz.
Qed.

Lemma running_sum_fold (ls : list Q) :
  forall (s : Stats Q) (n : Z) (total : Q),
    (0 <= n)%Z ->
    successful_requests s = n -> failed_requests s = 0%Z ->
    (average_latency s * inject_Z n == total)%Q ->
    (average_latency (fold_left (fun s l => _update_stats s true l) ls s)
     * inject_Z (n + Z.of_nat (List.length ls))
     == fold_left Qplus ls total)%Q.
Proof.
  induction ls as [|l t IH]; intros s n total Hn Hs Hf Havg; simpl fold_left.
  - simpl. replace (n + 0)%Z with n by lia. exact Havg.
  - replace (n + Z.of_nat (List.length (l :: t)))%Z
      with ((n + 1) + Z.of_nat (List.length t))%Z by (simpl List.length; lia).
    destruct (running_sum_step s n total l Hn Hs Hf Havg) as [Hs' [Hf' Havg']].
    apply IH; [lia | assumption..].
Qed.


Import Scenarios.Latency.



End EnhancedProps.

(* ===================================================================== *)
(** * Part III: more of the code *)
(* ===================================================================== *)

(** ** Strings *)

Module PyStrings.
Import Py.

Lemma lower_app (a b : string) : lower (a ++ b) = lower a ++ lower b.
Proof.
  induction a as [|c t IH]; simpl; [reflexivity | rewrite IH; reflexivity].
Qed.

Lemma lower_ascii_idem (c : ascii) : lower_ascii (lower_ascii c) = lower_ascii c.
Proof.
  unfold lower_ascii.
  destruct ((65 <=? nat_of_ascii c)%nat && (nat_of_ascii c <=? 90)%nat) eqn:E.
  - apply andb_true_iff in E. destruct E as [E1 E2].
    apply Nat.leb_le in E1, E2.
    rewrite nat_ascii_embedding by lia.
    replace ((nat_of_ascii c + 32 <=? 90)%nat) with false
      by (symmetry; apply Nat.leb_gt; lia).
    rewrite andb_false_r. reflexivity.
  - rewrite E. reflexivity.
Qed.

Lemma lower_idem (s : string) : lower (lower s) = lower s.
Proof.
  induction s as [|c t IH]; simpl; [reflexivity |].
  rewrite lower_ascii_idem, IH. reflexivity.
Qed.

Lemma prefix_empty (a : string) : String.prefix "" a = true.
Proof. destruct a; reflexivity. Qed.

Lemma prefix_app (n a b : string) :
  String.prefix n a = true -> String.prefix n (a ++ b) = true.
Proof.
  revert a. induction n as [|c n IH]; intros a; [intros _; apply prefix_empty |].
  destruct a as [|d a]; simpl; [discriminate |].
  destruct (ascii_dec c d); [apply IH | discriminate].
Qed.

Lemma contains_cons (n : string) (c : ascii) (t : string) :
  contains n (String c t)
  = if String.prefix n (String c t) then true else contains n t.
Proof. reflexivity. Qed.

Lemma contains_app_l (n a b : string) :
  contains n a = true -> contains n (a ++ b) = true.
Proof.
  induction a as [|c a IH].
  - destruct n; [| discriminate].
    intros _. destruct b; reflexivity.
  - change (String c a ++ b) with (String c (a ++ b)).
    rewrite !contains_cons.
    destruct (String.prefix n (String c a)) eqn:E.
    + intros _. change (String c (a ++ b)) with (String c a ++ b).
      rewrite (prefix_app _ _ _ E). reflexivity.
    + intros H. rewrite (IH H).
      destruct (String.prefix n (String c (a ++ b))); reflexivity.
Qed.

Lemma contains_app_r (n a b : string) :
  contains n b = true -> contains n (a ++ b) = true.
Proof.
  intros H. induction a as [|c a IH]; [exact H |].
  change (String c a ++ b) with (String c (a ++ b)).
  rewrite contains_cons, IH.
  destruct (String.prefix n (String c (a ++ b))); reflexivity.
Qed.

End PyStrings.

(** ** Tallies *)

Module TallyFacts.
Import Py.

Section Tally.
Context {K : Type} (eqb : K -> K -> bool).
Hypothesis eqb_spec : forall a b, eqb a b = true <-> a = b.

Lemma eqb_sym (a b : K) : eqb a b = eqb b a.
Proof.
  destruct (eqb a b) eqn:E1, (eqb b a) eqn:E2; try reflexivity.
  - apply eqb_spec in E1. subst. rewrite (proj2 (eqb_spec b b) eq_refl) in E2.
    discriminate.
  - apply eqb_spec in E2. subst. rewrite (proj2 (eqb_spec a a) eq_refl) in E1.
    discriminate.
Qed.

(** Counting [k] once more raises its count by one and no other. *)
Lemma count_for_tally (k j : K) (d : list (K * Z)) :
  count_for eqb j (tally eqb k d)
  = (count_for eqb j d + if eqb k j then 1 else 0)%Z.
Proof.
  induction d as [|[k' n] t IH]; simpl.
  - destruct (eqb k j); lia.
  - destruct (eqb k' k) eqn:E; simpl.
    + apply eqb_spec in E. subst k'.
      destruct (eqb k j); lia.
    + destruct (eqb k' j) eqn:Ej.
      * apply eqb_spec in Ej. subst k'.
        rewrite eqb_sym, E. lia.
      * exact IH.
Qed.

(** After tallying the keys of a list, the count of [j] is its old count
    plus the number of elements whose key is [j]. *)
Lemma count_for_fold {E : Type} (key : E -> K) (j : K) (l : list E) :
  forall d,
    count_for eqb j (fold_left (fun d e => tally eqb (key e) d) l d)
    = (count_for eqb j d
       + Z.of_nat (List.length (filter (fun e => eqb (key e) j) l)))%Z.
Proof.
  induction l as [|e t IH]; intros d; simpl; [lia |].
  rewrite IH, count_for_tally.
  destruct (eqb (key e) j); simpl List.length; lia.
Qed.

End Tally.

Lemma option_eqb_spec (a b : option string) : option_eqb a b = true <-> a = b.
Proof.
  destruct a as [x|], b as [y|]; simpl; try (split; [discriminate | discriminate]).
  - rewrite String.eqb_eq. split; [intros ->; reflexivity | intros [= ->]; reflexivity].
  - split; reflexivity.
Qed.

Lemma last_cons {E : Type} (l : list E) :
  forall x d, last (x :: l) d = last l x.
Proof.
  induction l as [|y t IH]; intros x d; [reflexivity |].
  change (last (x :: y :: t) d) with (last (y :: t) d).
  rewrite (IH y d), (IH y x). reflexivity.
Qed.

Lemma count_true_le {E : Type} (f : E -> bool) (l : list E) :
  forall k,
    fold_left (fun k e => if f e then (k + 1)%Z else k) l k
    = (k + Z.of_nat (List.length (filter f l)))%Z.
Proof.
  induction l as [|e t IH]; intros k; simpl; [lia |].
  rewrite IH. destruct (f e); simpl List.length; lia.
Qed.

End TallyFacts.

(* ===================================================================== *)
(** ** More on the fallback manager *)
(* ===================================================================== *)

Module FallbackMore.
Import Py PyFacts PyStrings TallyFacts FallbackManager FallbackProps.

(** The text of a timeout error mentions "time" and "out" whatever the
    configured limit is. *)
Lemma timeout_text_is_timeout (who limit : string) :
  contains "timed out" (lower who ++ " timed out after ") = true ->
  _determine_fallback_reason (who ++ " timed out after " ++ limit ++ "s") = TIMEOUT.
Proof.
  intros Hin. unfold _determine_fallback_reason.
  rewrite lower_app, lower_app.
  change (lower " timed out after ") with " timed out after ".
  assert (Ht : contains "time" (lower who ++ " timed out after " ++ lower (limit ++ "s")) = true).
  { apply contains_app_r. apply contains_app_l. reflexivity. }
  assert (Ho : contains "out" (lower who ++ " timed out after " ++ lower (limit ++ "s")) = true).
  { apply contains_app_r. apply contains_app_l. reflexivity. }
  rewrite Ht, Ho. reflexivity.
Qed.

Section More.
Context {W : Type} `{Services W}.

(** X1. An attempt that runs out of time raises a TimeoutError whose text
    is classified as TIMEOUT, whatever the configured limit. *)
Theorem timed_out_attempt_is_classified_timeout (m : Manager) (message : string)
    (model : option string) (w : W) :
  is_local m model = false ->
  fst (if is_original model "deepseek-r1" && cpu_optimized m
       then cpu_generate_code message w
       else bridge_generate_response message model w) = TimedOut ->
  exists e w',
    _try_generate_with_model m message model w = (inl e, w')
    /\ exc_type e = "TimeoutError"
    /\ _determine_fallback_reason (exc_str e) = TIMEOUT.
Proof.
  intros Hloc Hslow. unfold _try_generate_with_model. rewrite Hloc.
  destruct (is_original model "deepseek-r1" && cpu_optimized m).
  - destruct (cpu_generate_code message w) as [r w']. simpl in Hslow. subst r.
    eexists _, w'. split; [reflexivity |]. split; [reflexivity |].
    apply timeout_text_is_timeout. reflexivity.
  - destruct (bridge_generate_response message model w) as [r w']. simpl in Hslow.
    subst r. eexists _, w'. split; [reflexivity |]. split; [reflexivity |].
    apply timeout_text_is_timeout. reflexivity.
Qed.

(** *** What [initialize] registers *)

Lemma register_key_In (id x : string) (keys : list string) :
  In x (register_key id keys) <-> x = id \/ In x keys.
Proof.
  unfold register_key. destruct (mem id keys) eqn:E.
  - apply mem_In in E. split; [auto | intros [->|Hx]; assumption].
  - rewrite in_app_iff. simpl. intuition.
Qed.

Lemma register_key_NoDup (id : string) (keys : list string) :
  NoDup keys -> NoDup (register_key id keys).
Proof.
  intros Hnd. unfold register_key. destruct (mem id keys) eqn:E; [exact Hnd |].
  apply mem_false in E.
  apply NoDup_app; [exact Hnd | repeat constructor; intros [] |].
  intros x Hx [<-|[]]. contradiction.
Qed.

Lemma initialize_local_models_In (l : list (string * LocalModelConfig)) (w : W) :
  forall keys x,
    In x (initialize_local_models keys l w)
    <-> In x keys
        \/ exists mc, In (x, mc) l /\ local_enabled mc = Some true
                       /\ _check_system_resources mc w = true.
Proof.
  induction l as [|[id mc] t IH]; intros keys x; simpl.
  - split; [auto | intros [Hx|[mc [[] _]]]; exact Hx].
  - rewrite IH. unfold _initialize_local_model.
    assert (Hrest : (exists mc', In (x, mc') t /\ local_enabled mc' = Some true
                                 /\ _check_system_resources mc' w = true)
                    -> exists mc', ((id, mc) = (x, mc') \/ In (x, mc') t)
                                   /\ local_enabled mc' = Some true
                                   /\ _check_system_resources mc' w = true).
    { intros [mc' [Hin Hacc]]. exists mc'. auto. }
    destruct (local_enabled mc) as [[|]|] eqn:En;
      [destruct (_check_system_resources mc w) eqn:Er |..]; simpl.
    + rewrite register_key_In. split.
      * intros [[->|Hx]|Hx]; [right; exists mc; auto | auto | auto].
      * intros [Hx|[mc' [[E|Hin] Hacc]]]; [auto | | right; exists mc'; auto].
        inversion E; subst. auto.
    + split.
      * intros [Hx|Hx]; auto.
      * intros [Hx|[mc' [[E|Hin] [He Hr]]]]; [auto | | right; exists mc'; auto].
        inversion E; subst. congruence.
    + split.
      * intros [Hx|Hx]; auto.
      * intros [Hx|[mc' [[E|Hin] [He Hr]]]]; [auto | | right; exists mc'; auto].
        inversion E; subst. congruence.
    + split.
      * intros [Hx|Hx]; auto.
      * intros [Hx|[mc' [[E|Hin] [He Hr]]]]; [auto | | right; exists mc'; auto].
        inversion E; subst. congruence.
Qed.

Lemma initialize_local_models_NoDup (l : list (string * LocalModelConfig)) (w : W) :
  forall keys, NoDup keys -> NoDup (initialize_local_models keys l w).
Proof.
  induction l as [|[id mc] t IH]; intros keys Hnd; simpl; [exact Hnd |].
  apply IH. unfold _initialize_local_model.
  destruct (match local_enabled mc with Some b => b | None => false end);
    [destruct (_check_system_resources mc w) |]; simpl;
    auto using register_key_NoDup.
Qed.

Lemma initialized_local_iff (c : Config) (w : W) (id : string) :
  In id (local_models (initialize c w))
  <-> exists mc, In (id, mc) (cfg_local_models c)
                 /\ local_enabled mc = Some true
                 /\ _check_system_resources mc w = true.
Proof.
  simpl. rewrite initialize_local_models_In. simpl. tauto.
Qed.


(** An entry of a chain is the last resort, the cached primary, a cached
    secondary or a local model. *)
Lemma chain_entry_origin (m : Manager) (original : option string) (x : string) :
  In x (get_fallback_chain m original) ->
  x = "deepseek-r1"
  \/ In x (match primary (api_fallbacks m) with
           | Some p => [get_model_name p]
           | None => []
           end)
  \/ In x (map get_model_name (secondaries m))
  \/ In x (local_models m).
Proof.
  intros Hx. apply chain_In in Hx.
  destruct (raw_chain_blocks m original) as [apis [locals [Hraw [Ha Hl]]]].
  rewrite Hraw in Hx. repeat rewrite in_app_iff in Hx.
  destruct Hx as [Hx | [Hx | [Hx | []]]].
  - apply Ha in Hx. apply in_app_iff in Hx. tauto.
  - apply Hl in Hx. tauto.
  - auto.
Qed.

(** X3. The chain of an initialized manager holds, besides the last resort
    "deepseek-r1", only names of API fallbacks that the configuration
    enables and local models that it enables and that passed the resource
    check. *)
Theorem initialized_chain_only_enabled (c : Config) (w : W)
    (original : option string) (x : string) :
  In x (get_fallback_chain (initialize c w) original) ->
  x = "deepseek-r1"
  \/ (exists p, cfg_api_primary c = Some p
                /\ get_enabled p = true /\ get_model_name p = x)
  \/ (exists l p, cfg_api_secondary c = Some l /\ In p l
                  /\ get_enabled p = true /\ get_model_name p = x)
  \/ (exists mc, In (x, mc) (cfg_local_models c)
                 /\ local_enabled mc = Some true
                 /\ _check_system_resources mc w = true).
Proof.
  intros Hx.
  destruct (chain_entry_origin (initialize c w) original x Hx)
    as [Hd | [Hp | [Hs | Hl]]].
  - auto.
  - right. left. simpl in Hp.
    destruct (cfg_api_primary c) as [p|]; [| contradiction].
    destruct (get_enabled p) eqn:E; [| contradiction].
    destruct Hp as [Hp|[]]. exists p. auto.
  - right. right. left. unfold secondaries in Hs. simpl in Hs.
    destruct (cfg_api_secondary c) as [l|]; [| contradiction].
    apply in_map_iff in Hs. destruct Hs as [p [Hn Hp]].
    apply sorted_by_In in Hp. apply filter_In in Hp. destruct Hp as [Hp He].
    exists l, p. auto.
  - right. right. right. apply initialized_local_iff. exact Hl.
Qed.

(** The loop keeps the original model of the event. *)
Lemma try_fallbacks_kept (m : Manager) (message : string) (chain : list string) :
  forall event w exit event' w' tried,
    try_fallbacks m message chain event w = (exit, event', w', tried) ->
    original_model event' = original_model event.
Proof.
  induction chain as [|x t IH]; intros event w exit event' w' tried; simpl.
  - intros [= _ <- _ _]. reflexivity.
  - destruct (_try_generate_with_model m message (Some x) w) as [[e|text] w1].
    + destruct (try_fallbacks m message t _ w1) as [[[ex ev] w2] tr] eqn:E.
      intros [= _ <- _ _]. apply IH in E. exact E.
    + intros [= _ <- _ _]. reflexivity.
Qed.

(** *** A fallback that answers *)

(** The loop stops at the first candidate that answers. *)
Lemma try_fallbacks_first_answer (m : Manager) (message : string)
    (failing : list string) (fb : string) (rest : list string) :
  (forall x w0, In x failing ->
     exists e w0', _try_generate_with_model m message (Some x) w0 = (inl e, w0')) ->
  (forall w0, exists text w0',
     _try_generate_with_model m message (Some fb) w0 = (inr text, w0')) ->
  forall event w, exists text lat event' w',
    try_fallbacks m message (failing ++ fb :: rest) event w
    = (FallbackSucceeded text fb lat, event', w', (failing ++ [fb])%list)
    /\ success event' = true
    /\ fallback_model event' = fb
    /\ latency event' = Some lat
    /\ reason event' = reason event
    /\ original_model event' = original_model event.
Proof.
  intros Hfail Hans. induction failing as [|x t IH]; intros event w; simpl.
  - destruct (Hans w) as [text [w' ->]].
    eexists _, _, _, _. split; [reflexivity |]. simpl. auto.
  - destruct (Hfail x w (or_introl eq_refl)) as [e [w1 ->]].
    match goal with
    | |- context [try_fallbacks m message _ ?ev w1] =>
        destruct (IH (fun y w0 Hy => Hfail y w0 (or_intror Hy)) ev w1)
          as [text [lat [ev' [w' [Hrun Hev]]]]]
    end.
    rewrite Hrun. eexists _, _, _, _. split; [reflexivity |]. exact Hev.
Qed.

(** X4. When the selected model fails, the answer comes from the first
    candidate of its chain that answers: the candidates before it were
    tried and failed, those after it are not tried, the metadata names the
    answering model and the classified reason of the first error, and one
    successful event is appended to the log. *)
Theorem first_answering_fallback_is_used (m : Manager) (message : string)
    (model : option string) (w w1 : W) (e : PyExc)
    (failing : list string) (fb : string) (rest : list string) :
  enabled m = true ->
  _try_generate_with_model m message (select_optimal_model m message model w) w
    = (inl e, w1) ->
  get_fallback_chain m (select_optimal_model m message model w)
    = (failing ++ fb :: rest)%list ->
  (forall x w0, In x failing ->
     exists e' w0', _try_generate_with_model m message (Some x) w0 = (inl e', w0')) ->
  (forall w0, exists text w0',
     _try_generate_with_model m message (Some fb) w0 = (inr text, w0')) ->
  let r := generate_with_fallback m message model w in
  (exists text md,
      outcome r = inr (text, md)
      /\ md_model md = Some fb
      /\ md_original_model md = Some (select_optimal_model m message model w)
      /\ md_fallback_used md = true
      /\ md_fallback_reason md
         = Some (reason_value (_determine_fallback_reason (exc_str e))))
  /\ fallback_attempts r = (failing ++ [fb])%list
  /\ exists event,
       fallback_events (manager_after r) = (fallback_events m ++ [event])%list
       /\ success event = true
       /\ fallback_model event = fb.
Proof.
  intros En Hprimary Hchain Hfail Hans r. subst r.
  unfold generate_with_fallback. rewrite En. simpl. rewrite Hprimary, Hchain.
  match goal with
  | |- context [try_fallbacks m message _ ?ev w1] =>
      destruct (try_fallbacks_first_answer m message failing fb rest Hfail Hans ev w1)
        as [text [lat [ev' [w' [Hrun [Hs [Hf [Hl [Hr Ho]]]]]]]]]
  end.
  rewrite Hrun. simpl. split; [| split].
  - eexists _, _. split; [reflexivity |]. simpl. rewrite Hr. auto.
  - reflexivity.
  - exists ev'. auto.
Qed.

(** The loop finds an answer as soon as the chain holds a local model. *)
Lemma try_fallbacks_with_local (m : Manager) (message : string)
    (chain : list string) :
  (exists x, In x chain /\ In x (local_models m)) ->
  forall event w, exists text fb lat event' w' tried,
    try_fallbacks m message chain event w
    = (FallbackSucceeded text fb lat, event', w', tried).
Proof.
  induction chain as [|y t IH]; intros [x [Hin Hloc]] event w; [contradiction |].
  simpl.
  destruct (_try_generate_with_model m message (Some y) w) as [[e|text] w1] eqn:E.
  - destruct Hin as [->|Hin].
    + apply failed_attempt_not_local in E. apply is_local_In in Hloc. congruence.
    + match goal with
      | |- context [try_fallbacks m message t ?ev w1] =>
          destruct (IH (ex_intro _ x (conj Hin Hloc)) ev w1)
            as [text [fb [lat [ev' [w' [tried ->]]]]]]
      end.
      eexists _, _, _, _, _, _. reflexivity.
  - eexists _, _, _, _, _, _. reflexivity.
Qed.

(** X5. With the fallback system on and at least one local model
    registered, a call neither raises nor returns the degraded notice:
    the local models are part of every chain of a failed model and the
    local generation never fails. *)
Theorem local_model_rules_out_degradation (m : Manager) (message : string)
    (model : option string) (w : W) :
  enabled m = true ->
  local_models m <> [] ->
  exists text md,
    outcome (generate_with_fallback m message model w) = inr (text, md)
    /\ md_fallback_success md = None
    /\ md_error md = None.
Proof.
  intros En Hloc. unfold generate_with_fallback. rewrite En. simpl.
  destruct (_try_generate_with_model m message
              (select_optimal_model m message model w) w) as [[e|text] w1] eqn:E.
  - assert (Hin : exists x, In x (get_fallback_chain m
                                    (select_optimal_model m message model w))
                            /\ In x (local_models m)).
    { destruct (local_models m) as [|x t] eqn:El; [contradiction |].
      exists x. split; [| simpl; auto].
      apply chain_In. unfold raw_fallback_chain.
      rewrite (failed_attempt_not_local _ _ _ _ _ _ E).
      rewrite El. repeat rewrite in_app_iff. left. right. right. simpl. auto. }
    match goal with
    | |- context [try_fallbacks m message ?c ?ev w1] =>
        destruct (try_fallbacks_with_local m message c Hin ev w1)
          as [text [fb [lat [ev' [w' [tried ->]]]]]]
    end.
    simpl. eexists _, _. split; [reflexivity |]. auto.
  - simpl. eexists _, _. split; [reflexivity |]. auto.
Qed.

Lemma try_fallbacks_tried_nonempty (m : Manager) (message : string)
    (chain : list string) (event event' : FallbackEvent) (w w' : W)
    (exit : LoopExit) (tried : list string) :
  chain <> [] ->
  try_fallbacks m message chain event w = (exit, event', w', tried) ->
  tried <> [].
Proof.
  destruct chain as [|x t]; [contradiction |]. intros _. simpl.
  destruct (_try_generate_with_model m message (Some x) w) as [[e|text] w1].
  - destruct (try_fallbacks m message t _ w1) as [[[ex ev] w2] tr].
    intros [= _ _ _ <-]. discriminate.
  - intros [= _ _ _ <-]. discriminate.
Qed.

Lemma chain_nonempty (m : Manager) (original : option string) :
  get_fallback_chain m original <> [].
Proof.
  intros Hnil.
  assert (Hin : In "deepseek-r1" (get_fallback_chain m original)).
  { apply chain_In. unfold raw_fallback_chain. apply in_or_app. right. simpl. auto. }
  rewrite Hnil in Hin. contradiction.
Qed.

(** X6. A call leaves the configuration of the manager alone and only
    appends to the event log: no event when no fallback was tried, exactly
    one otherwise; the events logged before are kept. *)
Theorem call_only_appends_to_log (m : Manager) (message : string)
    (model : option string) (w : W) :
  let r := generate_with_fallback m message model w in
  config (manager_after r) = config m
  /\ local_models (manager_after r) = local_models m
  /\ api_fallbacks (manager_after r) = api_fallbacks m
  /\ enabled (manager_after r) = enabled m
  /\ routing_rules (manager_after r) = routing_rules m
  /\ exists new,
       fallback_events (manager_after r) = (fallback_events m ++ new)%list
       /\ List.length new
          = match fallback_attempts r with [] => 0%nat | _ :: _ => 1%nat end
       /\ Forall (fun event => original_model event = primary_model r) new.
Proof.
  unfold generate_with_fallback.
  destruct (enabled m) eqn:En; simpl.
  - destruct (_try_generate_with_model m message
                (select_optimal_model m message model w) w) as [[e|text] w1].
    + match goal with
      | |- context [try_fallbacks m message ?c ?ev w1] =>
          destruct (try_fallbacks m message c ev w1)
            as [[[exit ev'] w2] tried] eqn:Et
      end.
      pose proof (try_fallbacks_tried_nonempty _ _ _ _ _ _ _ _ _
                    (chain_nonempty _ _) Et) as Hne.
      pose proof (try_fallbacks_kept _ _ _ _ _ _ _ _ _ Et) as Hkept.
      simpl in Hkept.
      destruct tried as [|t0 tried]; [contradiction |].
      destruct exit; simpl; repeat split; auto;
        eexists [_]; (split; [reflexivity |]); (split; [reflexivity |]);
        repeat constructor; simpl; exact Hkept.
    + simpl. repeat split; auto. exists []. rewrite app_nil_r.
      repeat split; auto.
  - destruct (bridge_generate_unbounded message model w) as [r0 w0]. simpl.
    repeat split; auto. exists []. rewrite app_nil_r.
    repeat split; auto.
Qed.

End More.

(** *** The statistics of the log *)

(** X7. For a log that is not empty [get_fallback_stats] reports its
    length as [total_events]; [successes] and [failures] add up to it; the
    count kept for a reason, an original model or a fallback model is the
    number of events that carry it; and [last_event_time] is the timestamp
    of the last event. For an empty log it reports [total_events] 0 and
    nothing else. *)
Theorem fallback_stats_account_for_every_event (m : Manager) :
  (fallback_events m = [] ->
   get_fallback_stats m = {| total_events := 0; details := None |})
  /\ (fallback_events m <> [] ->
      exists d,
        details (get_fallback_stats m) = Some d
        /\ total_events (get_fallback_stats m)
           = Z.of_nat (List.length (fallback_events m))
        /\ successes d
           = Z.of_nat (List.length (filter success (fallback_events m)))
        /\ (successes d + failures d = total_events (get_fallback_stats m))%Z
        /\ (forall r,
              count_for String.eqb (reason_value r) (reason_counts d)
              = Z.of_nat (List.length
                            (filter (fun e => String.eqb (reason_value (reason e))
                                                         (reason_value r))
                                    (fallback_events m))))
        /\ (forall o,
              count_for option_eqb o (original_models d)
              = Z.of_nat (List.length
                            (filter (fun e => option_eqb (original_model e) o)
                                    (fallback_events m))))
        /\ (forall f,
              count_for String.eqb f (fallback_models d)
              = Z.of_nat (List.length
                            (filter (fun e => String.eqb (fallback_model e) f)
                                    (fallback_events m))))
        /\ forall first, last_event_time d
                         = timestamp (last (fallback_events m) first)).
Proof.
  unfold get_fallback_stats. split.
  - intros ->. reflexivity.
  - destruct (fallback_events m) as [|first rest] eqn:E; [contradiction |].
    intros _. eexists. split; [reflexivity |]. cbv beta iota zeta.
    cbn [total_events successes failures reason_counts original_models
         fallback_models last_event_time].
    split; [reflexivity |]. split; [| split; [lia |]].
    + rewrite count_true_le. lia.
    + split; [| split; [| split]].
      * intros r. rewrite (count_for_fold String.eqb String.eqb_eq). simpl. lia.
      * intros o. rewrite (count_for_fold option_eqb option_eqb_spec). simpl. lia.
      * intros f. rewrite (count_for_fold String.eqb String.eqb_eq). simpl. lia.
      * intros d0. apply f_equal. symmetry. apply last_cons.
Qed.

(** *** Runs on concrete configurations *)

Module OnDown.
Import Scenarios.Down.

Lemma timed_out_attempt_is_classified_timeout_witness :
  exists e,
    _try_generate_with_model manager_on "hello" (Some "deepseek-r1") tt
    = (inl e, tt)
    /\ exc_str e = "CPU-optimized model timed out after 30s"
    /\ _determine_fallback_reason (exc_str e) = TIMEOUT.
Proof.
  destruct (timed_out_attempt_is_classified_timeout manager_on "hello"
              (Some "deepseek-r1") tt) as [e [w' [Hrun [_ Hr]]]];
    [vm_compute; reflexivity | vm_compute; reflexivity |].
  destruct w'. exists e. split; [exact Hrun |]. split; [| exact Hr].
  vm_compute in Hrun. injection Hrun as <-. reflexivity.
Defined.

Lemma local_model_rules_out_degradation_witness :
  exists text md,
    outcome (generate_with_fallback manager_mixed "hello" (Some "my-model") tt)
    = inr (text, md)
    /\ md_fallback_success md = None
    /\ md_error md = None.
Proof.
  apply (local_model_rules_out_degradation manager_mixed "hello"
           (Some "my-model") tt).
  - reflexivity.
  - vm_compute. discriminate.
Defined.

End OnDown.

Module OnOneUp.
Import Scenarios.OneUp.


Lemma initialized_chain_only_enabled_witness :
  get_fallback_chain crowded (Some "my-model")
  = ["gpt-4"; "claude-3"; "tiny-local"; "deepseek-r1"]
  /\ ("claude-3" = "deepseek-r1"
      \/ (exists p, cfg_api_primary crowded_config = Some p
                    /\ get_enabled p = true /\ get_model_name p = "claude-3")
      \/ (exists l p, cfg_api_secondary crowded_config = Some l /\ In p l
                      /\ get_enabled p = true /\ get_model_name p = "claude-3")
      \/ (exists mc, In ("claude-3", mc) (cfg_local_models crowded_config)
                     /\ local_enabled mc = Some true
                     /\ _check_system_resources mc tt = true)).
Proof.
  split; [reflexivity |].
  apply (initialized_chain_only_enabled crowded_config tt (Some "my-model")).
  vm_compute. auto.
Defined.

Lemma first_answering_fallback_is_used_witness :
  fallback_attempts
    (generate_with_fallback manager "hello" (Some "my-model") tt)
  = ["gpt-4"; "claude-3"]
  /\ exists text md,
       outcome (generate_with_fallback manager "hello" (Some "my-model") tt)
       = inr (text, md)
       /\ md_model md = Some "claude-3"
       /\ md_original_model md = Some (Some "my-model")
       /\ md_fallback_used md = true
       /\ md_fallback_reason md = Some "api_error".
Proof.
  destruct (first_answering_fallback_is_used manager "hello"
              (Some "my-model") tt tt Scenarios.Down.refused ["gpt-4"] "claude-3"
              ["deepseek-r1"]) as [Hout [Htried _]].
  - reflexivity.
  - reflexivity.
  - reflexivity.
  - intros x w0 [<-|[]]. destruct w0. eexists _, _. vm_compute. reflexivity.
  - intros w0. destruct w0. eexists _, _. vm_compute. reflexivity.
  - split; [exact Htried | exact Hout].
Defined.

Lemma fallback_stats_account_for_every_event_witness :
  exists d,
    details (get_fallback_stats
               (manager_after
                  (generate_with_fallback manager "hello"
                     (Some "my-model") tt))) = Some d
    /\ successes d = 1%Z /\ failures d = 0%Z.
Proof.
  set (after := manager_after
                  (generate_with_fallback manager "hello" (Some "my-model") tt)).
  destruct (proj2 (fallback_stats_account_for_every_event after))
    as [d [Hd [Ht [Hs [Hsum _]]]]].
  - vm_compute. discriminate.
  - exists d. split; [exact Hd |].
    assert (H1 : total_events (get_fallback_stats after) = 1%Z)
      by (vm_compute; reflexivity).
    assert (H2 : Z.of_nat (List.length (filter success (fallback_events after)))
                 = 1%Z) by (vm_compute; reflexivity).
    rewrite H1 in Hsum. rewrite H2 in Hs. split; [exact Hs | lia].
Defined.

End OnOneUp.

End FallbackMore.


(* ===================================================================== *)
(** ** Order of binary64 values *)
(* ===================================================================== *)

Module FloatOrder.

(** Replaces the view of a literal by its sign, mantissa and exponent. *)
Ltac float_consts :=
  repeat match goal with
         | |- context [Prim2SF ?x] =>
             tryif is_var x then fail
             else (let v := eval vm_compute in (Prim2SF x) in
                   change (Prim2SF x) with v)
         end.

Lemma pos_cmp_eq (a b : positive) :
  PosDef.Pos.compare_cont Eq a b = Eq -> a = b.
Proof. exact (Pos.compare_eq a b). Qed.

Lemma pos_cmp_lt (a b : positive) :
  PosDef.Pos.compare_cont Eq a b = Lt -> (a < b)%positive.
Proof. intro E; exact E. Qed.

Lemma pos_cmp_gt (a b : positive) :
  PosDef.Pos.compare_cont Eq a b = Gt -> (b < a)%positive.
Proof. intro E; apply Pos.compare_gt_iff; exact E. Qed.

(** Two bounds on a mantissa that leave no room. *)
Ltac pos_clash :=
  subst;
  match goal with
  | H1 : (?a < ?m)%positive, H2 : (?m < ?b)%positive |- _ =>
      let H := fresh in
      pose proof (Pos.lt_trans _ _ _ H1 H2) as H; vm_compute in H;
      discriminate H
  | H : (?a < ?b)%positive |- _ =>
      tryif is_var a then fail else
      tryif is_var b then fail else (vm_compute in H; discriminate H)
  end.

(** Decides an implication between two comparisons of one unknown value
    with literals, by cases on the value. *)
Ltac float_order :=
  let r := fresh "r" in
  let s := fresh "s" in
  let m := fresh "m" in
  let e := fresh "e" in
  intros r; rewrite ?leb_spec, ?ltb_spec; float_consts;
  destruct (Prim2SF r) as [s|s| |s m e];
  [ destruct s; vm_compute; congruence
  | destruct s; vm_compute; congruence
  | vm_compute; congruence
  | ];
  unfold SFleb, SFltb, SFcompare;
  destruct s; cbv beta iota; try congruence;
  repeat match goal with
         | |- context [Z.compare ?a ?b] => destruct (Z.compare_spec a b)
         end;
  try congruence; try (exfalso; lia);
  repeat match goal with
         | |- context [PosDef.Pos.compare_cont Eq ?a ?b] =>
             let c := fresh "c" in
             let Hc := fresh "Hc" in
             remember (PosDef.Pos.compare_cont Eq a b) as c eqn:Hc;
             symmetry in Hc; destruct c;
             [ apply pos_cmp_eq in Hc | apply pos_cmp_lt in Hc
             | apply pos_cmp_gt in Hc ]
         end;
  let Hx := fresh in
  intros Hx; try reflexivity; try discriminate Hx; try pos_clash.

Lemma leb_15_1 (r : float) :
  PrimFloat.leb 1.5%float r = true -> PrimFloat.leb 1%float r = true.
Proof. revert r. float_order. Qed.

Lemma leb_8_6 (r : float) :
  PrimFloat.leb 8%float r = true -> PrimFloat.leb 6%float r = true.
Proof. revert r. float_order. Qed.

Lemma leb_6_not_lt_4 (r : float) :
  PrimFloat.leb 6%float r = true -> PrimFloat.ltb r 4%float = false.
Proof. revert r. float_order. Qed.

Lemma leb_8_not_lt_8 (r : float) :
  PrimFloat.leb 8%float r = true -> PrimFloat.ltb r 8%float = false.
Proof. revert r. float_order. Qed.

Lemma leb_16_not_lt_8 (r : float) :
  PrimFloat.leb 16%float r = true -> PrimFloat.ltb r 8%float = false.
Proof. revert r. float_order. Qed.

End FloatOrder.

(* ===================================================================== *)
(** ** More of the optimized manager *)
(* ===================================================================== *)

Module OptimizedMore.
Import Py PyFacts OptimizedManager OptimizedProps FloatOrder.

#[local] Set Warnings "-inexact-float".

(** X8. [_can_run_local_llm] is decided by its first test alone: the
    conservative thresholds of 1.5 GHz and 8 GB never change the answer,
    and the GPU is not consulted. *)
Theorem local_llm_thresholds (cores : Z) (freq ram : float) (gpu : bool) :
  _can_run_local_llm cores freq ram gpu
  = PrimFloat.leb 1%float freq && PrimFloat.leb 6%float ram && (4 <=? cores)%Z.
Proof.
  unfold _can_run_local_llm.
  destruct (PrimFloat.leb 1%float freq) eqn:E1; simpl.
  - destruct (PrimFloat.leb 6%float ram) eqn:E2; simpl.
    + destruct (4 <=? cores)%Z; [reflexivity |]. apply andb_false_r.
    + destruct (PrimFloat.leb 8%float ram) eqn:E3.
      * apply leb_8_6 in E3. congruence.
      * rewrite andb_false_r. reflexivity.
  - destruct (PrimFloat.leb 1.5%float freq) eqn:E3; [| reflexivity].
    apply leb_15_1 in E3. congruence.
Qed.

(** *** The providers the constructor registers *)

Lemma providers_keys (hw : HardwareProfile) (env : Environment) :
  map fst (_initialize_providers hw env)
  = ((if can_run_local_llm hw then [DEEPSEEK_LOCAL] else [])
     ++ [DEEPSEEK_API; OPENAI_API; ANTHROPIC_API; GEMINI_API; FALLBACK])%list.
Proof. unfold _initialize_providers. destruct (can_run_local_llm hw); reflexivity. Qed.

Lemma providers_NoDup (hw : HardwareProfile) (env : Environment) :
  NoDup (map fst (_initialize_providers hw env)).
Proof.
  rewrite providers_keys.
  destruct (can_run_local_llm hw); simpl; repeat constructor; simpl;
    intuition discriminate.
Qed.

(** Each provider is registered under its own name, an API provider with
    the key the environment holds for it. *)
Lemma providers_entry (hw : HardwareProfile) (env : Environment)
    (p : LLMProvider) (c : LLMConfig) :
  In (p, c) (_initialize_providers hw env) ->
  provider c = p
  /\ api_key c = match p with
                 | DEEPSEEK_API => DEEPSEEK_API_KEY env
                 | OPENAI_API => OPENAI_API_KEY env
                 | ANTHROPIC_API => ANTHROPIC_API_KEY env
                 | GEMINI_API => GEMINI_API_KEY env
                 | _ => None
                 end.
Proof.
  unfold _initialize_providers. intros Hin. apply in_app_or in Hin.
  destruct Hin as [Hin | Hin].
  - destruct (can_run_local_llm hw); [| contradiction].
    destruct Hin as [E | []]. inversion E; subst. split; reflexivity.
  - simpl in Hin.
    destruct Hin as [E|[E|[E|[E|[E|[]]]]]]; inversion E; subst;
      split; reflexivity.
Qed.

Lemma providers_fallback (hw : HardwareProfile) (env : Environment) :
  exists c, lookup FALLBACK (_initialize_providers hw env) = Some c
            /\ model_name c = "enhanced-template"
            /\ cost_per_request c = 0%float.
Proof.
  unfold _initialize_providers.
  destruct (can_run_local_llm hw); simpl; eexists; repeat split; reflexivity.
Qed.

Lemma In_lookup (d : list (LLMProvider * LLMConfig)) (p : LLMProvider)
    (c : LLMConfig) :
  NoDup (map fst d) -> In (p, c) d -> lookup p d = Some c.
Proof.
  intros Hnd Hin. destruct (lookup p d) as [c'|] eqn:E.
  - apply lookup_In in E. rewrite (unique_value d p c c' Hnd Hin E). reflexivity.
  - exfalso. induction d as [|[q cq] t IH]; [contradiction |].
    simpl in E. destruct (provider_eqb p q) eqn:Eq; [discriminate |].
    inversion Hnd; subst. destruct Hin as [Hin | Hin].
    + inversion Hin; subst.
      assert (provider_eqb p p = true) by (apply provider_eqb_eq; reflexivity).
      congruence.
    + auto.
Qed.

(** [set_user_preference] touches the preference only. *)
Lemma preference_keeps (m : Manager) (q : LLMProvider) :
  hardware_profile (set_user_preference m q) = hardware_profile m
  /\ available_providers (set_user_preference m q) = available_providers m
  /\ current_provider (set_user_preference m q) = current_provider m.
Proof.
  unfold set_user_preference.
  destruct (lookup q (available_providers m)); repeat split; reflexivity.
Qed.

(** What [_select_best_provider] returns is FALLBACK or a registered
    provider that passes [_can_use_provider]. *)
Lemma selection_cases (m : Manager) :
  (exists c, In (_select_best_provider m, c) (available_providers m)
             /\ _can_use_provider (hardware_profile m) c = true)
  \/ _select_best_provider m = FALLBACK.
Proof.
  unfold _select_best_provider.
  destruct (usable_preference m) as [p|] eqn:E.
  - left. exact (usable_preference_usable m p E).
  - destruct (select_by_priority_cases m) as [[c [Hin [U _]]] | [Hf _]].
    + left. exists c. auto.
    + right. exact Hf.
Qed.

(** X9. Whatever the host, the keys and the preference of the user, the
    provider selected for a manager as the constructor builds it is
    registered under its own name; it is FALLBACK or it passes
    [_can_use_provider]; and an API provider is selected only with a
    non-empty key for it in the environment. *)
Theorem constructed_manager_selection (hw : HardwareProfile) (env : Environment)
    (pref : option LLMProvider) :
  let m := match pref with
           | Some q => set_user_preference (new_manager hw env) q
           | None => new_manager hw env
           end in
  exists c,
    lookup (_select_best_provider m) (available_providers m) = Some c
    /\ provider c = _select_best_provider m
    /\ (_select_best_provider m = FALLBACK \/ _can_use_provider hw c = true)
    /\ (is_api_provider (_select_best_provider m) = true ->
        no_key (api_key c) = false
        /\ api_key c = match _select_best_provider m with
                       | DEEPSEEK_API => DEEPSEEK_API_KEY env
                       | OPENAI_API => OPENAI_API_KEY env
                       | ANTHROPIC_API => ANTHROPIC_API_KEY env
                       | GEMINI_API => GEMINI_API_KEY env
                       | _ => None
                       end).
Proof.
  intros m.
  assert (Hm : hardware_profile m = hw
               /\ available_providers m = _initialize_providers hw env).
  { subst m. destruct pref as [q|]; [| split; reflexivity].
    destruct (preference_keeps (new_manager hw env) q) as [H1 [H2 _]].
    rewrite H1, H2. split; reflexivity. }
  destruct Hm as [Hhw Hav].
  destruct (selection_cases m) as [[c [Hin U]] | Hf].
  - exists c. rewrite Hav in Hin |- *. rewrite Hhw in U.
    destruct (providers_entry hw env _ c Hin) as [Hp Hk].
    split; [apply In_lookup; [apply providers_NoDup | exact Hin] |].
    split; [exact Hp |]. split; [right; exact U |].
    intros Hapi. split; [| exact Hk].
    unfold _can_use_provider in U. rewrite Hp, Hapi in U.
    destruct (requires_gpu c && negb (has_gpu hw)); [discriminate |].
    destruct (PrimFloat.ltb (ram_gb hw) (min_ram_gb c)); [discriminate |].
    destruct (no_key (api_key c)); [discriminate | reflexivity].
  - destruct (providers_fallback hw env) as [c [Hl _]].
    exists c. rewrite Hav, Hf.
    split; [exact Hl |].
    destruct (providers_entry hw env FALLBACK c (lookup_In _ _ _ Hl)) as [Hp _].
    split; [exact Hp |]. split; [left; reflexivity |].
    simpl. discriminate.
Qed.

(** A host that may run a local model has 6 GB of RAM or more. *)
Lemma runnable_host_has_ram (cores : Z) (freq ram : float) (gpu : bool) :
  _can_run_local_llm cores freq ram gpu = true ->
  PrimFloat.leb 6%float ram = true.
Proof.
  unfold _can_run_local_llm.
  destruct (PrimFloat.leb 6%float ram) eqn:E6; [reflexivity |].
  rewrite andb_false_r. simpl. intros Hcan.
  apply andb_prop in Hcan. destruct Hcan as [Hcan _].
  apply andb_prop in Hcan. destruct Hcan as [_ H8].
  apply leb_8_6 in H8. congruence.
Qed.

(** The need of RAM of the local model is within the RAM of a host without
    GPU that may run it. *)
Lemma local_need_within_ram (cores : Z) (freq ram gpu_mem : float) :
  _can_run_local_llm cores freq ram false = true ->
  PrimFloat.ltb ram
    (if String.eqb (_get_recommended_model_size freq ram false gpu_mem) "tiny"
     then 4%float else 8%float) = false.
Proof.
  intros Hcan. pose proof (runnable_host_has_ram _ _ _ _ Hcan) as Hram.
  unfold _get_recommended_model_size. simpl.
  destruct (PrimFloat.leb 16%float ram) eqn:E16; simpl.
  - destruct (PrimFloat.leb 2.5%float freq); simpl.
    + apply leb_16_not_lt_8. exact E16.
    + destruct (PrimFloat.leb 8%float ram) eqn:E8; simpl.
      * destruct (PrimFloat.leb 1.5%float freq); simpl.
        -- apply leb_8_not_lt_8. exact E8.
        -- apply leb_6_not_lt_4. exact Hram.
      * apply leb_6_not_lt_4. exact Hram.
  - destruct (PrimFloat.leb 8%float ram) eqn:E8; simpl.
    + destruct (PrimFloat.leb 1.5%float freq); simpl.
      * apply leb_8_not_lt_8. exact E8.
      * apply leb_6_not_lt_4. exact Hram.
    + apply leb_6_not_lt_4. exact Hram.
Qed.

(** X10. On a host without GPU that may run a local model, a manager fresh
    from the constructor selects the local model, whatever keys the
    environment holds: the model is registered with a need of RAM that the
    thresholds of the host already cover, and it has the first priority. *)
Theorem local_model_selected_without_gpu (cores : Z) (freq ram gpu_mem : float)
    (env : Environment) :
  _can_run_local_llm cores freq ram false = true ->
  _select_best_provider
    (new_manager (_analyze_hardware cores freq ram false gpu_mem) env)
  = DEEPSEEK_LOCAL.
Proof.
  intros Hcan.
  pose proof (local_need_within_ram cores freq ram gpu_mem Hcan) as Hram.
  unfold _select_best_provider, usable_preference, select_by_priority,
    new_manager, _initialize_providers, _analyze_hardware.
  cbn [user_preference hardware_profile available_providers can_run_local_llm
       recommended_model_size].
  rewrite Hcan.
  cbn [app sorted_by insert_by snd priority with_api default_config Z.leb
       Z.compare Pos.compare Pos.compare_cont].
  cbn [find snd]. unfold _can_use_provider at 1.
  cbn [requires_gpu has_gpu min_ram_gb ram_gb provider api_key andb negb
       is_api_provider].
  rewrite Hram. reflexivity.
Qed.

(** X11. [set_user_preference] followed by a selection: an unregistered
    provider leaves the manager as it was; a registered one is recorded,
    and it is selected exactly when it passes [_can_use_provider];
    otherwise the selection is the one by priority, as without
    preference. *)
Theorem preference_then_selection (m : Manager) (p : LLMProvider) :
  match lookup p (available_providers m) with
  | None => set_user_preference m p = m
  | Some c =>
      user_preference (set_user_preference m p) = Some p
      /\ current_provider (set_user_preference m p) = current_provider m
      /\ _select_best_provider (set_user_preference m p)
         = if _can_use_provider (hardware_profile m) c then p
           else select_by_priority m
  end.
Proof.
  unfold set_user_preference.
  destruct (lookup p (available_providers m)) as [c|] eqn:E; [| reflexivity].
  split; [reflexivity |]. split; [reflexivity |].
  unfold _select_best_provider, usable_preference. simpl. rewrite E.
  destruct (_can_use_provider (hardware_profile m) c); reflexivity.
Qed.

(** *** Sessions *)

Section Sessions.
Context {W : Type} `{Runtime W}.

Lemma has_instance_add (p : LLMProvider) (s : Session) :
  has_instance p (add_instance p s) = true.
Proof.
  unfold add_instance. destruct (has_instance p s) eqn:E; unfold has_instance in *.
  - simpl. exact E.
  - simpl. rewrite existsb_app. simpl.
    assert (provider_eqb p p = true) as -> by (apply provider_eqb_eq; reflexivity).
    rewrite orb_true_r. reflexivity.
Qed.

(** A provider that was initialized has a client, and nothing but the
    clients changed. *)
Lemma initialized_provider (s s' : Session) (p : LLMProvider) (w w' : W) :
  _initialize_provider s p w = (inr s', w') ->
  s' = add_instance p s.
Proof.
  unfold _initialize_provider.
  destruct (lookup p (available_providers (manager s))) as [c|]; [| discriminate].
  destruct p; try (intros E; inversion E; reflexivity);
    destruct (build_client _ c w) as [[e|[]] w1]; intros E; inversion E;
    reflexivity.
Qed.

(** A failed initialization comes from a missing registration or from the
    client library, never from the template provider once registered. *)
Lemma fallback_initializes (s : Session) (w : W) (c : LLMConfig) :
  lookup FALLBACK (available_providers (manager s)) = Some c ->
  _initialize_provider s FALLBACK w = (inr (add_instance FALLBACK s), w).
Proof. unfold _initialize_provider. intros ->. reflexivity. Qed.

(** X12. [switch_provider] either refuses and leaves the session as it
    was, or makes a registered provider that passes [_can_use_provider]
    both the current provider and the preference, with a client for it; a
    selection made afterwards returns that provider again. *)
Theorem switch_provider_outcome (s : Session) (p : LLMProvider) (w : W) :
  let '(ok, s', w') := switch_provider s p w in
  if ok
  then current_provider (manager s') = Some p
       /\ user_preference (manager s') = Some p
       /\ has_instance p s' = true
       /\ (exists c, lookup p (available_providers (manager s)) = Some c
                     /\ _can_use_provider (hardware_profile (manager s)) c = true)
       /\ available_providers (manager s') = available_providers (manager s)
       /\ _select_best_provider (manager s') = p
  else s' = s.
Proof.
  unfold switch_provider.
  destruct (lookup p (available_providers (manager s))) as [c|] eqn:El;
    [| reflexivity].
  destruct (_can_use_provider (hardware_profile (manager s)) c) eqn:U;
    [| reflexivity].
  cbn [negb].
  assert (Hsel : forall s1,
             available_providers (manager s1) = available_providers (manager s) ->
             hardware_profile (manager s1) = hardware_profile (manager s) ->
             _select_best_provider
               {| hardware_profile := hardware_profile (manager s1);
                  available_providers := available_providers (manager s1);
                  current_provider := Some p;
                  user_preference := Some p |} = p).
  { intros s1 Ha Hh. unfold _select_best_provider, usable_preference.
    cbn [user_preference available_providers hardware_profile].
    rewrite Ha, Hh, El, U. reflexivity. }
  destruct (has_instance p s) eqn:Hi.
  - cbn [manager provider_instances current_provider user_preference
         available_providers].
    repeat split; try reflexivity.
    + exact Hi.
    + exists c. auto.
    + apply Hsel; reflexivity.
  - destruct (_initialize_provider s p w) as [[e|s1] w1] eqn:Ei; [reflexivity |].
    apply initialized_provider in Ei. subst s1.
    cbn [manager provider_instances current_provider user_preference
         available_providers add_instance].
    repeat split; try reflexivity.
    + pose proof (has_instance_add p s) as Ha. unfold add_instance in Ha.
      unfold has_instance in Ha |- *. exact Ha.
    + exists c. auto.
    + apply (Hsel (add_instance p s)); reflexivity.
Qed.

(** [initialize] leaves a current provider and changes neither the
    registrations, nor the host, nor the preference. *)
Lemma initialize_keeps (s : Session) (w : W) :
  let '(ok, s', w') := initialize s w in
  (exists p, current_provider (manager s') = Some p
             /\ (ok = false -> p = FALLBACK)
             /\ (ok = true -> p = _select_best_provider (manager s)
                             /\ has_instance p s' = true))
  /\ available_providers (manager s') = available_providers (manager s)
  /\ hardware_profile (manager s') = hardware_profile (manager s)
  /\ user_preference (manager s') = user_preference (manager s).
Proof.
  unfold initialize.
  destruct (_initialize_provider _ _ w) as [[e|s1] w1] eqn:Ei.
  - split; [| repeat split; reflexivity].
    exists FALLBACK. split; [reflexivity |].
    split; [reflexivity | discriminate].
  - apply initialized_provider in Ei. subst s1.
    split; [| repeat split; reflexivity].
    eexists. split; [reflexivity |]. split; [discriminate |].
    intros _. split; [reflexivity |]. apply has_instance_add.
Qed.

(** X13. An answer of [generate_response] is either the bare template text
    of [_generate_fallback], or a dict attributed to the provider that is
    current after the call: that provider is registered, the dict carries
    its value, its model and its cost, the content is the template text
    when it is FALLBACK, and otherwise a client exists for it. The call
    changes neither the registrations, nor the host, nor the preference,
    and a provider that was current stays current. *)
Theorem answer_attribution (s : Session) (prompt : string)
    (kwargs : list (string * string)) (w : W) :
  let '(a, s', w') := generate_response s prompt kwargs w in
  match a with
  | Plain text => text = _generate_fallback prompt
  | Structured d =>
      exists p c,
        current_provider (manager s') = Some p
        /\ lookup p (available_providers (manager s')) = Some c
        /\ served_provider d = provider_value p
        /\ served_model d = model_name c
        /\ cost d = cost_per_request c
        /\ (p = FALLBACK -> content d = _generate_fallback prompt)
        /\ (p <> FALLBACK -> has_instance p s' = true)
  end
  /\ available_providers (manager s') = available_providers (manager s)
  /\ hardware_profile (manager s') = hardware_profile (manager s)
  /\ user_preference (manager s') = user_preference (manager s)
  /\ (forall p, current_provider (manager s) = Some p ->
                current_provider (manager s') = Some p).
Proof.
  unfold generate_response, generate_response_body.
  destruct (current_provider (manager s)) as [p0|] eqn:Ec.
  - rewrite Ec.
    destruct (lookup p0 (available_providers (manager s))) as [c|] eqn:El;
      [| repeat split; auto; intros; congruence].
    destruct (now w) as [t0 w2].
    destruct p0;
      try (destruct (has_instance _ s) eqn:Hi;
           [ destruct (client_generate _ c prompt kwargs w2) as [[e|text] w3];
             [| destruct (now w3) as [t1 w4] ] |]);
      try destruct (now w2) as [t1 w4];
      cbv beta iota zeta;
      (split;
       [ first [ reflexivity
               | do 2 eexists;
                 split; [exact Ec |]; split; [exact El |];
                 repeat split; try reflexivity; try congruence;
                 intros _; exact Hi ]
       | repeat split; auto; intros; congruence ]).
  - pose proof (initialize_keeps s w) as Hinit.
    destruct (initialize s w) as [[ok s1] w1].
    destruct Hinit as [[p [Hp _]] [Ha [Hh Hu]]].
    rewrite Hp.
    destruct (lookup p (available_providers (manager s1))) as [c|] eqn:El;
      [| repeat split; auto; discriminate].
    destruct (now w1) as [t0 w2].
    destruct p;
      try (destruct (has_instance _ s1) eqn:Hi;
           [ destruct (client_generate _ c prompt kwargs w2) as [[e|text] w3];
             [| destruct (now w3) as [t1 w4] ] |]);
      try destruct (now w2) as [t1 w4];
      cbv beta iota zeta;
      (split;
       [ first [ reflexivity
               | do 2 eexists;
                 split; [exact Hp |]; split; [exact El |];
                 repeat split; try reflexivity; try congruence;
                 intros _; exact Hi ]
       | repeat split; auto; discriminate ]).
Qed.

(** X14. Once a provider is current, a preference set with
    [set_user_preference] does not change who serves: the call gives the
    same answer and leaves the same provider current, whatever the
    preference asks for. *)
Theorem preference_after_first_call_is_ignored (s : Session)
    (p q : LLMProvider) (prompt : string) (kwargs : list (string * string))
    (w : W) :
  current_provider (manager s) = Some p ->
  fst (fst (generate_response (prefer s q) prompt kwargs w))
  = fst (fst (generate_response s prompt kwargs w))
  /\ snd (generate_response (prefer s q) prompt kwargs w)
     = snd (generate_response s prompt kwargs w)
  /\ current_provider
       (manager (snd (fst (generate_response (prefer s q) prompt kwargs w))))
     = Some p.
Proof.
  intros Ec.
  destruct (preference_keeps (manager s) q) as [_ [Ha Hc]].
  assert (Hc' : current_provider (manager (prefer s q)) = Some p)
    by (rewrite <- Ec; exact Hc).
  assert (Ha' : available_providers (manager (prefer s q))
                = available_providers (manager s)) by exact Ha.
  assert (Hi : forall x, has_instance x (prefer s q) = has_instance x s)
    by reflexivity.
  clear Ha Hc. revert Hc' Ha' Hi. generalize (prefer s q). intros s2 Hc' Ha' Hi.
  unfold generate_response, generate_response_body.
  rewrite Hc', Ec. cbv beta iota zeta. rewrite Hc', Ha', Ec.
  destruct (lookup p (available_providers (manager s))) as [c|];
    [| repeat split; exact Hc'].
  destruct (now w) as [t0 w2].
  destruct p;
    try (rewrite Hi; destruct (has_instance _ s);
         [ destruct (client_generate _ c prompt kwargs w2) as [[e|text] w3];
           [| destruct (now w3) as [t1 w4] ] |]);
    try destruct (now w2) as [t1 w4];
    repeat split; exact Hc'.
Qed.

(** X15. A first call on a session fresh from the constructor, with client
    libraries that cannot be loaded, is served by the template provider:
    the failed initialization is absorbed, FALLBACK becomes the current
    provider, and the answer is a dict with the template text, the model
    "enhanced-template" and no cost. *)
Theorem missing_clients_are_absorbed (hw : HardwareProfile) (env : Environment)
    (prompt : string) (kwargs : list (string * string)) (w : W) :
  (forall p c, exists e w', build_client p c w = (inl e, w')) ->
  exists d s' w',
    generate_response (new_session hw env) prompt kwargs w
    = (Structured d, s', w')
    /\ current_provider (manager s') = Some FALLBACK
    /\ content d = _generate_fallback prompt
    /\ served_provider d = "fallback"
    /\ served_model d = "enhanced-template"
    /\ cost d = 0%float.
Proof.
  intros Hbuild.
  destruct (providers_fallback hw env) as [cf [Hlf [Hmodel Hcost]]].
  assert (Hinit : exists s1 w1 ok,
             initialize (new_session hw env) w = (ok, s1, w1)
             /\ current_provider (manager s1) = Some FALLBACK
             /\ available_providers (manager s1) = _initialize_providers hw env).
  { unfold initialize.
    destruct (_initialize_provider _ _ w) as [[e|s1] w1] eqn:Ei.
    - do 3 eexists. split; [reflexivity |]. split; reflexivity.
    - do 3 eexists. split; [reflexivity |].
      unfold _initialize_provider in Ei.
      destruct (_select_best_provider (manager (new_session hw env)));
        match type of Ei with
        | context [lookup ?p ?d] =>
            destruct (lookup p d) as [c|]; [| discriminate]
        end;
        try match type of Ei with
            | context [build_client ?p ?c0 w] =>
                destruct (Hbuild p c0) as [e [w' Hb]]; rewrite Hb in Ei;
                discriminate
            end.
      inversion Ei; subst. split; reflexivity. }
  destruct Hinit as [s1 [w1 [ok [Hi [Hc Ha]]]]].
  unfold generate_response, generate_response_body.
  cbn [new_session manager new_manager current_provider]. 
  change (initialize {| manager := new_manager hw env; provider_instances := [] |} w)
    with (initialize (new_session hw env) w).
  rewrite Hi, Hc, Ha, Hlf.
  destruct (now w1) as [t0 w2]. destruct (now w2) as [t1 w4].
  do 3 eexists. split; [reflexivity |].
  cbn [content served_provider served_model cost provider_value].
  repeat split; auto.
Qed.

End Sessions.

(** *** Runs on concrete hosts *)

Module OnHosts.
Import Scenarios.Hosts Scenarios.Clients.

Lemma local_model_selected_without_gpu_witness :
  _select_best_provider (new_manager laptop two_keys) = DEEPSEEK_LOCAL.
Proof.
  apply (local_model_selected_without_gpu 4 1.1%float 8%float 0%float two_keys).
  vm_compute. reflexivity.
Defined.

(** The laptop after a first call, with its local model current. *)
Lemma preference_after_first_call_is_ignored_witness :
  exists s,
    snd (fst (generate_response (new_session laptop two_keys) "hello" [] 0%Z)) = s
    /\ current_provider (manager s) = Some DEEPSEEK_LOCAL
    /\ fst (fst (generate_response (prefer s OPENAI_API) "sort a list" [] 500000%Z))
       = fst (fst (generate_response s "sort a list" [] 500000%Z))
    /\ current_provider
         (manager (snd (fst (generate_response (prefer s OPENAI_API)
                               "sort a list" [] 500000%Z))))
       = Some DEEPSEEK_LOCAL.
Proof.
  eexists. split; [reflexivity |]. split; [vm_compute; reflexivity |].
  match goal with
  | |- fst (fst (generate_response (prefer ?s _) _ _ _)) = _ /\ _ =>
      destruct (preference_after_first_call_is_ignored s DEEPSEEK_LOCAL
                  OPENAI_API "sort a list" [] 500000%Z)
        as [Ha [_ Hc]]; [vm_compute; reflexivity |];
      split; [exact Ha | exact Hc]
  end.
Defined.

Lemma missing_clients_are_absorbed_witness :
  exists d s',
    generate_response (new_session laptop two_keys) "write code" [] tt
    = (Structured d, s', tt)
    /\ current_provider (manager s') = Some FALLBACK
    /\ content d = _generate_fallback "write code"
    /\ served_provider d = "fallback"
    /\ served_model d = "enhanced-template"
    /\ cost d = 0%float.
Proof.
  destruct (missing_clients_are_absorbed laptop two_keys "write code" [] tt)
    as [d [s' [w' Hrun]]].
  - intros p c. do 2 eexists. reflexivity.
  - destruct w'. exists d, s'. exact Hrun.
Defined.

(** With the libraries installed the same laptop is served by its local
    model, in the quarter of a second between two readings of the clock. *)
Lemma laptop_is_served_locally :
  fst (fst (generate_response (new_session laptop two_keys) "hello" [] 0%Z))
  = Structured {| content := "deepseek_local: hello";
                  served_provider := "deepseek_local";
                  served_model := "deepseek-r1-distill-qwen-1.5b-gguf";
                  cost := 0%float;
                  processing_time := 0.25%float;
                  hardware_optimized := true |}.
Proof. vm_compute. reflexivity. Qed.

End OnHosts.

End OptimizedMore.

(* ===================================================================== *)
(** ** More of the API manager *)
(* ===================================================================== *)

Module ApiMore.
Import Py ApiManager ApiProps.

Lemma type_eqb_refl (t : ModelType) : type_eqb t t = true.
Proof. destruct t; reflexivity. Qed.

Lemma has_model_In (t : ModelType) (l : list ModelType) :
  has_model t l = true <-> In t l.
Proof.
  unfold has_model. rewrite existsb_exists. split.
  - intros [u [Hin E]]. apply type_eqb_eq in E. subst. exact Hin.
  - intros Hin. exists t. split; [exact Hin | apply type_eqb_refl].
Qed.



(** The estimate of [_estimate_cost_per_request] is half the cost of a
    thousand tokens. *)
Lemma estimate_is_half (config : ModelConfig) :
  _estimate_cost_per_request config
  = PrimFloat.mul 0.5%float (cost_per_1k_tokens config).
Proof. reflexivity. Qed.

Section Calls.
Context {W : Type} `{Services W}.

(** What a model that answered returns. *)
Lemma generated_response (m : Manager) (t : ModelType) (prompt : string)
    (kw : Kwargs) (w w' : W) (r : LLMResponse) :
  _generate_with_model m t prompt kw w = (inr r, w') ->
  response_model_type r = t
  /\ has_model t (models m) = true
  /\ exists result, metadata r = FromProvider result
                    /\ tokens_used r = res_tokens_used result
                    /\ cost r = res_cost result.
Proof.
  unfold _generate_with_model.
  destruct (get_config t (model_configs m)); [| discriminate].
  destruct (has_model t (models m)); [| discriminate]. cbn [negb].
  destruct (provider_generate t prompt _ _ _ w) as [[e|result] w1]; [discriminate |].
  intros [= <- _]. repeat split. exists result. repeat split.
Qed.

(** The loop over the priority list either fails and leaves the manager
    alone, or it returns the answer of an enabled model with a provider
    that is not the current one, makes it current and counts the
    success. *)
Lemma try_fallback_from_cases (m : Manager) (order : list ModelType)
    (prompt : string) (kw : Kwargs) :
  forall w : W,
    match try_fallback_from m order prompt kw w with
    | (inl _, m', _) => m' = m
    | (inr r, m', _) =>
        In (response_model_type r) order
        /\ is_current m (response_model_type r) = false
        /\ has_model (response_model_type r) (models m) = true
        /\ config_enabled (response_model_type r) (model_configs m) = true
        /\ (exists result, metadata r = FromProvider result)
        /\ m' = set_metrics (set_current m (Some (response_model_type r)))
                  (record_success (metrics m) (response_model_type r) r)
    end.
Proof.
  induction order as [|t rest IH]; intros w; simpl; [reflexivity |].
  assert (Hrest : forall w0,
             match try_fallback_from m rest prompt kw w0 with
             | (inl _, m', _) => m' = m
             | (inr r, m', _) =>
                 In (response_model_type r) (t :: rest)
                 /\ is_current m (response_model_type r) = false
                 /\ has_model (response_model_type r) (models m) = true
                 /\ config_enabled (response_model_type r) (model_configs m) = true
                 /\ (exists result, metadata r = FromProvider result)
                 /\ m' = set_metrics (set_current m (Some (response_model_type r)))
                           (record_success (metrics m) (response_model_type r) r)
             end).
  { intros w0. specialize (IH w0).
    destruct (try_fallback_from m rest prompt kw w0) as [[[e|r] m'] w'];
      [exact IH |].
    destruct IH as [Hin Hother]. split; [right; exact Hin | exact Hother]. }
  destruct (is_current m t) eqn:Ecur; [apply Hrest |].
  destruct (has_model t (models m)) eqn:Eav; cbn [negb]; [| apply Hrest].
  destruct (config_enabled t (model_configs m)) eqn:Een; cbn [negb];
    [| apply Hrest].
  destruct (_generate_with_model m t prompt kw w) as [[e|r] w1] eqn:Eg;
    [apply Hrest |].
  destruct (generated_response _ _ _ _ _ _ _ Eg) as [Ht [_ [result [Hmeta _]]]].
  rewrite Ht. repeat split; auto. exists result. exact Hmeta.
Qed.

(** The [try] block of [generate_response] counts the request; when it
    raises nothing else has changed, and when it returns the answer comes
    from a provider, whose model is current afterwards. *)
Lemma body_cases (m : Manager) (prompt : string) (kw : Kwargs) (w : W) :
  match generate_response_body m prompt kw w with
  | (inl _, m', _) => m' = set_metrics m (count_request (metrics m))
  | (inr r, m', _) =>
      has_model (response_model_type r) (models m) = true
      /\ (exists result, metadata r = FromProvider result)
      /\ m' = set_metrics (set_current m (Some (response_model_type r)))
                (record_success (count_request (metrics m))
                   (response_model_type r) r)
  end.
Proof.
  unfold generate_response_body, _try_fallback_models.
  set (m0 := set_metrics m (count_request (metrics m))).
  assert (Hfb : forall w0,
             match try_fallback_from m0 (model_priority m0) prompt kw w0 with
             | (inl _, m', _) => m' = m0
             | (inr r, m', _) =>
                 has_model (response_model_type r) (models m) = true
                 /\ (exists result, metadata r = FromProvider result)
                 /\ m' = set_metrics (set_current m (Some (response_model_type r)))
                           (record_success (count_request (metrics m))
                              (response_model_type r) r)
             end).
  { intros w0. pose proof (try_fallback_from_cases m0 (model_priority m0) prompt kw w0) as Hc.
    destruct (try_fallback_from m0 (model_priority m0) prompt kw w0)
      as [[[e|r] m'] w']; [exact Hc |].
    destruct Hc as [_ [_ [Hav [_ [Hmeta Hm]]]]].
    split; [exact Hav |]. split; [exact Hmeta |]. exact Hm. }
  destruct (current_model m0) as [current|] eqn:Ec; [| apply Hfb].
  destruct (has_model current (models m0)) eqn:Eav; [| apply Hfb].
  destruct (_generate_with_model m0 current prompt kw w) as [[e|r] w1] eqn:Eg.
  - destruct (fallback_enabled m0); [apply Hfb | reflexivity].
  - destruct (generated_response _ _ _ _ _ _ _ Eg) as [Ht [_ [result [Hmeta _]]]].
    rewrite Ht. split; [exact Eav |]. split; [exists result; exact Hmeta |].
    subst m0. unfold set_metrics, set_current. simpl in Ec |- *. rewrite Ec.
    reflexivity.
Qed.

(** X17. Every call of [generate_response] counts one request and either
    one success or one failure, so a manager whose requests are the sum
    of its successes and failures stays so. A success is the answer of a
    provider and adds its tokens and its cost; a failure is the error
    response and adds neither. The providers, the configurations, the
    priority list and the fallback switch are not changed. *)
Theorem request_accounting (m : Manager) (prompt : string) (kw : Kwargs) (w : W) :
  exists r m' w',
    generate_response m prompt kw w = (inr r, m', w')
    /\ total_requests (metrics m') = (total_requests (metrics m) + 1)%Z
    /\ (successful_requests (metrics m') + failed_requests (metrics m')
        = successful_requests (metrics m) + failed_requests (metrics m) + 1)%Z
    /\ match metadata r with
       | FromProvider _ =>
           successful_requests (metrics m')
           = (successful_requests (metrics m) + 1)%Z
           /\ total_tokens (metrics m') = (total_tokens (metrics m) + tokens_used r)%Z
           /\ total_cost (metrics m') = PrimFloat.add (total_cost (metrics m)) (cost r)
       | FromError _ _ =>
           failed_requests (metrics m') = (failed_requests (metrics m) + 1)%Z
           /\ total_tokens (metrics m') = total_tokens (metrics m)
           /\ total_cost (metrics m') = total_cost (metrics m)
       end
    /\ models m' = models m
    /\ model_configs m' = model_configs m
    /\ model_priority m' = model_priority m
    /\ fallback_enabled m' = fallback_enabled m.
Proof.
  unfold generate_response. pose proof (body_cases m prompt kw w) as Hb.
  destruct (generate_response_body m prompt kw w) as [[[e|r] mb] wb].
  - subst mb. do 3 eexists. split; [reflexivity |]. simpl.
    repeat split; lia.
  - destruct Hb as [_ [[result Hmeta] Hm]]. subst mb.
    exists r. do 2 eexists. split; [reflexivity |]. rewrite Hmeta. simpl.
    repeat split; lia.
Qed.

(** X18. After an answer of a provider the answering model is the current
    model, it has a provider, and its use is counted once more under its
    value while the other counts stay; after the error response the
    current model and the counts are what they were. *)
Theorem answering_model_becomes_current (m : Manager) (prompt : string)
    (kw : Kwargs) (w : W) :
  exists r m' w',
    generate_response m prompt kw w = (inr r, m', w')
    /\ match metadata r with
       | FromProvider _ =>
           current_model m' = Some (response_model_type r)
           /\ has_model (response_model_type r) (models m') = true
           /\ forall name,
                count_for String.eqb name (model_usage (metrics m'))
                = (count_for String.eqb name (model_usage (metrics m))
                   + if String.eqb (type_value (response_model_type r)) name
                     then 1 else 0)%Z
       | FromError _ _ =>
           current_model m' = current_model m
           /\ model_usage (metrics m') = model_usage (metrics m)
       end.
Proof.
  unfold generate_response. pose proof (body_cases m prompt kw w) as Hb.
  destruct (generate_response_body m prompt kw w) as [[[e|r] mb] wb].
  - subst mb. do 3 eexists. split; [reflexivity |]. simpl. split; reflexivity.
  - destruct Hb as [Hav [[result Hmeta] Hm]]. subst mb.
    exists r. do 2 eexists. split; [reflexivity |]. rewrite Hmeta. simpl.
    split; [reflexivity |]. split; [exact Hav |].
    intros name. generalize (model_usage (metrics m)) as usage.
    induction usage as [|[k n] rest IH]; simpl.
    + destruct (String.eqb _ name); reflexivity.
    + destruct (String.eqb k (type_value (response_model_type r))) eqn:Ek; simpl.
      * apply String.eqb_eq in Ek. subst k.
        destruct (String.eqb _ name); lia.
      * destruct (String.eqb k name) eqn:En; [| exact IH].
        apply String.eqb_eq in En. subst k.
        rewrite String.eqb_sym in Ek. rewrite Ek. lia.
Qed.

End Calls.

Section HealthFacts.
Context {W : Type} `{Services W}.

Lemma type_value_inj (a b : ModelType) : type_value a = type_value b -> a = b.
Proof. destruct a, b; simpl; intros E; try reflexivity; discriminate E. Qed.

(** A key that is not in the dict is added at the end. *)
Lemma set_health_fresh (k : string) (v : ModelHealth)
    (d : list (string * ModelHealth)) :
  ~ In k (map fst d) -> set_health k v d = (d ++ [(k, v)])%list.
Proof.
  induction d as [|[k' v'] t IH]; simpl; intros Hk; [reflexivity |].
  destruct (String.eqb k' k) eqn:E.
  - apply String.eqb_eq in E. exfalso. apply Hk. left. exact E.
  - rewrite IH; [reflexivity |]. intros Hin. apply Hk. right. exact Hin.
Qed.

(** The loop adds one entry for each model, in order, and the overall
    status stays "healthy" exactly as long as every test succeeds. *)
Lemma check_models_inv (m : Manager) (todo : list ModelType) :
  forall (st : HealthStatus) (w : W),
    NoDup todo ->
    (forall t, In t todo -> ~ In (type_value t) (map fst (health_models st))) ->
    (overall_status st = "healthy"
     <-> Forall (fun e => test_successful (snd e) = true) (health_models st)) ->
    (overall_status st = "healthy" \/ overall_status st = "degraded") ->
    map fst (health_models (fst (check_models m todo st w)))
    = (map fst (health_models st) ++ map type_value todo)%list
    /\ (overall_status (fst (check_models m todo st w)) = "healthy"
        <-> Forall (fun e => test_successful (snd e) = true)
                   (health_models (fst (check_models m todo st w))))
    /\ (overall_status (fst (check_models m todo st w)) = "healthy"
        \/ overall_status (fst (check_models m todo st w)) = "degraded")
    /\ health_timestamp (fst (check_models m todo st w)) = health_timestamp st.
Proof.
  induction todo as [|t rest IH]; intros st w Hnd Hfresh Hinv Hst; simpl.
  - rewrite app_nil_r. auto.
  - inversion Hnd as [|? ? Ht Hrest]; subst.
    assert (Hk : ~ In (type_value t) (map fst (health_models st)))
      by (apply Hfresh; left; reflexivity).
    assert (Hfresh' : forall v u, In u rest ->
               ~ In (type_value u)
                    (map fst (set_health (type_value t) v (health_models st)))).
    { intros v u Hu. rewrite (set_health_fresh _ _ _ Hk), map_app. simpl.
      intros Hin. apply in_app_or in Hin. destruct Hin as [Hin | [E | []]].
      - exact (Hfresh u (or_intror Hu) Hin).
      - apply type_value_inj in E. subst u. exact (Ht Hu). }
    destruct (_generate_with_model m t "Hello" test_kwargs w) as [[e|r] w1].
    + match goal with
      | |- context [check_models m rest ?st1 w1] =>
          destruct (IH st1 w1 Hrest) as [Hkeys [Hiff [Hor Hts]]]
      end.
      * apply Hfresh'.
      * cbn [overall_status health_models].
        rewrite (set_health_fresh _ _ _ Hk). split; [discriminate |].
        intros Hall. apply Forall_app in Hall. destruct Hall as [_ Hlast].
        inversion Hlast as [|? ? Hbad _]. discriminate Hbad.
      * right. reflexivity.
      * split; [| split; [exact Hiff | split; [exact Hor | exact Hts]]].
        rewrite Hkeys. cbn [health_models].
        rewrite (set_health_fresh _ _ _ Hk), map_app, <- app_assoc.
        reflexivity.
    + match goal with
      | |- context [check_models m rest ?st1 w1] =>
          destruct (IH st1 w1 Hrest) as [Hkeys [Hiff [Hor Hts]]]
      end.
      * apply Hfresh'.
      * cbn [overall_status health_models].
        rewrite (set_health_fresh _ _ _ Hk). rewrite Hinv. split.
        -- intros Hall. apply Forall_app. split; [exact Hall |].
           repeat constructor.
        -- intros Hall. apply Forall_app in Hall. tauto.
      * exact Hst.
      * split; [| split; [exact Hiff | split; [exact Hor | exact Hts]]].
        rewrite Hkeys. cbn [health_models].
        rewrite (set_health_fresh _ _ _ Hk), map_app, <- app_assoc.
        reflexivity.
Qed.

(** X20. [health_check] reports one entry for each model with a provider,
    in the order of [self.models], and its overall status is "healthy"
    exactly when every test generation succeeded, and "degraded"
    otherwise. *)
Theorem health_check_verdict (m : Manager) (w : W) :
  NoDup (models m) ->
  map fst (health_models (fst (health_check m w)))
  = map type_value (models m)
  /\ (overall_status (fst (health_check m w)) = "healthy"
      <-> Forall (fun e => test_successful (snd e) = true)
                 (health_models (fst (health_check m w))))
  /\ (overall_status (fst (health_check m w)) = "healthy"
      \/ overall_status (fst (health_check m w)) = "degraded").
Proof.
  intros Hnd. unfold health_check.
  match goal with
  | |- context [check_models m (models m) ?st0 w] =>
      destruct (check_models_inv m (models m) st0 w Hnd)
        as [Hkeys [Hiff [Hor _]]]
  end.
  - intros t _ [].
  - simpl. split; [constructor | reflexivity].
  - left. reflexivity.
  - split; [exact Hkeys |]. split; [exact Hiff | exact Hor].
Qed.

End HealthFacts.

(** *** Runs with one provider down *)

Module OnApiUp.
Import Scenarios.ApiDown Scenarios.ApiUp.



Lemma health_check_verdict_witness :
  map fst (health_models (fst (health_check manager 0%nat)))
  = ["api_claude"; "api_gemini"]
  /\ overall_status (fst (health_check manager 0%nat)) = "degraded".
Proof.
  destruct (health_check_verdict manager 0%nat) as [Hkeys [_ Hor]].
  - repeat constructor; simpl; intuition discriminate.
  - split; [exact Hkeys |]. vm_compute. reflexivity.
Defined.

(** Gemini, the current model, is down: Claude answers, becomes the
    current model and is counted. *)
Lemma claude_takes_over :
  exists r m',
    generate_response manager "hello" no_kwargs 0%nat = (inr r, m', 2%nat)
    /\ content r = "answer to hello"
    /\ current_model m' = Some API_CLAUDE
    /\ model_usage (metrics m') = [("api_claude", 1%Z)]
    /\ total_requests (metrics m') = 1%Z
    /\ successful_requests (metrics m') = 1%Z
    /\ failed_requests (metrics m') = 0%Z.
Proof. do 2 eexists. vm_compute. repeat split. Qed.

End OnApiUp.

End ApiMore.

(* ===================================================================== *)
(** ** More of the engine coordinator *)
(* ===================================================================== *)

Module CoordinatorMore.
Import Py Coordinator CoordinatorProps.

#[local] Set Warnings "-inexact-float".

Lemma engine_eqb_eq (a b : EngineType) : engine_eqb a b = true <-> a = b.
Proof. destruct a, b; simpl; split; congruence. Qed.

Lemma engine_value_inj (a b : EngineType) :
  engine_value a = engine_value b -> a = b.
Proof. destruct a, b; simpl; intros E; try reflexivity; discriminate E. Qed.

(** *** Dicts in insertion order *)

Section DictSet.
Context {V : Type}.

Lemma dict_set_keys (k : string) (v : V) (d : list (string * V)) (x : string) :
  In x (map fst (dict_set k v d)) <-> x = k \/ In x (map fst d).
Proof.
  induction d as [|[k' v'] t IH]; simpl; [intuition auto |].
  destruct (String.eqb k' k) eqn:E; simpl.
  - apply String.eqb_eq in E. subst k'. intuition auto.
  - rewrite IH. intuition auto.
Qed.

Lemma dict_set_NoDup (k : string) (v : V) (d : list (string * V)) :
  NoDup (map fst d) -> NoDup (map fst (dict_set k v d)).
Proof.
  induction d as [|[k' v'] t IH]; simpl; intros Hnd.
  - constructor; [intros [] | constructor].
  - inversion Hnd as [|? ? Hk Ht]; subst.
    destruct (String.eqb k' k) eqn:E; simpl; [exact Hnd |].
    constructor; [| exact (IH Ht)].
    rewrite dict_set_keys. intros [Heq | Hin]; [| exact (Hk Hin)].
    subst k'. rewrite String.eqb_refl in E. discriminate E.
Qed.

End DictSet.

Section More.
Context {W Data Result Synth : Type} `{Engines W Data Result Synth}.

(** *** The adaptive strategy *)

(** X21. The plan of the adaptive strategy, read off the request: only an
    ENTERPRISE task takes the branch for high complexity (the score 0.7
    of a COMPLEX task is not above 0.7); a task that is not ENTERPRISE
    and mentions both parallel and creative work gets the two engines in
    "parallel" mode and loses the recall engine even when it mentions
    memory; in every case the engines come in the order recall, parallel,
    creative and only the engines whose cue words occur are planned. *)
Theorem adaptive_plan_shape (request : CoordinatedRequest Data) :
  let a := _analyze_task_for_optimal_engines request in
  let enterprise := match complexity request with
                    | ENTERPRISE => true
                    | _ => false
                    end in
  let together :=
    negb enterprise && requires_parallel a && requires_creativity a in
  map step_engine (_create_optimal_execution_plan a)
  = ((if requires_memory a && negb together then [PERFECT_RECALL] else [])
     ++ (if requires_parallel a then [PARALLEL_MIND] else [])
     ++ (if requires_creativity a then [CREATIVE] else []))%list
  /\ Forall (fun s => step_mode s
                      = if together then "parallel" else "sequential")
            (_create_optimal_execution_plan a)
  /\ Forall (fun s => enhance_next s
                      = negb together
                        && negb (enterprise
                                 && engine_eqb (step_engine s) CREATIVE))
            (_create_optimal_execution_plan a).
Proof.
  unfold _analyze_task_for_optimal_engines, _create_optimal_execution_plan,
    has_priority.
  cbn [requires_memory requires_parallel requires_creativity complexity_score
       engine_priorities].
  repeat match goal with
         | |- context [existsb (fun k => contains k ?d || contains k ?t) ?l] =>
             destruct (existsb (fun k => contains k d || contains k t) l)
         end;
    destruct (complexity request); vm_compute; repeat split;
    repeat constructor.
Qed.

(** The adaptive loop runs, in the order of the plan, the steps whose
    engine the request requires. *)
Lemma adaptive_from_types (c : Coordinator) (request : CoordinatedRequest Data)
    (steps : list Step) :
  forall (data : Data) (responses : list (EngineResponse Result)) (w : W),
    map engine_type (fst (adaptive_from c request steps data responses w))
    = (map engine_type responses
       ++ filter (fun e => existsb (engine_eqb e) (required_engines request))
                 (map step_engine steps))%list.
Proof.
  induction steps as [|step rest IH]; intros data responses w; simpl.
  - rewrite app_nil_r. reflexivity.
  - destruct (existsb (engine_eqb (step_engine step)) (required_engines request));
      [| apply IH].
    pose proof (timed_call_reports c (step_engine step) (task_type request)
                  data w) as [Ht _].
    destruct (_execute_engine_with_timing c (step_engine step)
                (task_type request) data w) as [response w'].
    simpl in Ht. rewrite IH, map_app, <- app_assoc. simpl. rewrite Ht.
    reflexivity.
Qed.

(** Each response of the adaptive loop is what the timed call of its
    engine returned. *)
Lemma adaptive_from_timed (c : Coordinator) (request : CoordinatedRequest Data)
    (steps : list Step) :
  forall (data : Data) (responses : list (EngineResponse Result)) (w : W)
         (P : EngineResponse Result -> Prop),
    (forall e d w0, P (fst (_execute_engine_with_timing c e (task_type request) d w0))) ->
    Forall P responses ->
    Forall P (fst (adaptive_from c request steps data responses w)).
Proof.
  induction steps as [|step rest IH]; intros data responses w P Hstep Hall;
    simpl; [exact Hall |].
  destruct (existsb (engine_eqb (step_engine step)) (required_engines request));
    [| apply IH; assumption].
  pose proof (Hstep (step_engine step) data w) as Hr.
  destruct (_execute_engine_with_timing c (step_engine step)
              (task_type request) data w) as [response w'].
  apply IH; [exact Hstep |]. apply Forall_app. split; [exact Hall |].
  constructor; [exact Hr | constructor].
Qed.


(** *** The coordinated task *)

(** X23. When the strategy returns no response at all,
    [execute_coordinated_task] raises [ZeroDivisionError] from the summary,
    after the metrics have been updated: the task is counted and the
    success rate moves towards 0, the utilizations stay. *)
Theorem no_response_raises_after_counting (c : Coordinator)
    (request : CoordinatedRequest Data) (w : W) :
  fst (strategy c request w) = [] ->
  exists c' w',
    execute_coordinated_task c request w
    = (inl {| exc_type := "ZeroDivisionError"; exc_str := "division by zero" |},
       c', w')
    /\ engines c' = engines c
    /\ total_coordinated_tasks (coordination_metrics c')
       = (total_coordinated_tasks (coordination_metrics c) + 1)%Z
    /\ coordination_success_rate (coordination_metrics c')
       = ema (coordination_success_rate (coordination_metrics c)) 0%float
    /\ utilization_recall (coordination_metrics c')
       = utilization_recall (coordination_metrics c)
    /\ utilization_parallel (coordination_metrics c')
       = utilization_parallel (coordination_metrics c)
    /\ utilization_creative (coordination_metrics c')
       = utilization_creative (coordination_metrics c).
Proof.
  intros Hnone. unfold execute_coordinated_task.
  destruct (strategy c request w) as [responses w']. simpl in Hnone. subst.
  unfold _synthesize_results. simpl.
  do 2 eexists. repeat split.
Qed.

(** *** The sequential strategy *)

(** The responses of the sequential loop from the position of the first
    new one: a success carries its position, counted from 1, as
    [execution_order]; a failure carries the text of its error and no
    position. *)
Lemma sequential_from_order (c : Coordinator) (task : string)
    (todo : list EngineType) :
  forall (data : Data) (responses : list (EngineResponse Result)) (w : W)
         (i : nat) (r : EngineResponse Result),
    nth_error (fst (sequential_from c task todo data responses w)) i = Some r ->
    (List.length responses <= i)%nat ->
    if success r
    then execution_order (metadata r) = Some (Z.of_nat i + 1)%Z
    else execution_order (metadata r) = None
         /\ exists text, error (metadata r) = Some text.
Proof.
  induction todo as [|e rest IH]; intros data responses w i r Hnth Hi; simpl in Hnth.
  - assert (Hlt : (i < List.length responses)%nat)
      by (apply nth_error_Some; congruence).
    lia.
  - destruct (registered c e); simpl in Hnth; [| exact (IH _ _ _ _ _ Hnth Hi)].
    destruct (_execute_single_engine c e task data w) as [[x|res] w'];
      match type of Hnth with
      | nth_error (fst (sequential_from c task rest ?d (responses ++ [?new])%list w')) i = _ =>
          destruct (Nat.eq_dec i (List.length responses)) as [Heq | Hne];
          [ destruct (sequential_from_keeps c task rest d
                        (responses ++ [new])%list w') as [more Hm];
            rewrite Hm, <- app_assoc, nth_error_app2 in Hnth by lia;
            subst i; rewrite Nat.sub_diag in Hnth; simpl in Hnth;
            injection Hnth as <-; simpl
          | apply (IH _ _ _ _ _ Hnth); rewrite length_app; simpl; lia ]
      end.
    + split; [reflexivity | eauto].
    + reflexivity.
Qed.

(** X24. In the sequential strategy a successful response carries as
    [execution_order] its position among all the responses, the failed
    ones included, counted from 1; a failed response carries the text of
    its error and no order. *)
Theorem sequential_execution_order (c : Coordinator)
    (request : CoordinatedRequest Data) (w : W) (i : nat)
    (r : EngineResponse Result) :
  nth_error (fst (_execute_sequential c request w)) i = Some r ->
  if success r
  then execution_order (metadata r) = Some (Z.of_nat i + 1)%Z
  else execution_order (metadata r) = None
       /\ exists text, error (metadata r) = Some text.
Proof.
  unfold _execute_sequential. intros Hnth.
  apply (sequential_from_order _ _ _ _ _ _ _ _ Hnth). simpl. lia.
Qed.

(** *** The default synthesis *)

Lemma merged_keys (l : list (EngineResponse Result)) :
  forall (d : list (string * option Result)) (k : string),
    In k (map fst (fold_left (fun d r => dict_set (engine_value (engine_type r))
                                                  (result r) d) l d))
    <-> In k (map fst d) \/ exists r, In r l /\ engine_value (engine_type r) = k.
Proof.
  induction l as [|r t IH]; intros d k; simpl.
  - split; [auto | intros [Hd | [r [[] _]]]; exact Hd].
  - rewrite IH, dict_set_keys. split.
    + intros [[Hk | Hd] | [r' [Hin Hk]]]; eauto.
    + intros [Hd | [r' [[Heq | Hin] Hk]]]; subst; eauto.
Qed.

Lemma merged_NoDup (l : list (EngineResponse Result)) :
  forall d : list (string * option Result),
    NoDup (map fst d) ->
    NoDup (map fst (fold_left (fun d r => dict_set (engine_value (engine_type r))
                                                   (result r) d) l d)).
Proof.
  induction l as [|r t IH]; intros d Hnd; simpl; [exact Hnd |].
  apply IH. apply dict_set_NoDup. exact Hnd.
Qed.

(** X25. For a task type without a synthesis of its own the primary
    result is the mark "all engines failed" when no response succeeded;
    otherwise it holds one entry for each engine that succeeded, and
    names as primary source the engine of the first successful response
    in the order of the responses. *)
Theorem default_synthesis_shape (request : CoordinatedRequest Data)
    (responses : list (EngineResponse Result)) :
  String.eqb (task_type request) "creative_debugging"
  || String.eqb (task_type request) "comprehensive_analysis"
  || String.eqb (task_type request) "intelligent_generation" = false ->
  match _synthesize_results request responses with
  | inr (AllEnginesFailed task) =>
      task = task_id request /\ any_success responses = false
  | inr (DefaultMerge individual primary) =>
      NoDup (map fst individual)
      /\ (forall e, In (engine_value e) (map fst individual)
                    <-> exists r, In r responses /\ success r = true
                                  /\ engine_type r = e)
      /\ exists before first after,
           responses = (before ++ first :: after)%list
           /\ Forall (fun r => success r = false) before
           /\ success first = true
           /\ primary = engine_value (engine_type first)
  | _ => False
  end.
Proof.
  intros Ht. unfold _synthesize_results. rewrite Ht.
  destruct (filter success responses) as [|first rest] eqn:Ef.
  - split; [reflexivity |]. unfold any_success.
    destruct (existsb success responses) eqn:E; [| reflexivity].
    apply existsb_exists in E. destruct E as [r [Hin Hs]].
    assert (Hf : In r (filter success responses))
      by (apply filter_In; auto).
    rewrite Ef in Hf. contradiction.
  - split; [apply merged_NoDup; constructor |]. split.
    + intros e. rewrite merged_keys, <- Ef. split.
      * intros [[] | [r [Hin Hk]]]. apply filter_In in Hin.
        apply engine_value_inj in Hk. exists r. tauto.
      * intros [r [Hin [Hs He]]]. right. exists r.
        split; [apply filter_In; auto | congruence].
    + clear Ht. revert first rest Ef.
      induction responses as [|r t IH]; intros first rest Ef;
        [discriminate |].
      simpl in Ef. destruct (success r) eqn:Es.
      * injection Ef as <- _. exists [], r, t. repeat split; auto.
      * destruct (IH first rest Ef) as [before [f [after [Hr [Hb [Hs Hp]]]]]].
        exists (r :: before), f, after. subst t. repeat split; auto.
Qed.

End More.

(** *** Runs with a broken recall engine *)

Module OnEngines.
Import Scenarios.Engines.

Lemma no_response_raises_after_counting_witness :
  exists c',
    execute_coordinated_task fresh (request [CREATIVE] "adaptive") 0%nat
    = (inl {| exc_type := "ZeroDivisionError"; exc_str := "division by zero" |},
       c', 0%nat)
    /\ total_coordinated_tasks (coordination_metrics c') = 1%Z.
Proof.
  destruct (no_response_raises_after_counting fresh
              (request [CREATIVE] "adaptive") 0%nat)
    as [c' [w' [Hrun [_ [Hcount _]]]]].
  - vm_compute. reflexivity.
  - exists c'. split; [| exact Hcount].
    rewrite Hrun. f_equal. vm_compute in Hrun.
    injection Hrun as _ <-. reflexivity.
Defined.

Lemma sequential_execution_order_witness :
  exists r,
    nth_error (fst (_execute_sequential fresh
                      (request [PERFECT_RECALL; CREATIVE] "sequential") 0%nat))
              1 = Some r
    /\ success r = true
    /\ execution_order (metadata r) = Some 2%Z.
Proof.
  eexists. split; [vm_compute; reflexivity |]. split; [reflexivity |].
  exact (sequential_execution_order fresh
           (request [PERFECT_RECALL; CREATIVE] "sequential") 0%nat 1 _ eq_refl).
Defined.

Lemma default_synthesis_shape_witness :
  exists individual primary,
    _synthesize_results (request [PERFECT_RECALL; CREATIVE] "sequential")
      (fst (_execute_sequential fresh
              (request [PERFECT_RECALL; CREATIVE] "sequential") 0%nat))
    = inr (DefaultMerge individual primary)
    /\ NoDup (map fst individual)
    /\ In "creative" (map fst individual).
Proof.
  set (req := request [PERFECT_RECALL; CREATIVE] "sequential").
  set (responses := fst (_execute_sequential fresh req 0%nat)).
  pose proof (default_synthesis_shape req responses eq_refl) as Hshape.
  assert (E : _synthesize_results req responses
              = inr (DefaultMerge [("creative", Some "solutions for [context]")]
                       "creative")) by (vm_compute; reflexivity).
  rewrite E in Hshape. destruct Hshape as [Hnd [Hkeys _]].
  do 2 eexists. split; [exact E |]. split; [exact Hnd |].
  apply (Hkeys CREATIVE). eexists. split; [right; left; reflexivity |].
  split; reflexivity.
Defined.

(** The request mentions a recall and nothing else: the adaptive strategy
    plans the recall engine only, which the request does not require, and
    leaves out the creative engine, which it does. *)
Lemma adaptive_without_cue_runs_nothing :
  fst (_execute_adaptive fresh (request [CREATIVE] "adaptive") 0%nat) = [].
Proof. vm_compute. reflexivity. Qed.

End OnEngines.

End CoordinatorMore.

(* ===================================================================== *)
(** ** More of the enhanced manager *)
(* ===================================================================== *)

Module EnhancedMore.
Import Py PyStrings EnhancedManager EnhancedProps.

#[local] Set Warnings "-inexact-float".

(** *** The latency average over calls of both outcomes *)

(** Over the rationals the average times the number of recorded calls is
    the sum of their latencies, whatever their outcomes. *)
Lemma running_total_step (s : Stats Q) (n : Z) (total : Q) (ok : bool)
    (latency : Q) :
  (0 <= n)%Z ->
  (successful_requests s + failed_requests s)%Z = n ->
  (average_latency s * inject_Z n == total)%Q ->
  (successful_requests (_update_stats s ok latency)
   + failed_requests (_update_stats s ok latency))%Z = (n + 1)%Z
  /\ (average_latency (_update_stats s ok latency) * inject_Z (n + 1)
      == total + latency)%Q.
Proof.
  intros Hn Hs Havg.
  destruct (update_formula s ok latency) as [Hcount Hform]; [lia |].
  cbv zeta in Hcount, Hform. rewrite Hs in Hcount.
  split; [exact Hcount |].
  rewrite Hform, Hcount. simpl.
  replace (n + 1 - 1)%Z with n by lia. rewrite <- Havg.
  assert (Hnz : ~ (inject_Z (n + 1) == 0)%Q) by (unfold Qeq; simpl; lia).
  field. exact Hnz.
Qed.

Lemma running_total_fold (calls : list (bool * Q)) :
  forall (s : Stats Q) (n : Z) (total : Q),
    (0 <= n)%Z ->
    (successful_requests s + failed_requests s)%Z = n ->
    (average_latency s * inject_Z n == total)%Q ->
    let s' := fold_left (fun s c => _update_stats s (fst c) (snd c)) calls s in
    (successful_requests s' + failed_requests s')%Z
    = (n + Z.of_nat (List.length calls))%Z
    /\ (average_latency s' * inject_Z (n + Z.of_nat (List.length calls))
        == fold_left Qplus (map snd calls) total)%Q.
Proof.
  induction calls as [|[ok l] t IH]; intros s n total Hn Hs Havg; simpl fold_left.
  - simpl. replace (n + 0)%Z with n by lia. split; [exact Hs | exact Havg].
  - replace (n + Z.of_nat (List.length ((ok, l) :: t)))%Z
      with ((n + 1) + Z.of_nat (List.length t))%Z by (simpl List.length; lia).
    destruct (running_total_step s n total ok l Hn Hs Havg) as [Hs' Havg'].
    apply IH; [lia | assumption..].
Qed.


(** *** The catalogue *)

Lemma get_info_key (d : list (string * ModelInfo)) (id : string)
    (info : ModelInfo) :
  get_info id d = Some info -> In id (map fst d).
Proof.
  induction d as [|[k i] t IH]; simpl; [discriminate |].
  destruct (String.eqb k id) eqn:E.
  - apply String.eqb_eq in E. auto.
  - auto.
Qed.

(** X27. [_get_cost_per_token] answers 0.0 exactly when the lower-cased
    id is a key of [available_models] whose source mentions "local" or
    "cpu"; every other answer is a positive estimate. The keys are
    compared as they are, so when every registered id holds an upper-case
    letter no model is free, whatever its source. *)
Theorem free_models_are_lower_case_local (d : list (string * ModelInfo))
    (model_id : string) :
  PrimFloat.eqb (_get_cost_per_token d model_id) 0%float
  = match get_info (lower model_id) d with
    | Some info => contains "local" (source_of info)
                   || contains "cpu" (source_of info)
    | None => false
    end
  /\ PrimFloat.leb 0%float (_get_cost_per_token d model_id) = true
  /\ (Forall (fun e => lower (fst e) <> fst e) d ->
      PrimFloat.eqb (_get_cost_per_token d model_id) 0%float = false).
Proof.
  assert (Hcost : PrimFloat.eqb (_get_cost_per_token d model_id) 0%float
                  = match get_info (lower model_id) d with
                    | Some info => contains "local" (source_of info)
                                   || contains "cpu" (source_of info)
                    | None => false
                    end
                  /\ PrimFloat.leb 0%float (_get_cost_per_token d model_id) = true).
  { unfold _get_cost_per_token.
    destruct (match get_info (lower model_id) d with
              | Some info => _
              | None => false
              end); [split; reflexivity |].
    repeat match goal with
           | |- context [if contains ?a ?b then _ else _] =>
               destruct (contains a b)
           end; split; reflexivity. }
  destruct Hcost as [Hzero Hpos]. split; [exact Hzero |]. split; [exact Hpos |].
  intros Hupper. rewrite Hzero.
  destruct (get_info (lower model_id) d) as [info|] eqn:E; [| reflexivity].
  exfalso. apply get_info_key in E. apply in_map_iff in E.
  destruct E as [[k i] [Hk Hin]]. simpl in Hk.
  rewrite Forall_forall in Hupper. apply (Hupper _ Hin). simpl.
  rewrite Hk. apply lower_idem.
Qed.

(** X28. [_get_model_features] never reports "fallback_capable", not even
    for "deepseek-r1", which is in every fallback chain: the chain is
    asked for without [await], the membership test on the coroutine
    raises, and the bare [except] drops the error. The features are
    drawn from the five other names. *)
Theorem fallback_capable_is_never_reported (fm : FallbackManager.Manager)
    (model_id : string) (info : ModelInfo) :
  Forall (fun f => In f ["local_inference"; "offline_capable";
                         "cloud_inference"; "code_generation"; "high_quality"])
         (_get_model_features fm model_id info)
  /\ mem "fallback_capable" (_get_model_features fm model_id info) = false
  /\ In "deepseek-r1"
        (FallbackManager.get_fallback_chain fm (Some "dummy-model")).
Proof.
  assert (Hall : Forall (fun f => In f ["local_inference"; "offline_capable";
                                        "cloud_inference"; "code_generation";
                                        "high_quality"])
                        (_get_model_features fm model_id info)).
  { unfold _get_model_features, call_without_await, py_in.
    repeat match goal with
           | |- context [if ?b then _ else _] => destruct b
           end; simpl;
      repeat (apply Forall_cons; [simpl; tauto |]); apply Forall_nil. }
  split; [exact Hall |]. split.
  - destruct (mem "fallback_capable" (_get_model_features fm model_id info))
      eqn:E; [| reflexivity].
    apply PyFacts.mem_In in E. rewrite Forall_forall in Hall.
    specialize (Hall _ E). simpl in Hall.
    repeat destruct Hall as [Hall | Hall]; try discriminate Hall.
    contradiction.
  - apply FallbackProps.chain_In. unfold FallbackManager.raw_fallback_chain.
    apply in_or_app. right. simpl. auto.
Qed.

(** [_detect_provider] reads the name without regard to letter case, and
    "deepseek" wins over every other cue. *)
Lemma detect_provider_ignores_case (model_name : string) :
  _detect_provider (lower model_name) = _detect_provider model_name.
Proof. unfold _detect_provider. rewrite lower_idem. reflexivity. Qed.

Lemma deepseek_is_detected_first (before after : string) :
  _detect_provider (before ++ "DeepSeek" ++ after) = "deepseek".
Proof.
  unfold _detect_provider. rewrite !lower_app.
  change (lower "DeepSeek") with "deepseek".
  rewrite contains_app_r; [reflexivity |].
  apply contains_app_l. reflexivity.
Qed.

(** *** Runs on concrete data *)


(** A local model that is registered under a name with capitals is
    charged like the API model its name recalls. *)
Lemma free_models_are_lower_case_local_witness :
  _get_cost_per_token
    [("DeepSeek-Local", {| source := Some "local-gguf"; info_provider := None;
                           status := None |})]
    "DeepSeek-Local" = 0.0005%float
  /\ PrimFloat.eqb
       (_get_cost_per_token
          [("DeepSeek-Local", {| source := Some "local-gguf";
                                 info_provider := None; status := None |})]
          "DeepSeek-Local") 0%float = false.
Proof.
  split; [vm_compute; reflexivity |].
  apply (free_models_are_lower_case_local
           [("DeepSeek-Local", {| source := Some "local-gguf";
                                  info_provider := None; status := None |})]
           "DeepSeek-Local").
  repeat constructor. simpl. discriminate.
Defined.

End EnhancedMore.

(* ===================================================================== *)
(** ** The bridge to the providers *)
(* ===================================================================== *)

Module BridgeMore.
Import Py Bridge.

Lemma get_provider_In (model : string) (d : list (string * Integration))
    (p : Integration) :
  get_provider model d = Some p -> In (model, p) d.
Proof.
  induction d as [|[k q] t IH]; simpl; [discriminate |].
  destruct (String.eqb k model) eqn:E.
  - apply String.eqb_eq in E. subst. intros [= ->]. auto.
  - auto.
Qed.

Section Calls.
Context {W : Type} `{Host W}.

(** The text of an answer is never empty. *)
Lemma answer_of_not_empty (model message : string) (r : PyExc + string) :
  answer_of model message r <> "".
Proof.
  unfold answer_of. destruct r as [e|response].
  - discriminate.
  - destruct (String.eqb response "") eqn:E; [discriminate |].
    intros Heq. rewrite Heq in E. discriminate E.
Qed.

Lemma initialize_initialized (b : LLMBridge) (w : W) :
  initialized (fst (initialize b w)) = true.
Proof.
  unfold initialize.
  repeat match goal with
         | |- context [let '(_, _) := ?x in _] => destruct x
         end.
  reflexivity.
Qed.

(** X29. [generate_response] of the bridge never raises and always
    returns a text that is not empty; afterwards the bridge is
    initialized. Without any provider the text is the notice about the
    API keys. Otherwise the request goes to the provider registered under
    the model, or, for a model that is not registered, to the first
    provider registered; the text is the answer of that provider, or a
    default that quotes the message when the answer is empty, or, when
    the provider raises, an error text that names the model served: a
    failure is reported in the text, not as an exception. *)
Theorem bridge_always_answers (b : LLMBridge) (message model : string)
    (kwargs : list (string * string)) (w : W) :
  let '(text, b', w') := generate_response b message model kwargs w in
  initialized b' = true
  /\ text <> ""
  /\ match providers b' with
     | [] => text = no_providers_notice
     | (first, _) :: _ =>
         exists name p w1,
           In (name, p) (providers b')
           /\ name = match get_provider model (providers b') with
                      | Some _ => model
                      | None => first
                      end
           /\ text = answer_of name message
                       (fst (provider_generate p message kwargs w1))
     end.
Proof.
  unfold generate_response.
  assert (Hinit : initialized (fst (if initialized b then (b, w)
                                    else initialize b w)) = true).
  { destruct (initialized b) eqn:E; [exact E | apply initialize_initialized]. }
  destruct (if initialized b then (b, w) else initialize b w) as [b1 w1].
  simpl in Hinit.
  destruct (get_provider model (providers b1)) as [p|] eqn:Eg.
  - destruct (provider_generate p message kwargs w1) as [r w2] eqn:Ep.
    cbv beta iota zeta.
    split; [exact Hinit |]. split; [apply answer_of_not_empty |].
    pose proof (get_provider_In _ _ _ Eg) as Hin.
    destruct (providers b1) as [|[first q] rest]; [contradiction |].
    exists model, p, w1. rewrite Ep, Eg.
    split; [exact Hin |]. split; reflexivity.
  - destruct (providers b1) as [|[first q] rest] eqn:Epr.
    + cbv beta iota zeta. rewrite Epr.
      split; [exact Hinit |]. split; [discriminate | reflexivity].
    + destruct (provider_generate q message kwargs w1) as [r w2] eqn:Ep.
      cbv beta iota zeta. rewrite Epr.
      split; [exact Hinit |]. split; [apply answer_of_not_empty |].
      exists first, q, w1. rewrite Ep, Eg.
      split; [left; reflexivity |]. split; reflexivity.
Qed.

(** X30. [initialize] on a fresh bridge always ends initialized, whatever
    fails on the way. It registers, in this order, "deepseek-r1", the two
    OpenAI models together, "llama-3.1-70b" and "deepseek-coder", each
    group as a whole or not at all and each under its own integration;
    when the environment holds no API key only the local Llama model can
    be registered. *)
Theorem bridge_initialize_registers (w : W) :
  initialized (fst (initialize new_bridge w)) = true
  /\ (exists r1 oa ll dc : bool,
        providers (fst (initialize new_bridge w))
        = ((if r1 then [("deepseek-r1", DeepSeekR1Integration)] else [])
           ++ (if oa then [("gpt-4o-mini", OpenAIIntegration);
                           ("gpt-4o", OpenAIIntegration)] else [])
           ++ (if ll then [("llama-3.1-70b", LlamaLocalIntegration)] else [])
           ++ (if dc then [("deepseek-coder", DeepSeekIntegration)] else []))%list)
  /\ ((forall name w0, getenv name w0 = None) ->
      providers (fst (initialize new_bridge w)) = []
      \/ providers (fst (initialize new_bridge w))
         = [("llama-3.1-70b", LlamaLocalIntegration)]).
Proof.
  split; [apply initialize_initialized |].
  unfold initialize, register, new_bridge, _check_llama_availability.
  repeat match goal with
         | |- context [env_set ?n ?w0] => destruct (env_set n w0) eqn:?
         | |- context [construct ?p ?w0] =>
             destruct (construct p w0) as [[?|?] ?]
         | |- context [check_availability ?w0] =>
             destruct (check_availability w0) as [[?|[|]] ?]
         end;
    cbn;
    (split;
     [ (exists true + exists false); (exists true + exists false);
       (exists true + exists false); (exists true + exists false);
       reflexivity
     | intros Hnone;
       repeat match goal with
              | E : env_set _ _ = true |- _ =>
                  unfold env_set in E; rewrite Hnone in E; discriminate E
              end;
       ((left; reflexivity) + (right; reflexivity)) ]).
Qed.

End Calls.

(** *** Runs on a host with the OpenAI key only *)

Module OnBridgeHost.
Import Scenarios.BridgeHost.

Lemma bridge_initialize_registers_witness :
  initialized (fst (initialize new_bridge 0%nat)) = true
  /\ providers (fst (initialize new_bridge 0%nat))
     = [("gpt-4o-mini", OpenAIIntegration); ("gpt-4o", OpenAIIntegration)].
Proof.
  split; [exact (proj1 (bridge_initialize_registers 0%nat)) |].
  vm_compute. reflexivity.
Defined.

(** A model the bridge does not know is served by the first provider; a
    provider that raises is reported in the text of the answer. *)
Lemma unknown_model_and_failure_are_absorbed :
  fst (fst (generate_response new_bridge "hello" "claude-3" [] 0%nat))
  = "echo: hello"
  /\ fst (fst (generate_response new_bridge "hello" "claude-3" [] 1%nat))
     = "Error generating response with gpt-4o-mini: 429 too many requests".
Proof. split; vm_compute; reflexivity. Qed.

End OnBridgeHost.

End BridgeMore.
